(** * pandas-streaming: the incremental aggregation core ([core.py])

    A shallow embedding of [pandas_streaming/core.py]: the typed streaming
    handles ([Streaming], [StreamingFrame], [StreamingDataFrame],
    [StreamingSeries]), the grouped handle ([StreamingSeriesGroupby]) and the
    accumulator functions ([_accumulate_sum], [_accumulate_mean],
    [_accumulate_groupby_sum], [_accumulate_groupby_mean], [_roll]).

    The two libraries the module is written against are modelled first:
    the fragment of pandas the module calls (namespace [pd]) and the
    fragment of the streamz push engine it calls (namespace [streamz]).
    Python values are dynamically typed, so chunks, scalars, accumulator
    states and tuples all live in one universe, [value]; an operation that
    raises in Python returns [Raise e].

    Four methods of the module are not embedded. [assign] and
    [__setitem__] zip any number of streams and concatenate chunks column
    by column, where pandas allows a column label to occur twice; the
    stream model here zips two streams and a row holds one cell per label.
    [__repr__] and [_repr_html_] return pandas' rendering of the example as
    text. *)

From Stdlib Require Import ZArith QArith Qcanon Qround Floats.
From stdpp Require Import base option numbers list sorting strings gmap fin_maps.

Local Open Scope Z_scope.

(** ** Exceptions and fallible results *)

Inductive exn :=
| TypeError
| IndexError
| KeyError
| AttributeError
| ValueError
| ZeroDivisionError
| AssertionError.

Inductive result (A : Type) :=
| Ok (a : A)
| Raise (e : exn).

Arguments Ok {A} a.
Arguments Raise {A} e.

#[global] Instance result_ret : MRet result := fun A a => Ok a.

#[global] Instance result_bind : MBind result :=
  fun A B f m => match m with Ok a => f a | Raise e => Raise e end.

#[global] Instance result_fmap : FMap result :=
  fun A B f m => match m with Ok a => Ok (f a) | Raise e => Raise e end.

(** ** Numbers

    A numeric cell is an exact rational or the missing marker [NaN].
    The model has no rounding and no infinities: a division by zero
    yields [NaN]. *)

Inductive num :=
| NaN
| Fin (q : Qc).

#[global] Instance num_eq_dec : EqDecision num.
Proof. solve_decision. Defined.

Definition num_of_Z (z : Z) : num := Fin (Q2Qc (inject_Z z)).

Definition num_lift2 (f : Qc -> Qc -> Qc) (a b : num) : num :=
  match a, b with
  | Fin x, Fin y => Fin (f x y)
  | _, _ => NaN
  end.

Definition num_add : num -> num -> num := num_lift2 Qcplus.
Definition num_mul : num -> num -> num := num_lift2 Qcmult.

Definition Qc_floor (q : Qc) : Qc := Q2Qc (inject_Z (Qfloor q)).

Definition num_truediv (a b : num) : num :=
  match a, b with
  | Fin x, Fin y => if decide (y = 0%Qc) then NaN else Fin (x / y)%Qc
  | _, _ => NaN
  end.

Definition num_floordiv (a b : num) : num :=
  match a, b with
  | Fin x, Fin y => if decide (y = 0%Qc) then NaN else Fin (Qc_floor (x / y)%Qc)
  | _, _ => NaN
  end.

Definition num_mod (a b : num) : num :=
  match a, b with
  | Fin x, Fin y =>
      if decide (y = 0%Qc) then NaN else Fin (x - y * Qc_floor (x / y))%Qc
  | _, _ => NaN
  end.

(** Sum and count of a column skip the missing cells ([skipna=True]). *)
Definition nansum (l : list num) : Qc :=
  foldr (fun x acc => match x with Fin q => (q + acc)%Qc | NaN => acc end) 0%Qc l.

Definition nancount (l : list num) : Qc :=
  foldr (fun x acc => match x with Fin _ => (1 + acc)%Qc | NaN => acc end) 0%Qc l.

Definition label := string.

(** [tabulate ks f] is the finite table with index [ks] and entry [f k] at [k]. *)
Definition tabulate {K} `{Countable K} {A} (ks : list K) (f : K -> A) : gmap K A :=
  list_to_map ((fun k => (k, f k)) <$> ks).

(** ** The pandas fragment *)

Module pd.

(** A [Series] chunk: an optional name and rows of (index label, cell).
    Index labels are integers: positions or timestamps in nanoseconds. *)
Record Series := mkSeries {
  name : option label;
  items : list (Z * num)
}.

(** A [DataFrame] chunk: the ordered column labels and the rows; a row maps
    column labels to cells and a cell that is absent reads as [NaN]. *)
Record DataFrame := mkFrame {
  columns : list label;
  rows : list (Z * gmap label num)
}.

#[global] Instance Series_eq_dec : EqDecision Series.
Proof. solve_decision. Defined.

Definition cell (r : gmap label num) (c : label) : num := default NaN (r !! c).

Definition values (s : Series) : list num := snd <$> items s.

Definition column (df : DataFrame) (c : label) : list num :=
  (fun ir => cell (snd ir) c) <$> rows df.

(** [pd.DataFrame({c: [] for c in columns})] *)
Definition empty_frame (cols : list label) : DataFrame := mkFrame cols [].

(** [df[c]] *)
Definition getitem_column (df : DataFrame) (c : label) : Series :=
  mkSeries (Some c) ((fun ir => (fst ir, cell (snd ir) c)) <$> rows df).

(** [df[[c1; ...; cn]]] *)
Definition getitem_columns (df : DataFrame) (cs : list label) : DataFrame :=
  mkFrame cs ((fun ir => (fst ir, tabulate cs (cell (snd ir)))) <$> rows df).

(** ** Tables with a unique index

    An aggregate (the result of [sum], [count], [mean] on a frame or on a
    group-by) is indexed by column labels or by group keys, each occurring
    once and in sorted order, so it is a finite map from its index. A
    group key is a number, a string, or, for a group-by on several
    columns, the tuple of the numbers in these columns. *)

Inductive key :=
| KNum (q : Qc)
| KStr (s : label)
| KTuple (qs : list Qc).

#[global] Instance key_eq_dec : EqDecision key.
Proof. solve_decision. Defined.

#[global] Instance key_countable : Countable key.
Proof.
  refine (inj_countable'
            (fun k => match k with
                      | KNum q => inl (inl q)
                      | KStr s => inl (inr s)
                      | KTuple qs => inr qs
                      end)
            (fun x => match x with
                      | inl (inl q) => KNum q
                      | inl (inr s) => KStr s
                      | inr qs => KTuple qs
                      end) _).
  intros []; reflexivity.
Defined.

(** A table with one entry per column label. *)
Definition by_label {A} (cols : list label) (g : label -> A) : gmap key A :=
  list_to_map ((fun c => (KStr c, g c)) <$> cols).

(** [df.sum()] and [df.count()]: the aggregate [f] of every column. *)
Definition frame_agg (f : list num -> num) (df : DataFrame) : gmap key num :=
  by_label (columns df) (fun c => f (column df c)).

(** Alignment of two label-indexed tables for a binary operation: the
    result index is the union, a label absent on one side reads [NaN]. *)
Definition align2 {K} `{Countable K} (f : num -> num -> num)
    (a b : gmap K num) : gmap K num :=
  merge (fun x y =>
           match x, y with
           | None, None => None
           | _, _ => Some (f (default NaN x) (default NaN y))
           end) a b.

(** [x.add(y, fill_value=0)] on one aligned cell: a side that is missing
    counts as 0 unless both sides are missing. *)
Definition fill_add (x y : num) : num :=
  match x, y with
  | NaN, NaN => NaN
  | NaN, Fin b => Fin (0 + b)%Qc
  | Fin a, NaN => Fin (a + 0)%Qc
  | Fin a, Fin b => Fin (a + b)%Qc
  end.

(** ** Row-wise concatenation, [pd.concat([a, b])] *)

Definition union_labels (a b : list label) : list label :=
  a ++ filter (fun c => c ∉ a) b.

Definition concat_frames (a b : DataFrame) : DataFrame :=
  mkFrame (if decide (columns a = columns b) then columns a
           else union_labels (columns a) (columns b))
          (rows a ++ rows b).

Definition concat_series (a b : Series) : Series :=
  mkSeries (if decide (name a = name b) then name a else None)
           (items a ++ items b).

(** ** Slicing for the rolling window *)

(** Python's [l[k:]] for a list of length [n]: a negative [k] counts from
    the end and is clipped at 0. *)
Definition slice_from {A} (k : Z) (l : list A) : list A :=
  let n := Z.of_nat (length l) in
  drop (Z.to_nat (if decide (k < 0) then Z.max 0 (n + k) else k)) l.

(** [x.iloc[k:]] *)
Definition iloc_from_frame (k : Z) (df : DataFrame) : DataFrame :=
  mkFrame (columns df) (slice_from k (rows df)).

Definition iloc_from_series (k : Z) (s : Series) : Series :=
  mkSeries (name s) (slice_from k (items s)).

(** [x.index.max()], absent for an empty index. *)
Definition index_max {A} (l : list (Z * A)) : option Z :=
  foldr (fun ir acc =>
           match acc with
           | None => Some (fst ir)
           | Some m => Some (Z.max (fst ir) m)
           end) None l.

(** [x.loc[bound:]] on an index that is sorted in time: the rows whose
    label is at or after the bound. *)
Definition loc_from {A} (bound : Z) (l : list (Z * A)) : list (Z * A) :=
  filter (fun ir => bound <= fst ir) l.

Definition label_le (a b : label) : Prop := Is_true (String.leb a b).

(** Column labels of an aligned result: unchanged when both sides agree,
    else the sorted union. *)
Definition align_labels (a b : list label) : list label :=
  if decide (a = b) then a
  else merge_sort label_le (remove_dups (a ++ b)).

Definition cell2 (t : gmap key (gmap label num)) (k : key) (c : label) : num :=
  match t !! k with
  | Some r => cell r c
  | None => NaN
  end.

(** Cell-wise combination of two unique-index frames after alignment on
    both axes. *)
Definition zip_tables (f : num -> num -> num) (cols : list label)
    (a b : gmap key (gmap label num)) : gmap key (gmap label num) :=
  tabulate (elements (dom a ∪ dom b))
           (fun k => tabulate cols (fun c => f (cell2 a k c) (cell2 b k c))).

(** ** Group-by

    A group-by object: the columns of the frame, the columns that an
    aggregation covers, the column that [g[c]] has picked if any, and the
    rows of the frame, each with its key. A row with a missing cell in its
    key has no key. *)

Record GroupBy := mkGroupBy {
  obj_columns : list label;
  selection : list label;
  squeeze : option label;
  keyed_rows : list (option key * gmap label num)
}.

Definition key_of_num (x : num) : option key :=
  match x with
  | Fin q => Some (KNum q)
  | NaN => None
  end.

(** The key of a row under a group-by on the columns [cs]: the cell for
    one column, the tuple of the cells for several. *)
Definition row_key (cs : list label) (r : gmap label num) : option key :=
  match cs with
  | [c] => key_of_num (cell r c)
  | _ => KTuple <$> mapM (fun c => match cell r c with
                                   | Fin q => Some q
                                   | NaN => None
                                   end) cs
  end.

(** [df.groupby(c)] and [df.groupby([c1; ...; cn])] for column labels:
    the key columns leave the aggregated columns. *)
Definition groupby_columns (df : DataFrame) (cs : list label) : GroupBy :=
  mkGroupBy (columns df) (filter (fun c' => c' ∉ cs) (columns df)) None
            ((fun ir => (row_key cs (snd ir), snd ir)) <$> rows df).

(** [df.groupby(keys)] for one key per row, in row order; the columns
    [excluded] leave the aggregated columns. *)
Definition groupby_keys (df : DataFrame) (keys : list (option key))
    (excluded : list label) : GroupBy :=
  mkGroupBy (columns df) (filter (fun c' => c' ∉ excluded) (columns df)) None
            (zip keys (snd <$> rows df)).

(** The keys of a Series grouper, aligned to the rows of the frame. *)
Definition aligned_keys (df : DataFrame) (s : Series) : option (list num) :=
  if decide (fst <$> rows df = fst <$> items s) then Some (values s)
  else if decide (NoDup (fst <$> items s)) then
    Some ((fun ir => default NaN ((list_to_map (items s) : gmap Z num) !! fst ir))
            <$> rows df)
  else None.

(** [g[c]] and [g[[c1; ...; cn]]] *)
Definition select_column (g : GroupBy) (c : label) : GroupBy :=
  mkGroupBy (obj_columns g) [c] (Some c) (keyed_rows g).

Definition select_columns (g : GroupBy) (cs : list label) : GroupBy :=
  mkGroupBy (obj_columns g) cs None (keyed_rows g).

(** Rows without a key belong to no group. *)
Definition group_keys (g : GroupBy) : list key :=
  omap fst (keyed_rows g).

Definition group_column (g : GroupBy) (k : key) (c : label) : list num :=
  (fun kr => cell (snd kr) c)
    <$> filter (fun kr => fst kr = Some k) (keyed_rows g).

(** Aggregation of every selected column within every group. *)
Definition agg_frame (f : list num -> num) (g : GroupBy)
    : gmap key (gmap label num) :=
  tabulate (group_keys g)
           (fun k => tabulate (selection g) (fun c => f (group_column g k c))).

Definition agg_series (f : list num -> num) (g : GroupBy) (c : label)
    : gmap key num :=
  tabulate (group_keys g) (fun k => f (group_column g k c)).

(** The mean of the cells that are present, [NaN] when there is none. *)
Definition nanmean (l : list num) : num :=
  if decide (nancount l = 0%Qc) then NaN else Fin (nansum l / nancount l)%Qc.

End pd.

(** ** Python values *)

#[local] Set Warnings "-register-all".

Inductive value :=
| VNone
| VInt (z : Z)
| VNum (x : num)
| VStr (s : string)
| VTimedelta (ns : Z)
| VSeries (s : pd.Series)
| VFrame (df : pd.DataFrame)
| VTable1 (t : gmap pd.key num)
| VTable2 (cols : list label) (t : gmap pd.key (gmap label num))
| VTuple (a b : value)
| VList (l : list value)
| VAttr (owner : value) (name : string).

(** [VTable1] is a [pd.Series] and [VTable2] a [pd.DataFrame] whose index
    has no repeated label; [VAttr x name] is the attribute that ordinary
    lookup finds under [name] on [x] (a bound method, a property value).

    The operations below are defined on the argument shapes that [core.py]
    passes to them. Where pandas has further behaviour on other shapes (a
    Series broadcast along the columns of a frame, grouping by a function,
    ...) the model stops with the exception written in the definition. *)

(** What the module takes from its environment without fixing it:
    whether the engine's [accumulate] without a start value passes the
    seeding chunk on, how [pd.Timedelta] reads a string, which names
    ordinary attribute lookup resolves on a value, which names every
    Python object carries ([__class__], [__doc__], ...), and whether a
    Series is the very object that a frame holds for the column of its
    name (pandas' test [gpr is obj[gpr.name]] in [groupby]; the values of
    the model carry no identity). *)
Class Platform := {
  seed_tick_emits : bool;
  parse_timedelta : string -> option Z;
  builtin_attr : value -> string -> bool;
  object_attr : string -> bool;
  is_in_obj : pd.DataFrame -> pd.Series -> bool
}.

Inductive binop := Add | Mul | Mod | TrueDiv | FloorDiv.

Definition num_binop (op : binop) : num -> num -> num :=
  match op with
  | Add => num_add
  | Mul => num_mul
  | Mod => num_mod
  | TrueDiv => num_truediv
  | FloorDiv => num_floordiv
  end.

(** Python integers: a division by zero raises. *)
Definition int_binop (op : binop) (a b : Z) : result value :=
  match op with
  | Add => Ok (VInt (a + b))
  | Mul => Ok (VInt (a * b))
  | Mod => if decide (b = 0) then Raise ZeroDivisionError else Ok (VInt (a mod b))
  | FloorDiv => if decide (b = 0) then Raise ZeroDivisionError else Ok (VInt (a / b))
  | TrueDiv =>
      if decide (b = 0) then Raise ZeroDivisionError
      else Ok (VNum (num_truediv (num_of_Z a) (num_of_Z b)))
  end.

Definition as_scalar (v : value) : option num :=
  match v with
  | VInt z => Some (num_of_Z z)
  | VNum x => Some x
  | _ => None
  end.

Definition map_series (g : num -> num) (s : pd.Series) : pd.Series :=
  pd.mkSeries (pd.name s) ((fun ir => (fst ir, g (snd ir))) <$> pd.items s).

Definition map_frame (g : num -> num) (df : pd.DataFrame) : pd.DataFrame :=
  pd.mkFrame (pd.columns df)
    ((fun ir => (fst ir, tabulate (pd.columns df) (fun c => g (pd.cell (snd ir) c))))
       <$> pd.rows df).

(** A scalar operand is applied to every cell. *)
Definition broadcast (g : num -> num) (v : value) : result value :=
  match v with
  | VSeries s => Ok (VSeries (map_series g s))
  | VFrame df => Ok (VFrame (map_frame g df))
  | VTable1 t => Ok (VTable1 (g <$> t))
  | VTable2 cols t =>
      Ok (VTable2 cols ((fun r => tabulate cols (fun c => g (pd.cell r c))) <$> t))
  | _ => Raise TypeError
  end.

(** Two chunks are aligned on their row index: position by position when
    the indexes agree, by label when both are free of repeats. *)
Definition align_index (ia ib : list Z) : result (list Z) :=
  if decide (NoDup ia /\ NoDup ib)
  then Ok (merge_sort Z.le (remove_dups (ia ++ ib)))
  else Raise ValueError.

Definition series_binop (f : num -> num -> num) (a b : pd.Series) : result pd.Series :=
  let nm := if decide (pd.name a = pd.name b) then pd.name a else None in
  if decide (fst <$> pd.items a = fst <$> pd.items b) then
    Ok (pd.mkSeries nm
          (zip_with (fun x y => (fst x, f (snd x) (snd y))) (pd.items a) (pd.items b)))
  else
    idx ← align_index (fst <$> pd.items a) (fst <$> pd.items b);
    let ma : gmap Z num := list_to_map (pd.items a) in
    let mb : gmap Z num := list_to_map (pd.items b) in
    Ok (pd.mkSeries nm
          ((fun i => (i, f (default NaN (ma !! i)) (default NaN (mb !! i)))) <$> idx)).

Definition frame_binop (f : num -> num -> num) (a b : pd.DataFrame) : result pd.DataFrame :=
  let cols := pd.align_labels (pd.columns a) (pd.columns b) in
  let row ra rb := tabulate cols (fun c => f (pd.cell ra c) (pd.cell rb c)) in
  if decide (fst <$> pd.rows a = fst <$> pd.rows b) then
    Ok (pd.mkFrame cols
          (zip_with (fun x y => (fst x, row (snd x) (snd y))) (pd.rows a) (pd.rows b)))
  else
    idx ← align_index (fst <$> pd.rows a) (fst <$> pd.rows b);
    let ma : gmap Z (gmap label num) := list_to_map (pd.rows a) in
    let mb : gmap Z (gmap label num) := list_to_map (pd.rows b) in
    Ok (pd.mkFrame cols
          ((fun i => (i, row (default ∅ (ma !! i)) (default ∅ (mb !! i)))) <$> idx)).

(** [a op b] for the five operators of the module. Operand shapes that
    pandas resolves by broadcasting a Series along the columns of a frame
    are outside the model and raise [TypeError] here. *)
Definition py_binop (op : binop) (a b : value) : result value :=
  let f := num_binop op in
  match a, b with
  | VInt x, VInt y => int_binop op x y
  | _, _ =>
      match as_scalar a, as_scalar b with
      | Some x, Some y => Ok (VNum (f x y))
      | None, Some y => broadcast (fun c => f c y) a
      | Some x, None => broadcast (fun c => f x c) b
      | None, None =>
          match a, b with
          | VTable1 ta, VTable1 tb => Ok (VTable1 (pd.align2 f ta tb))
          | VTable2 ca ta, VTable2 cb tb =>
              let cols := pd.align_labels ca cb in
              Ok (VTable2 cols (pd.zip_tables f cols ta tb))
          | VSeries sa, VSeries sb => VSeries <$> series_binop f sa sb
          | VFrame da, VFrame db => VFrame <$> frame_binop f da db
          | _, _ => Raise TypeError
          end
      end
  end.

(** [x.add(y, fill_value=0)] *)
Definition py_add_fill (a b : value) : result value :=
  match a, b with
  | VTable1 ta, VTable1 tb => Ok (VTable1 (pd.align2 pd.fill_add ta tb))
  | VTable2 ca ta, VTable2 cb tb =>
      let cols := pd.align_labels ca cb in
      Ok (VTable2 cols (pd.zip_tables pd.fill_add cols ta tb))
  | VSeries sa, VSeries sb => VSeries <$> series_binop pd.fill_add sa sb
  | VFrame da, VFrame db => VFrame <$> frame_binop pd.fill_add da db
  | (VSeries _ | VFrame _ | VTable1 _ | VTable2 _ _), _ =>
      match as_scalar b with
      | Some y => broadcast (fun c => pd.fill_add c y) a
      | None => Raise TypeError
      end
  | _, _ => Raise AttributeError
  end.

(** [x.sum()] and [x.count()] *)
Definition table_column (t : gmap pd.key (gmap label num)) (c : label) : list num :=
  (fun kr => pd.cell (snd kr) c) <$> map_to_list t.

Definition py_agg (f : list num -> num) (v : value) : result value :=
  match v with
  | VSeries s => Ok (VNum (f (pd.values s)))
  | VFrame df => Ok (VTable1 (pd.frame_agg f df))
  | VTable1 t => Ok (VNum (f (snd <$> map_to_list t)))
  | VTable2 cols t => Ok (VTable1 (pd.by_label cols (fun c => f (table_column t c))))
  | _ => Raise AttributeError
  end.

Definition py_sum : value -> result value := py_agg (fun l => Fin (nansum l)).
Definition py_count : value -> result value := py_agg (fun l => Fin (nancount l)).

(** [len(x)] *)
Definition py_len (v : value) : result Z :=
  match v with
  | VSeries s => Ok (Z.of_nat (length (pd.items s)))
  | VFrame df => Ok (Z.of_nat (length (pd.rows df)))
  | VTable1 t => Ok (Z.of_nat (size t))
  | VTable2 _ t => Ok (Z.of_nat (size t))
  | VTuple _ _ => Ok 2
  | VList l => Ok (Z.of_nat (length l))
  | VStr s => Ok (Z.of_nat (String.length s))
  | _ => Raise TypeError
  end.

(** [x.columns], as a list *)
Definition py_columns (v : value) : result (list label) :=
  match v with
  | VFrame df => Ok (pd.columns df)
  | VTable2 cols _ => Ok cols
  | _ => Raise AttributeError
  end.

Definition labels_of (l : list value) : option (list label) :=
  mapM (fun v => match v with VStr s => Some s | _ => None end) l.

(** [operator.getitem(x, index)] *)
Definition py_getitem (x index : value) : result value :=
  match x, index with
  | VFrame df, VStr c =>
      if decide (c ∈ pd.columns df) then Ok (VSeries (pd.getitem_column df c))
      else Raise KeyError
  | VFrame df, VList l =>
      match labels_of l with
      | Some cs =>
          if decide (Forall (fun c => c ∈ pd.columns df) cs)
          then Ok (VFrame (pd.getitem_columns df cs))
          else Raise KeyError
      | None => Raise KeyError
      end
  | VTable1 t, VStr c =>
      match t !! pd.KStr c with
      | Some x => Ok (VNum x)
      | None => Raise KeyError
      end
  | VTable2 cols t, VStr c =>
      if decide (c ∈ cols) then Ok (VTable1 ((fun r => pd.cell r c) <$> t))
      else Raise KeyError
  | VSeries s, VInt i =>
      match filter (fun ir => fst ir = i) (pd.items s) with
      | [] => Raise KeyError
      | [ir] => Ok (VNum (snd ir))
      | several => Ok (VSeries (pd.mkSeries (pd.name s) several))
      end
  | VTuple a b, VInt i =>
      if decide (i = 0 \/ i = -2) then Ok a
      else if decide (i = 1 \/ i = -1) then Ok b
      else Raise IndexError
  | VList l, VInt i =>
      let n := Z.of_nat (length l) in
      match l !! Z.to_nat (if decide (i < 0) then n + i else i) with
      | Some v => if decide (i < - n) then Raise IndexError else Ok v
      | None => Raise IndexError
      end
  | (VFrame _ | VSeries _ | VTable1 _ | VTable2 _ _), _ => Raise KeyError
  | _, _ => Raise TypeError
  end.

(** [getattr(x, key)]: ordinary lookup first; a frame then falls back to
    its columns. *)
Definition py_getattr `{Platform} (x : value) (key : string) : result value :=
  if builtin_attr x key then Ok (VAttr x key)
  else
    match x with
    | VFrame df =>
        if decide (key ∈ pd.columns df) then Ok (VSeries (pd.getitem_column df key))
        else Raise AttributeError
    | VTable2 cols t =>
        if decide (key ∈ cols) then Ok (VTable1 ((fun r => pd.cell r key) <$> t))
        else Raise AttributeError
    | _ => Raise AttributeError
    end.

(** [acc[key] = v] on the tables the accumulators carry. Assigning a
    column of a frame conforms the new column to the frame's index. *)
Definition py_setitem (acc : value) (key : label) (v : value) : result value :=
  match acc with
  | VTable1 t =>
      match as_scalar v with
      | Some x => Ok (VTable1 (<[pd.KStr key := x]> t))
      | None => Raise ValueError
      end
  | VTable2 cols t =>
      let cols' := if decide (key ∈ cols) then cols else cols ++ [key] in
      match v with
      | VTable1 s =>
          Ok (VTable2 cols' (map_imap (fun k r => Some (<[key := default NaN (s !! k)]> r)) t))
      | _ =>
          match as_scalar v with
          | Some x => Ok (VTable2 cols' ((fun r => <[key := x]> r) <$> t))
          | None => Raise ValueError
          end
      end
  | _ => Raise TypeError
  end.

(** [x.copy()]: at the level of values a copy is the value itself. *)
Definition py_copy (x : value) : result value :=
  match x with
  | VSeries _ | VFrame _ | VTable1 _ | VTable2 _ _ | VList _ => Ok x
  | _ => Raise AttributeError
  end.

Definition frame_of_series (s : pd.Series) : pd.DataFrame :=
  let c := default "0"%string (pd.name s) in
  pd.mkFrame [c] ((fun ir => (fst ir, {[ c := snd ir ]})) <$> pd.items s).

(** [pd.concat([a, b])] *)
Definition py_concat (a b : value) : result value :=
  match a, b with
  | VFrame da, VFrame db => Ok (VFrame (pd.concat_frames da db))
  | VSeries sa, VSeries sb => Ok (VSeries (pd.concat_series sa sb))
  | VFrame da, VSeries sb => Ok (VFrame (pd.concat_frames da (frame_of_series sb)))
  | VSeries sa, VFrame db => Ok (VFrame (pd.concat_frames (frame_of_series sa) db))
  | _, _ => Raise TypeError
  end.

(** [x.iloc[k:]] *)
Definition py_iloc_from (k : Z) (x : value) : result value :=
  match x with
  | VFrame df => Ok (VFrame (pd.iloc_from_frame k df))
  | VSeries s => Ok (VSeries (pd.iloc_from_series k s))
  | _ => Raise AttributeError
  end.

(** [x.loc[(x.index.max() - window):]], the index read as timestamps. *)
Definition py_loc_tail (window : Z) (x : value) : result value :=
  match x with
  | VFrame df =>
      match pd.index_max (pd.rows df) with
      | Some m => Ok (VFrame (pd.mkFrame (pd.columns df) (pd.loc_from (m - window) (pd.rows df))))
      | None => Ok x
      end
  | VSeries s =>
      match pd.index_max (pd.items s) with
      | Some m => Ok (VSeries (pd.mkSeries (pd.name s) (pd.loc_from (m - window) (pd.items s))))
      | None => Ok x
      end
  | _ => Raise AttributeError
  end.

(** [pd.Timedelta(w)], in nanoseconds. pandas reads [None] and a missing
    number as the missing duration [NaT], which the model does not have:
    there the model stops with [ValueError]. *)
Definition py_Timedelta `{Platform} (w : value) : result Z :=
  match w with
  | VTimedelta d => Ok d
  | VStr s =>
      match parse_timedelta s with
      | Some d => Ok d
      | None => Raise ValueError
      end
  | VNum (Fin q) => Ok (Qfloor q)
  | VInt z => Ok z
  | _ => Raise ValueError
  end.

(** A scalar as a group key. *)
Definition key_of_value (v : value) : option (option pd.key) :=
  match v with
  | VInt z => Some (pd.key_of_num (num_of_Z z))
  | VNum x => Some (pd.key_of_num x)
  | VStr s => Some (Some (pd.KStr s))
  | _ => None
  end.

(** The column that a Series key takes out of the aggregated columns: its
    own name, when the key is the object that the frame holds for that
    column, as is the key that [df[c]] or [df.c] returns. *)
Definition excluded_by `{Platform} (df : pd.DataFrame) (s : pd.Series) : list label :=
  match pd.name s with
  | Some c =>
      if bool_decide (c ∈ pd.columns df)
         && bool_decide (s = pd.getitem_column df c)
         && is_in_obj df s
      then [c] else []
  | None => []
  end.

(** The kinds of keys that the model of [groupby] covers: [None] and a
    number, which pandas refuses; a column label; a list of column labels
    or of scalars; a Series. *)
Definition is_group_key (key : value) : bool :=
  match key with
  | VNone | VInt _ | VNum _ | VStr _ | VSeries _ => true
  | VList l => forallb (fun v => bool_decide (is_Some (key_of_value v))) l
  | _ => false
  end.

(** [new.groupby(grouper)] on a frame. The key is a column label; a list
    of column labels; a list of scalars, one per row, when the list does
    not consist of column labels; or a Series, aligned to the rows of the
    frame. pandas has further kinds of keys (functions, dicts, index
    levels, lists of arrays) and groups Series too; these are outside the
    model, which stops there with [TypeError] or [AttributeError]. *)
Definition py_groupby `{Platform} (new grouper : value) : result pd.GroupBy :=
  match new, grouper with
  | VFrame df, VStr c =>
      if decide (c ∈ pd.columns df) then Ok (pd.groupby_columns df [c])
      else Raise KeyError
  | VFrame df, VList [] => Raise ValueError
  | VFrame df, VList l =>
      match labels_of l with
      | Some cs =>
          if decide (Forall (fun c => c ∈ pd.columns df) cs)
          then Ok (pd.groupby_columns df cs)
          else if decide (length l = length (pd.rows df))
          then Ok (pd.groupby_keys df ((fun c => Some (pd.KStr c)) <$> cs) [])
          else Raise KeyError
      | None =>
          match mapM key_of_value l with
          | Some keys =>
              if decide (length l = length (pd.rows df))
              then Ok (pd.groupby_keys df keys [])
              else Raise KeyError
          | None => Raise TypeError
          end
      end
  | VFrame df, VSeries s =>
      match pd.aligned_keys df s with
      | Some keys =>
          Ok (pd.groupby_keys df (pd.key_of_num <$> keys) (excluded_by df s))
      | None => Raise ValueError
      end
  | VFrame _, (VInt _ | VNum _) => Raise KeyError
  | VFrame _, _ => Raise TypeError
  | _, _ => Raise AttributeError
  end.

(** [g[index]] *)
Definition group_getitem (g : pd.GroupBy) (index : value) : result pd.GroupBy :=
  match index with
  | VStr c =>
      if decide (c ∈ pd.obj_columns g) then Ok (pd.select_column g c)
      else Raise KeyError
  | VList l =>
      match labels_of l with
      | Some cs =>
          if decide (Forall (fun c => c ∈ pd.obj_columns g) cs)
          then Ok (pd.select_columns g cs)
          else Raise KeyError
      | None => Raise KeyError
      end
  | _ => Raise KeyError
  end.

(** [g.sum()], [g.count()], [g.mean()]: a Series for [g[c]], else a frame. *)
Definition group_agg (f : list num -> num) (g : pd.GroupBy) : value :=
  match pd.squeeze g with
  | Some c => VTable1 (pd.agg_series f g c)
  | None => VTable2 (pd.selection g) (pd.agg_frame f g)
  end.

Definition group_sum : pd.GroupBy -> value := group_agg (fun l => Fin (nansum l)).
Definition group_count : pd.GroupBy -> value := group_agg (fun l => Fin (nancount l)).
Definition group_mean : pd.GroupBy -> value := group_agg pd.nanmean.

(** [x.groupby(key)[index].sum()], and likewise with [count] and [mean]:
    the grouped aggregate [agg] of one table; [index] is [None] for no
    selection. *)
Definition py_grouped `{Platform} (agg : pd.GroupBy -> value)
    (x key index : value) : result value :=
  g ← py_groupby x key;
  g ← match index with
      | VNone => Ok g
      | _ => group_getitem g index
      end;
  Ok (agg g).

(** [isinstance(x, pd.DataFrame)], [isinstance(x, pd.Series)], [isinstance(x, int)] *)
Definition is_DataFrame (x : value) : bool :=
  match x with VFrame _ | VTable2 _ _ => true | _ => false end.

Definition is_Series (x : value) : bool :=
  match x with VSeries _ | VTable1 _ => true | _ => false end.

Definition is_int (x : value) : bool :=
  match x with VInt _ => true | _ => false end.

(** [a, b = x]: a tuple or a list of two values, the two characters of a
    string, the two column labels of a frame, the two values of a Series.
    A table with a unique index yields its values in the order of
    [map_to_list]. *)
Definition unpack2 (x : value) : result (value * value) :=
  match x with
  | VTuple a b => Ok (a, b)
  | VList [a; b] => Ok (a, b)
  | VStr (String a (String b EmptyString)) =>
      Ok (VStr (String a EmptyString), VStr (String b EmptyString))
  | VFrame df =>
      match pd.columns df with
      | [a; b] => Ok (VStr a, VStr b)
      | _ => Raise ValueError
      end
  | VTable2 [a; b] _ => Ok (VStr a, VStr b)
  | VSeries s =>
      match pd.values s with
      | [a; b] => Ok (VNum a, VNum b)
      | _ => Raise ValueError
      end
  | VTable1 t =>
      match snd <$> map_to_list t with
      | [a; b] => Ok (VNum a, VNum b)
      | _ => Raise ValueError
      end
  | VList _ | VTable2 _ _ | VStr _ => Raise ValueError
  | _ => Raise TypeError
  end.

(** ** The streamz fragment

    A stream node is described by the operation it applies and the nodes
    it listens to; [Source] is a node fed by hand, [Stream()]. The state of
    a pipeline holds what its [accumulate] nodes carry and what its [zip]
    nodes buffer. *)

Module streamz.

Inductive Stream :=
| Source (id : nat)
| map (func : value -> result value) (upstream : Stream)
| accumulate (func : value -> value -> result value) (start : option value)
    (returns_state : bool) (upstream : Stream)
| filter (predicate : value -> result bool) (upstream : Stream)
| zip (a b : Stream).

(** [scan] is the engine's other name for [accumulate]. *)
Definition scan := accumulate.

(** The sentinel that [accumulate] uses for an absent start value. *)
Definition no_default : value := VStr "--no-default--".

Inductive State :=
| SSource
| SMap (up : State)
| SAcc (state : option value) (up : State)
| SFilter (up : State)
| SZip (ls rs : list value) (a b : State).

Fixpoint init (s : Stream) : State :=
  match s with
  | Source _ => SSource
  | map _ up => SMap (init up)
  | accumulate _ start _ up => SAcc start (init up)
  | filter _ up => SFilter (init up)
  | zip a b => SZip [] [] (init a) (init b)
  end.

Section engine.
Context `{Platform}.

(** [accumulate.update]: without a state yet the chunk becomes the state;
    else the function is applied and, with [returns_state], its result is
    unpacked into the new state and the value to emit. *)
Definition accumulate_update (func : value -> value -> result value)
    (returns_state : bool) (state : option value) (x : value)
    : result (option value * list value) :=
  match state with
  | None => Ok (Some x, if seed_tick_emits then [x] else [])
  | Some st =>
      r ← func st x;
      if returns_state then
        so ← unpack2 r;
        Ok (Some (fst so), [snd so])
      else Ok (Some r, [r])
  end.

Fixpoint accumulate_all (func : value -> value -> result value)
    (returns_state : bool) (state : option value) (xs : list value)
    : result (option value * list value) :=
  match xs with
  | [] => Ok (state, [])
  | x :: xs' =>
      so ← accumulate_update func returns_state state x;
      so' ← accumulate_all func returns_state (fst so) xs';
      Ok (fst so', snd so ++ snd so')
  end.

Fixpoint map_all (func : value -> result value) (xs : list value)
    : result (list value) :=
  match xs with
  | [] => Ok []
  | x :: xs' => y ← func x; ys ← map_all func xs'; Ok (y :: ys)
  end.

Fixpoint filter_all (predicate : value -> result bool) (xs : list value)
    : result (list value) :=
  match xs with
  | [] => Ok []
  | x :: xs' =>
      b ← predicate x; ys ← filter_all predicate xs';
      Ok (if b : bool then x :: ys else ys)
  end.

(** [zip] emits a tuple once each side has an element waiting. *)
Fixpoint zip_ready (ls rs : list value)
    : list value * list value * list value :=
  match ls, rs with
  | l :: ls', r :: rs' =>
      let '(bl, br, out) := zip_ready ls' rs' in (bl, br, VTuple l r :: out)
  | _, _ => (ls, rs, [])
  end.

(** One tick: the source [src] emits [x]; the result is the new state of
    the pipeline and what its last node emits during the tick. *)
Fixpoint feed (src : nat) (x : value) (s : Stream) (st : State)
    : result (State * list value) :=
  match s, st with
  | Source id, SSource => Ok (SSource, if decide (id = src) then [x] else [])
  | map func up, SMap u =>
      r ← feed src x up u;
      ys ← map_all func (snd r);
      Ok (SMap (fst r), ys)
  | accumulate func _ returns_state up, SAcc state u =>
      r ← feed src x up u;
      so ← accumulate_all func returns_state state (snd r);
      Ok (SAcc (fst so) (fst r), snd so)
  | filter predicate up, SFilter u =>
      r ← feed src x up u;
      ys ← filter_all predicate (snd r);
      Ok (SFilter (fst r), ys)
  | zip a b, SZip ls rs ua ub =>
      ra ← feed src x a ua;
      rb ← feed src x b ub;
      let '(bl, br, out) := zip_ready (ls ++ snd ra) (rs ++ snd rb) in
      Ok (SZip bl br (fst ra) (fst rb), out)
  | _, _ => Raise AssertionError
  end.

(** The chunks [xs] emitted in order at [src]: what the pipeline emits at
    each tick. *)
Fixpoint run_from (src : nat) (s : Stream) (st : State) (xs : list value)
    : result (list (list value)) :=
  match xs with
  | [] => Ok []
  | x :: xs' =>
      r ← feed src x s st;
      rest ← run_from src s (fst r) xs';
      Ok (snd r :: rest)
  end.

Definition run (src : nat) (s : Stream) (xs : list value)
    : result (list (list value)) :=
  run_from src s (init s) xs.

(** The state of the pipeline once the chunks [xs] have gone through. *)
Fixpoint state_from (src : nat) (s : Stream) (st : State) (xs : list value)
    : result State :=
  match xs with
  | [] => Ok st
  | x :: xs' =>
      r ← feed src x s st;
      state_from src s (fst r) xs'
  end.

Definition state_after (src : nat) (s : Stream) (xs : list value) : result State :=
  state_from src s (init s) xs.

End engine.

End streamz.

(** * core.py *)

(** The two entries that the mean accumulators carry: as the row of a
    frame with the columns [sums] and [counts], and as a Series with
    these two labels. *)
Definition mean_row (sums counts : num) : gmap label num :=
  {[ "sums"%string := sums; "counts"%string := counts ]}.

Definition mean_pair (sums counts : num) : gmap pd.key num :=
  {[ pd.KStr "sums" := sums; pd.KStr "counts" := counts ]}.

(** ** The accumulator functions *)

Definition _accumulate_mean (accumulator new : value) : result value :=
  accumulator ← py_copy accumulator;
  sums ← py_getitem accumulator (VStr "sums");
  s ← py_sum new;
  sums ← py_binop Add sums s;
  accumulator ← py_setitem accumulator "sums" sums;
  counts ← py_getitem accumulator (VStr "counts");
  c ← py_count new;
  counts ← py_binop Add counts c;
  accumulator ← py_setitem accumulator "counts" counts;
  sums ← py_getitem accumulator (VStr "sums");
  counts ← py_getitem accumulator (VStr "counts");
  result ← py_binop TrueDiv sums counts;
  Ok (VTuple accumulator result).

Definition _accumulate_sum (accumulator new : value) : result value :=
  s ← py_sum new;
  py_binop Add accumulator s.

(** The first lines shared by the two grouped accumulators: a zipped
    chunk carries its own grouper; then group and select. *)
Definition grouped `{Platform} (new grouper index : value) : result pd.GroupBy :=
  ng ← match new with
       | VTuple n g =>
           match grouper with
           | VNone => Ok (n, g)
           | _ => Raise AssertionError
           end
       | _ => Ok (new, grouper)
       end;
  g ← py_groupby (fst ng) (snd ng);
  match index with
  | VNone => Ok g
  | _ => group_getitem g index
  end.

Definition _accumulate_groupby_sum `{Platform}
    (accumulator new grouper index : value) : result value :=
  g ← grouped new grouper index;
  if is_int accumulator then Ok (group_sum g)
  else py_add_fill accumulator (group_sum g).

Definition _accumulate_groupby_mean `{Platform}
    (accumulator new grouper index : value) : result value :=
  g ← grouped new grouper index;
  sc ← unpack2 accumulator;
  sc' ← (if is_int (fst sc) then Ok (group_sum g, group_count g)
         else
           sums ← py_add_fill (fst sc) (group_sum g);
           counts ← py_add_fill (snd sc) (group_count g);
           Ok (sums, counts));
  ratio ← py_binop TrueDiv (fst sc') (snd sc');
  Ok (VTuple (VTuple (fst sc') (snd sc')) ratio).

(** The diagnostic [print(out)] of the source writes to standard output
    only and is left out. *)
Definition _roll (accumulator new window : value) (min_periods : Z)
    : result value :=
  accumulator ← py_concat accumulator new;
  accumulator ← match window with
                | VInt w => py_iloc_from (- w) accumulator
                | VTimedelta d => py_loc_tail d accumulator
                | _ => Ok accumulator
                end;
  n ← py_len accumulator;
  let out := if decide (min_periods <= n) then accumulator else VList [] in
  Ok (VTuple accumulator out).

(** ** The handles *)

Inductive type :=
| TStreaming
| TStreamingFrame
| TStreamingDataFrame
| TStreamingSeries.

Record Handle := mkHandle {
  type_of : type;
  stream : streamz.Stream;
  example : value
}.

(** [isinstance(x, cls._subtype)] *)
Definition _subtype (cls : type) (x : value) : bool :=
  match cls with
  | TStreaming | TStreamingFrame => true
  | TStreamingDataFrame => is_DataFrame x
  | TStreamingSeries => is_Series x
  end.

(** A Python callable with its extra positional arguments. *)
Definition callable := value -> list value -> result value.

Definition operator (op : binop) : callable :=
  fun x args =>
    match args with
    | [other] => py_binop op x other
    | _ => Raise TypeError
    end.

Definition operator_getitem : callable :=
  fun x args =>
    match args with
    | [index] => py_getitem x index
    | _ => Raise TypeError
    end.

Definition getattr `{Platform} : callable :=
  fun x args =>
    match args with
    | [VStr key] => py_getattr x key
    | _ => Raise TypeError
    end.

Module Streaming.

(** An argument that defaults to [None]: the object passed, unless it
    is [None] or nothing is passed. This is the reading of the tests
    [example is None] and [kwargs.pop('example', None)]. *)
Definition given (v : option value) : option value :=
  match v with
  | Some VNone | None => None
  | Some x => Some x
  end.

(** [{c: [] for c in columns}]: the keys of a dict comprehension, each
    label once, in the order of first occurrence. *)
Definition dict_keys (cols : list label) : list label :=
  foldl (fun acc c => if decide (c ∈ acc) then acc else acc ++ [c]) [] cols.

(** [Stream()] makes a new source node; [fresh] is its identity. The
    arguments [example] and [columns] are [None] for Python's [None]; a
    caller that holds a Python object passes it through [given]. The
    example of a handle is therefore never [None]. *)
Definition __init__ (cls : type) (stream : option streamz.Stream)
    (example : option value) (columns : option (list label)) (fresh : nat)
    : result Handle :=
  let example :=
    match columns, example with
    | Some cols, None => Some (VFrame (pd.empty_frame (dict_keys cols)))
    | _, _ => example
    end in
  match example with
  | None => Raise AssertionError
  | Some ex =>
      if _subtype cls ex
      then Ok (mkHandle cls (default (streamz.Source fresh) stream) ex)
      else Raise AssertionError
  end.

(** The closing lines of [map_partitions] and [accumulate_partitions]:
    the class of the new handle follows the kind of its example, which may
    be any object that the function returned, [None] included. *)
Definition wrap (stream : streamz.Stream) (example : value) : result Handle :=
  if is_DataFrame example
  then __init__ TStreamingDataFrame (Some stream) (Some example) None 0%nat
  else if is_Series example
  then __init__ TStreamingSeries (Some stream) (Some example) None 0%nat
  else __init__ TStreaming (Some stream) (given (Some example)) None 0%nat.

Definition map_partitions (self : Handle) (func : callable)
    (args : list value) (example_kw : option value) : result Handle :=
  example ← match given example_kw with
            | Some e => Ok e
            | None => func (example self) args
            end;
  let stream := streamz.map (fun x => func x args) (stream self) in
  wrap stream example.

Definition accumulate_partitions (self : Handle)
    (func : value -> value -> result value) (start : option value)
    (returns_state : bool) (example_kw : option value) : result Handle :=
  example ← match given example_kw with
            | Some e => Ok e
            | None => func (default streamz.no_default start) (example self)
            end;
  example ← (if returns_state then snd <$> unpack2 example else Ok example);
  let stream := streamz.accumulate func start returns_state (stream self) in
  wrap stream example.

Definition __add__ (self : Handle) (other : value) : result Handle :=
  map_partitions self (operator Add) [other] None.

Definition __mul__ (self : Handle) (other : value) : result Handle :=
  map_partitions self (operator Mul) [other] None.

Definition __mod__ (self : Handle) (other : value) : result Handle :=
  map_partitions self (operator Mod) [other] None.

Definition __truediv__ (self : Handle) (other : value) : result Handle :=
  map_partitions self (operator TrueDiv) [other] None.

Definition __floordiv__ (self : Handle) (other : value) : result Handle :=
  map_partitions self (operator FloorDiv) [other] None.

Definition verify (self : Handle) (x : value) : result unit :=
  if _subtype (type_of self) x then Ok tt else Raise TypeError.

Definition rolling `{Platform} (self : Handle) (window : value) (min_periods : Z)
    : result Handle :=
  wm ← match window with
       | VInt _ => Ok (window, min_periods)
       | _ => d ← py_Timedelta window; Ok (VTimedelta d, 1)
       end;
  let window := fst wm in
  let min_periods := snd wm in
  let stream :=
    streamz.filter
      (fun x => n ← py_len x; Ok (bool_decide (min_periods <= n)))
      (streamz.scan (fun acc new => _roll acc new window min_periods)
                    None true (stream self)) in
  (* [self.example] is the example of a handle, never [None] *)
  __init__ (type_of self) (Some stream) (Some (example self)) None 0%nat.

End Streaming.

(** ** Rounding

    [x.round(decimals)] rounds every cell to the given number of decimals,
    halves to the even neighbour, as numpy does; a missing cell stays
    missing. A negative number of decimals rounds to tens, hundreds, ... *)

Definition Qc_of_Z (z : Z) : Qc := Q2Qc (inject_Z z).

(** The nearest integer, halves to even. *)
Definition Qc_rint (q : Qc) : Z :=
  let f := Qfloor q in
  match ((q - Qc_of_Z f) ?= Q2Qc (1 # 2))%Qc with
  | Lt => f
  | Gt => f + 1
  | Eq => if Z.even f then f else f + 1
  end.

Definition Qc_pow10 (d : Z) : Qc :=
  if decide (0 <= d) then Qc_of_Z (10 ^ d) else (/ Qc_of_Z (10 ^ (- d)))%Qc.

Definition num_round (decimals : Z) (x : num) : num :=
  match x with
  | NaN => NaN
  | Fin q => Fin (Qc_of_Z (Qc_rint (q * Qc_pow10 decimals)) / Qc_pow10 decimals)%Qc
  end.

Definition py_round (decimals : Z) (x : value) : result value :=
  match x with
  | VSeries _ | VFrame _ | VTable1 _ | VTable2 _ _ => broadcast (num_round decimals) x
  | _ => Raise AttributeError
  end.

(** [M.round], the method caller of [dask.utils]: [M.round(x, decimals=d)]
    is [x.round(decimals=d)]. The keyword argument travels in the argument
    list. *)
Definition M_round : callable :=
  fun x args =>
    match args with
    | [VInt decimals] => py_round decimals x
    | _ => Raise TypeError
    end.

Module StreamingFrame.

Definition sum (self : Handle) : result Handle :=
  Streaming.accumulate_partitions self _accumulate_sum (Some (VInt 0)) false None.

Definition round (self : Handle) (decimals : Z) : result Handle :=
  Streaming.map_partitions self M_round [VInt decimals] None.

End StreamingFrame.

(** The grouped handle: [grouper] is a constant key or itself a handle. *)
Inductive Grouper :=
| Static (key : value)
| Streamed (h : Handle).

Record Groupby := mkGroupby {
  root : Handle;
  grouper : Grouper;
  index : value
}.

Module StreamingDataFrame.

Definition columns (self : Handle) : result (list label) :=
  py_columns (example self).

Definition __getitem__ (self : Handle) (index : value) : result Handle :=
  Streaming.map_partitions self operator_getitem [index] None.

(** Python calls [__getattr__] only after ordinary lookup has failed; see
    [getattribute] below. *)
Definition __getattr__ `{Platform} (self : Handle) (key : string) : result Handle :=
  cols ← columns self;
  if decide (key ∈ cols)
  then Streaming.map_partitions self getattr [VStr key] None
  else Raise AttributeError.

Definition verify (self : Handle) (x : value) : result unit :=
  _ ← Streaming.verify self x;
  xc ← py_columns x;
  ec ← py_columns (example self);
  if decide (xc ≠ ec) then Raise IndexError else Ok tt.

(** [pd.DataFrame({'sums': 0, 'counts': 0}, index=self.example.columns)] *)
Definition mean (self : Handle) : result Handle :=
  cols ← py_columns (example self);
  let start :=
    VTable2 ["sums"; "counts"]%string
      (pd.by_label cols (fun _ => mean_row (num_of_Z 0) (num_of_Z 0))) in
  Streaming.accumulate_partitions self _accumulate_mean (Some start) true None.

Definition groupby (self : Handle) (other : Grouper) : Groupby :=
  mkGroupby self other VNone.

End StreamingDataFrame.

Module StreamingSeries.

(** [pd.Series({'sums': 0, 'counts': 0})] *)
Definition mean (self : Handle) : result Handle :=
  let start := VTable1 (mean_pair (num_of_Z 0) (num_of_Z 0)) in
  Streaming.accumulate_partitions self _accumulate_mean (Some start) true None.

End StreamingSeries.

(** ** Methods resolved on the class of [self] *)

Definition verify (self : Handle) (x : value) : result unit :=
  match type_of self with
  | TStreamingDataFrame => StreamingDataFrame.verify self x
  | _ => Streaming.verify self x
  end.

Definition mean (self : Handle) : result Handle :=
  match type_of self with
  | TStreamingDataFrame => StreamingDataFrame.mean self
  | TStreamingSeries => StreamingSeries.mean self
  | _ => Raise AttributeError
  end.

(** The names that ordinary lookup finds on a handle: the two instance
    attributes and what the class and its bases define. *)
Definition Streaming_names : list string :=
  ["example"; "stream"; "_subtype"; "__init__"; "map_partitions";
   "accumulate_partitions"; "__repr__"; "_repr_html_"; "__add__"; "__mul__";
   "__mod__"; "__truediv__"; "__floordiv__"; "emit"; "verify"; "rolling"]%string.

Definition StreamingFrame_names : list string :=
  ["sum"; "round"]%string.

Definition StreamingDataFrame_names : list string :=
  ["columns"; "__getitem__"; "__getattr__"; "__dir__"; "mean"; "groupby";
   "assign"; "__setitem__"]%string.

Definition StreamingSeries_names : list string :=
  ["mean"]%string.

Definition names (cls : type) : list string :=
  match cls with
  | TStreaming => Streaming_names
  | TStreamingFrame => StreamingFrame_names ++ Streaming_names
  | TStreamingDataFrame =>
      StreamingDataFrame_names ++ StreamingFrame_names ++ Streaming_names
  | TStreamingSeries =>
      StreamingSeries_names ++ StreamingFrame_names ++ Streaming_names
  end.

(** What [self.key] evaluates to: a member found by ordinary lookup, or
    the handle that [__getattr__] derives. *)
Inductive attribute :=
| Member (name : string)
| Derived (h : Handle).

Definition getattribute `{Platform} (self : Handle) (key : string)
    : result attribute :=
  if bool_decide (key ∈ names (type_of self)) || object_attr key
  then Ok (Member key)
  else
    match type_of self with
    | TStreamingDataFrame => Derived <$> StreamingDataFrame.__getattr__ self key
    | _ => Raise AttributeError
    end.

(** [StreamingDataFrame.__dir__]. The list is made from a set, so its
    order is not fixed: the model is the membership test of that set.
    [dir(type(self))] and the keys of [self.__dict__] together are the names
    of [names] and the names every object carries; [isidentifier] stands
    for [pd.compat.isidentifier], and every column label of the model is a
    string. *)
Definition __dir__ `{Platform} (isidentifier : string -> bool) (self : Handle)
    (name : string) : result bool :=
  cols ← StreamingDataFrame.columns self;
  Ok (bool_decide (name ∈ names (type_of self)) || object_attr name
      || (bool_decide (name ∈ cols) && isidentifier name)).

(** ** Emitting into a handle

    The nodes that listen to the handle's node, each with its own state. *)
Record Subscriber := mkSubscriber {
  state_t : Type;
  current : state_t;
  update : state_t -> value -> result state_t
}.

Definition deliver (x : value) (sub : Subscriber) : result Subscriber :=
  st ← update sub (current sub) x;
  Ok (mkSubscriber (state_t sub) st (update sub)).

Fixpoint Stream_emit (x : value) (subs : list Subscriber) : result (list Subscriber) :=
  match subs with
  | [] => Ok []
  | sub :: rest =>
      sub' ← deliver x sub;
      rest' ← Stream_emit x rest;
      Ok (sub' :: rest')
  end.

(** A pipeline built over the source [src], as a subscriber of it. *)
Definition subscribe `{Platform} (src : nat) (s : streamz.Stream) : Subscriber :=
  mkSubscriber streamz.State (streamz.init s)
    (fun st x => fst <$> streamz.feed src x s st).

Record World := mkWorld {
  self : Handle;
  subscribers : list Subscriber
}.

(** [Streaming.emit]: the outcome and the world it leaves. A chunk that
    [verify] refuses reaches no node. When a node fails during the tick,
    the engine leaves the nodes that ran before it in their new state; the
    model does not follow such a tick and reports the world as it stood. *)
Definition emit (x : value) (w : World) : result unit * World :=
  match verify (self w) x with
  | Raise e => (Raise e, w)
  | Ok _ =>
      match Stream_emit x (subscribers w) with
      | Ok subs => (Ok tt, mkWorld (self w) subs)
      | Raise e => (Raise e, w)
      end
  end.

(** The names that ordinary lookup finds on a grouped handle: the three
    instance attributes and what the class defines. *)
Definition StreamingSeriesGroupby_names : list string :=
  ["root"; "grouper"; "index"; "__init__"; "__getitem__"; "__getattr__";
   "sum"; "mean"]%string.

(** What [g.key] evaluates to on a grouped handle [g]: a member found by
    ordinary lookup, or the grouped handle that [__getattr__] returns. *)
Inductive group_attribute :=
| GroupMember (name : string)
| Selected (g : Groupby).

Module StreamingSeriesGroupby.

Definition __init__ (root : Handle) (grouper : Grouper) (index : value) : Groupby :=
  mkGroupby root grouper index.

Definition __getitem__ (self : Groupby) (index : value) : Groupby :=
  __init__ (root self) (grouper self) index.

(** Python calls [__getattr__] only after ordinary lookup has failed; see
    [getattribute] below. [self.root.columns] exists on a frame handle
    only. *)
Definition __getattr__ (self : Groupby) (key : string) : result Groupby :=
  match type_of (root self) with
  | TStreamingDataFrame =>
      cols ← StreamingDataFrame.columns (root self);
      if decide (key ∈ cols) then Ok (__getitem__ self (VStr key))
      else Raise AttributeError
  | _ => Raise AttributeError
  end.

Definition getattribute `{Platform} (self : Groupby) (key : string)
    : result group_attribute :=
  if bool_decide (key ∈ StreamingSeriesGroupby_names) || object_attr key
  then Ok (GroupMember key)
  else Selected <$> __getattr__ self key.

(** The example of an aggregate: group the example, select, aggregate. *)
Definition example_of `{Platform} (agg : pd.GroupBy -> value)
    (example key index : value) : result value :=
  g ← py_groupby example key;
  g ← match index with
      | VNone => Ok g
      | _ => group_getitem g index
      end;
  Ok (agg g).

Definition finish (stream : streamz.Stream) (example : value) : result Handle :=
  if is_DataFrame example
  then Streaming.__init__ TStreamingDataFrame (Some stream) (Some example) None 0%nat
  else Streaming.__init__ TStreamingSeries (Some stream) (Some example) None 0%nat.

Definition sum `{Platform} (self : Groupby) : result Handle :=
  let start := VInt 0 in
  match grouper self with
  | Streamed g =>
      let func acc new := _accumulate_groupby_sum acc new VNone (index self) in
      example ← example_of group_sum (example (root self)) (example g) (index self);
      let stream := streamz.zip (stream (root self)) (stream g) in
      let stream := streamz.accumulate func (Some start) false stream in
      finish stream example
  | Static key =>
      let func acc new := _accumulate_groupby_sum acc new key (index self) in
      example ← example_of group_sum (example (root self)) key (index self);
      let stream := streamz.accumulate func (Some start) false (stream (root self)) in
      finish stream example
  end.

Definition mean `{Platform} (self : Groupby) : result Handle :=
  let start := VTuple (VInt 0) (VInt 0) in
  match grouper self with
  | Streamed g =>
      let func acc new := _accumulate_groupby_mean acc new VNone (index self) in
      example ← example_of group_mean (example (root self)) (example g) (index self);
      let stream := streamz.zip (stream (root self)) (stream g) in
      let stream := streamz.accumulate func (Some start) true stream in
      finish stream example
  | Static key =>
      let func acc new := _accumulate_groupby_mean acc new key (index self) in
      example ← example_of group_mean (example (root self)) key (index self);
      let stream := streamz.accumulate func (Some start) true (stream (root self)) in
      finish stream example
  end.

End StreamingSeriesGroupby.

(** ** Objects and mutation

    [_accumulate_mean] is the one accumulator that assigns into a table.
    Here the tables are objects in a heap, a variable holds a location, and
    an item assignment overwrites the object at that location. *)

Module Heap.

Definition ST (A : Type) : Type :=
  gmap nat value -> result A * gmap nat value.

Definition ret {A} (a : A) : ST A := fun h => (Ok a, h).

Definition bind {A B} (m : ST A) (k : A -> ST B) : ST B :=
  fun h =>
    match m h with
    | (Ok a, h') => k a h'
    | (Raise e, h') => (Raise e, h')
    end.

Notation "'let!' x ':=' m 'in' k" := (bind m (fun x => k))
  (at level 10, x name, m at level 100, k at level 200).

Definition lift {A} (r : result A) : ST A := fun h => (r, h).

Definition read (l : nat) : ST value :=
  fun h =>
    match h !! l with
    | Some v => (Ok v, h)
    | None => (Raise AssertionError, h)
    end.

Definition write (l : nat) (v : value) : ST unit :=
  fun h => (Ok tt, <[l := v]> h).

Definition alloc (v : value) : ST nat :=
  fun h => let l := fresh (dom h) in (Ok l, <[l := v]> h).

(** [x.copy()]: a new object with the same content. *)
Definition copy (l : nat) : ST nat :=
  let! v := read l in
  let! v := lift (py_copy v) in
  alloc v.

(** [x[key]] *)
Definition getitem (l : nat) (key : label) : ST value :=
  let! v := read l in
  lift (py_getitem v (VStr key)).

(** [x[key] = v] *)
Definition setitem (l : nat) (key : label) (v : value) : ST unit :=
  let! x := read l in
  let! x := lift (py_setitem x key v) in
  write l x.

Definition _accumulate_mean (accumulator : nat) (new : value) : ST (nat * value) :=
  let! accumulator := copy accumulator in
  let! sums := getitem accumulator "sums" in
  let! s := lift (py_sum new) in
  let! sums := lift (py_binop Add sums s) in
  let! _ := setitem accumulator "sums" sums in
  let! counts := getitem accumulator "counts" in
  let! c := lift (py_count new) in
  let! counts := lift (py_binop Add counts c) in
  let! _ := setitem accumulator "counts" counts in
  let! sums := getitem accumulator "sums" in
  let! counts := getitem accumulator "counts" in
  let! result := lift (py_binop TrueDiv sums counts) in
  ret (accumulator, result).

(** The fold of the engine's [accumulate] with [returns_state]: the state
    of a tick is the object the previous tick returned. *)
Fixpoint ticks (state : nat) (chunks : list value) : ST (list (nat * value)) :=
  match chunks with
  | [] => ret []
  | x :: chunks' =>
      let! r := _accumulate_mean state x in
      let! rest := ticks (fst r) chunks' in
      ret (r :: rest)
  end.

(** [writes_at l m]: running [m] keeps every object of a heap that has
    nothing at [l]; the computation may write at [l] and allocate. *)
Definition writes_at {A} (l : nat) (m : ST A) : Prop :=
  forall h0 h : gmap nat value, h0 ⊆ h -> h0 !! l = None -> h0 ⊆ snd (m h).

End Heap.

(** ** Reference quantities for the statements *)

(** The non-empty prefixes of a list, shortest first. *)
Fixpoint prefixes {A} (l : list A) : list (list A) :=
  match l with
  | [] => []
  | x :: l' => [x] :: ((fun p => x :: p) <$> prefixes l')
  end.

(** The cells of a chunk under a column label; a Series chunk has one
    column, which every label names. *)
Definition cells (c : pd.key) (x : value) : list num :=
  match x, c with
  | VFrame df, pd.KStr c => pd.column df c
  | VTable2 _ t, pd.KStr c => table_column t c
  | VSeries s, _ => pd.values s
  | VTable1 t, _ => snd <$> map_to_list t
  | _, _ => []
  end.

(** Sum over chunks of the chunk-level sum (resp. count) of a column. *)
Definition total_sum (c : pd.key) (chunks : list value) : Qc :=
  foldr (fun x acc => (nansum (cells c x) + acc)%Qc) 0%Qc chunks.

Definition total_count (c : pd.key) (chunks : list value) : Qc :=
  foldr (fun x acc => (nancount (cells c x) + acc)%Qc) 0%Qc chunks.

(** A chunk that a frame handle with the columns [cols] accepts. *)
Definition frame_like (cols : list label) (x : value) : Prop :=
  is_DataFrame x = true /\ py_columns x = Ok cols.

(** An aggregate of the chunks seen so far, shaped like the handle's
    example: one entry per column for a frame, a scalar for a Series. *)
Definition agg_total (total : pd.key -> list value -> num) (example : value)
    (p : list value) : value :=
  match py_columns example with
  | Ok cols => VTable1 (pd.by_label cols (fun c => total (pd.KStr c) p))
  | Raise _ => VNum (total (pd.KStr "") p)
  end.

Definition running_sum : value -> list value -> value :=
  agg_total (fun k p => Fin (total_sum k p)).

Definition running_mean : value -> list value -> value :=
  agg_total (fun k p => num_truediv (Fin (total_sum k p)) (Fin (total_count k p))).

(** The table of running sums and counts. *)
Definition mean_state (example : value) (p : list value) : value :=
  match py_columns example with
  | Ok cols =>
      VTable2 ["sums"; "counts"]%string
        (pd.by_label cols
           (fun c => mean_row (Fin (total_sum (pd.KStr c) p))
                              (Fin (total_count (pd.KStr c) p))))
  | Raise _ =>
      VTable1 (mean_pair (Fin (total_sum (pd.KStr "") p))
                         (Fin (total_count (pd.KStr "") p)))
  end.

(** Column access by attribute and by subscript agree on [self] for the
    name [key]: both derive a handle, of the same class and with the same
    example, whose stream maps the parent's stream with functions that
    agree on every chunk the parent accepts. *)
Definition attr_matches_item `{Platform} (self : Handle) (key : string) : Prop :=
  exists ha hi fa fi,
    getattribute self key = Ok (Derived ha) /\
    StreamingDataFrame.__getitem__ self (VStr key) = Ok hi /\
    type_of ha = type_of hi /\
    example ha = example hi /\
    stream ha = streamz.map fa (stream self) /\
    stream hi = streamz.map fi (stream self) /\
    forall x, verify self x = Ok tt -> fa x = fi x.

(** An environment for concrete runs: the seeding chunk is passed on,
    durations are read from a few literal strings, and the attribute
    tables hold a sample of what pandas frames and Python objects carry. *)
Definition sample_platform : Platform := {|
  seed_tick_emits := true;
  parse_timedelta := fun s =>
    if decide (s = "1ns"%string) then Some 1
    else if decide (s = "1us"%string) then Some 1000
    else if decide (s = "1s"%string) then Some 1000000000
    else None;
  builtin_attr := fun x key =>
    is_DataFrame x
    && bool_decide (key ∈ ["sum"; "mean"; "count"; "index"; "columns"; "size";
                            "shape"; "values"; "T"; "groupby"; "rolling"]%string);
  object_attr := fun key =>
    bool_decide (key ∈ ["__class__"; "__dict__"; "__doc__"; "__module__";
                        "__eq__"; "__hash__"; "__str__"; "__sizeof__"]%string);
  is_in_obj := fun _ _ => true
|}.

(** A frame chunk with one cell per column label and row. *)
Definition frame_chunk (cols : list label) (rows : list (Z * list num)) : value :=
  VFrame (pd.mkFrame cols
            ((fun ir => (fst ir, list_to_map (zip cols (snd ir)))) <$> rows)).

(** An aggregation of the cells of a group that adds up over
    concatenation. *)
Definition additive (F : list num -> num) : Prop :=
  exists phi : list num -> Qc,
    (forall l, F l = Fin (phi l)) /\
    phi [] = 0%Qc /\
    (forall l1 l2, phi (l1 ++ l2) = (phi l1 + phi l2)%Qc).

(** Sample data for concrete runs: a frame handle on the columns [a] and
    [b] over the source 0, a Series handle, and a few chunks. *)
Definition sample_frame_handle : Handle :=
  mkHandle TStreamingDataFrame (streamz.Source 0)
    (frame_chunk ["a"; "b"]%string []).

Definition sample_frames : list pd.DataFrame :=
  [pd.mkFrame ["a"; "b"]%string
     [(0, {[ "a"%string := num_of_Z 1; "b"%string := num_of_Z 2 ]});
      (1, {[ "a"%string := num_of_Z 3; "b"%string := NaN ]})];
   pd.mkFrame ["a"; "b"]%string
     [(0, {[ "a"%string := num_of_Z 1; "b"%string := num_of_Z 20 ]});
      (1, {[ "a"%string := num_of_Z 5; "b"%string := num_of_Z 40 ]})]].

Definition sample_chunks : list value := VFrame <$> sample_frames.

Definition sample_series_handle : Handle :=
  mkHandle TStreamingSeries (streamz.Source 0) (VSeries (pd.mkSeries None [])).

Definition sample_world : World :=
  mkWorld sample_frame_handle
    [subscribe (H := sample_platform) 0
       (streamz.accumulate _accumulate_sum (Some (VInt 0)) false (streamz.Source 0))].

(** A Series chunk with the given rows. *)
Definition series_chunk (nm : option label) (rows : list (Z * num)) : value :=
  VSeries (pd.mkSeries nm rows).

(** The stream that [rolling] builds once the window and the minimum
    number of rows are settled. *)
Definition rolling_stream (window : value) (min_periods : Z) (up : streamz.Stream)
    : streamz.Stream :=
  streamz.filter
    (fun x => n ← py_len x; Ok (bool_decide (min_periods <= n)))
    (streamz.scan (fun acc new => _roll acc new window min_periods) None true up).

(** [pd.concat(chunks)] for a non-empty list of frames. *)
Definition concat_all (first : pd.DataFrame) (rest : list pd.DataFrame) : pd.DataFrame :=
  foldl pd.concat_frames first rest.

(** ** Whole-table references

    What pandas computes in one go on the chunks put together, to compare
    the incremental results with. *)

(** [pd.concat(p)] on a list of frames; pandas refuses an empty list. *)
Definition py_concat_list (p : list pd.DataFrame) : result pd.DataFrame :=
  match p with
  | [] => Raise ValueError
  | first :: rest => Ok (concat_all first rest)
  end.

(** [x.mean()] *)
Definition py_mean : value -> result value := py_agg pd.nanmean.

(** What one tick would emit if the aggregate [F] were recomputed on the
    concatenation of the frames [p]. *)
Definition batch_tick (F : value -> result value) (p : list pd.DataFrame)
    : result (list value) :=
  df ← py_concat_list p;
  v ← F (VFrame df);
  Ok [v].

(** What a tick of [rolling] passes on when the buffer holds the rows
    [buf]: the buffer as a chunk, or nothing below [min_periods] rows. *)
Definition window_tick {R} (mk : list R -> value) (min_periods : Z)
    (buf : list R) : list value :=
  if decide (min_periods <= Z.of_nat (length buf)) then [mk buf] else [].

(** A frame chunk with the given rows. *)
Definition rows_chunk (cols : list label) (rows : list (Z * gmap label num)) : value :=
  VFrame (pd.mkFrame cols rows).

(** ** Cells that are summed exactly

    The numbers of the model are exact, so a sum does not depend on the
    order of its additions. pandas adds in binary64 (or in 64-bit
    integers), where the order matters as soon as a sum is rounded. On
    cells that are integers whose absolute values add up to at most
    [2 ^ 53], every sum of some of the cells is exact in either
    arithmetic, in whatever order it is taken. The statements that
    compare a result accumulated chunk by chunk with one computed on the
    concatenation of the chunks are made for such cells. *)

Definition integral (x : num) : bool :=
  match x with
  | NaN => true
  | Fin q => bool_decide (Qden q = 1%positive)
  end.

Definition magnitude (x : num) : Z :=
  match x with
  | NaN => 0
  | Fin q => Z.abs (Qnum q)
  end.

Definition exact_cells (l : list num) : bool :=
  forallb integral l && bool_decide (foldr Z.add 0 (magnitude <$> l) <= 2 ^ 53).

Definition exact_frames (cols : list label) (dfs : list pd.DataFrame) : bool :=
  forallb (fun c => exact_cells (concat ((fun df => pd.column df c) <$> dfs))) cols.

Definition exact_series (ss : list pd.Series) : bool :=
  exact_cells (concat (pd.values <$> ss)).

(** ** Grouped aggregates of the chunks put together *)

(** The columns that a group-by key names: a label, or a list of labels. *)
Definition key_columns (key : value) : option (list label) :=
  match key with
  | VStr c => Some [c]
  | VList l => labels_of l
  | _ => None
  end.

(** [pd.concat(chunks).groupby(key)[index].sum()], or [.mean()]: the
    grouped aggregate [agg] computed in one go on the chunks put
    together; [index] is [None] for no selection. *)
Definition batch_grouped `{Platform} (agg : pd.GroupBy -> value)
    (first : pd.DataFrame) (rest : list pd.DataFrame) (key index : value)
    : result value :=
  py_grouped agg (VFrame (concat_all first rest)) key index.

(** ** Keyed running totals

    What a grouped [sum()] and a grouped [mean()] emit after their first
    tick, given the grouped aggregates of the chunks that follow: each
    value is the one before, plus the aggregate of the chunk, by
    [add(fill_value=0)]; the mean is the ratio of the two totals. An
    addition that fails ends the run. *)

Fixpoint keyed_totals (total : value) (parts : list value) : result (list value) :=
  match parts with
  | [] => Ok []
  | part :: parts' =>
      total' ← py_add_fill total part;
      rest ← keyed_totals total' parts';
      Ok (total' :: rest)
  end.

Fixpoint keyed_means (sums counts : value) (parts : list (value * value))
    : result (list value) :=
  match parts with
  | [] => Ok []
  | part :: parts' =>
      sums' ← py_add_fill sums (fst part);
      counts' ← py_add_fill counts (snd part);
      ratio ← py_binop TrueDiv sums' counts';
      rest ← keyed_means sums' counts' parts';
      Ok (ratio :: rest)
  end.

(** A run in which every tick emits one value. *)
Definition one_per_tick (vs : list value) : list (list value) :=
  (fun v => [v]) <$> vs.

(** The rows of a frame whose cell in the column [k] is the number [q]. *)
Definition rows_with (df : pd.DataFrame) (k : label) (q : Qc)
    : list (gmap label num) :=
  filter (fun r => pd.cell r k = Fin q) (snd <$> pd.rows df).

(** ** Properties of handles *)


(** The method behind each of the five operators. *)
Definition operator_method (op : binop) : Handle -> value -> result Handle :=
  match op with
  | Add => Streaming.__add__
  | Mul => Streaming.__mul__
  | Mod => Streaming.__mod__
  | TrueDiv => Streaming.__truediv__
  | FloorDiv => Streaming.__floordiv__
  end.

(** [outs] is what the handle [h'] emits over [chunks] when it applies [f]
    chunk by chunk: one value per tick, which the handle's own [verify]
    accepts. *)
Definition chunkwise (f : value -> result value) (h' : Handle)
    (outs : list (list value)) (chunks : list value) : Prop :=
  Forall2 (fun out x => exists y, f x = Ok y /\ out = [y] /\ verify h' y = Ok tt)
          outs chunks.

(** The running total of the sums of the Series that a stream emits: what
    each tick adds to the total [total], value by value. *)
Fixpoint totals_tick (total : Qc) (emitted : list value) : Qc * list value :=
  match emitted with
  | [] => (total, [])
  | x :: rest =>
      let t := (total + nansum (cells (pd.KStr "") x))%Qc in
      let '(t', out) := totals_tick t rest in
      (t', VNum (Fin t) :: out)
  end.

Fixpoint running_totals (total : Qc) (ticks : list (list value)) : list (list value) :=
  match ticks with
  | [] => []
  | emitted :: ticks' =>
      let '(t, out) := totals_tick total emitted in
      out :: running_totals t ticks'
  end.

(** The state of a running sum of Series when the total is [total]: the
    integer seed before the first value, a scalar afterwards. *)
Definition sum_state (total : Qc) (st : value) : Prop :=
  st = VNum (Fin total) \/ (st = VInt 0 /\ total = 0%Qc).

(** Emitting the chunks [xs] into a handle one after the other, the caller
    going on after a chunk that is refused: the outcome of every [emit] and
    the world at the end. *)
Fixpoint emit_all (xs : list value) (w : World) : list (result unit) * World :=
  match xs with
  | [] => ([], w)
  | x :: xs' =>
      let '(r, w') := emit x w in
      let '(rs, w'') := emit_all xs' w' in
      (r :: rs, w'')
  end.

(** The chunks of [xs] that the handle's [verify] accepts. *)
Fixpoint accepted (h : Handle) (xs : list value) : list value :=
  match xs with
  | [] => []
  | x :: xs' =>
      match verify h x with
      | Ok _ => x :: accepted h xs'
      | Raise _ => accepted h xs'
      end
  end.

(** The pipeline [s] over the source [src] as a subscriber in the state
    [st]; [subscribe] is the pipeline in its initial state. *)
Definition subscriber_at `{Platform} (src : nat) (s : streamz.Stream)
    (st : streamz.State) : Subscriber :=
  mkSubscriber streamz.State st (fun st x => fst <$> streamz.feed src x s st).

(** More sample data: the frames of [sample_frames] one by one, a frame
    with one column only, and the rows of a few Series chunks. *)
Definition sample_first : pd.DataFrame :=
  pd.mkFrame ["a"; "b"]%string
    [(0, {[ "a"%string := num_of_Z 1; "b"%string := num_of_Z 2 ]});
     (1, {[ "a"%string := num_of_Z 3; "b"%string := NaN ]})].

Definition sample_rest : list pd.DataFrame :=
  [pd.mkFrame ["a"; "b"]%string
     [(0, {[ "a"%string := num_of_Z 1; "b"%string := num_of_Z 20 ]});
      (1, {[ "a"%string := num_of_Z 5; "b"%string := num_of_Z 40 ]})]].

Definition sample_narrow : pd.DataFrame :=
  pd.mkFrame ["a"]%string [(0, {[ "a"%string := num_of_Z 7 ]})].

Definition sample_rows : list (list (Z * num)) :=
  [[(0, num_of_Z 1)]; [(1, num_of_Z 2); (2, num_of_Z 3)]; [(3, num_of_Z 4)]].

(** [pd.concat] on Series, and what one tick would emit if the aggregate
    [F] were recomputed on the concatenation of the Series [p]. *)
Definition concat_all_series (first : pd.Series) (rest : list pd.Series) : pd.Series :=
  foldl pd.concat_series first rest.

Definition batch_tick_series (F : value -> result value) (p : list pd.Series)
    : result (list value) :=
  match p with
  | [] => Raise ValueError
  | first :: rest => v ← F (VSeries (concat_all_series first rest)); Ok [v]
  end.

(** * Facts about the model *)




Lemma lookup_tabulate {K} `{Countable K} {A} (ks : list K) (f : K -> A) (k : K) :
  tabulate ks f !! k = if decide (k ∈ ks) then Some (f k) else None.
Proof.
  unfold tabulate. induction ks as [|k' ks IH].
  - rewrite fmap_nil, list_to_map_nil, lookup_empty.
    case_decide as Hin; [|done]. by apply elem_of_nil in Hin.
  - rewrite fmap_cons, list_to_map_cons, lookup_insert, IH. cbn [fst snd].
    destruct (decide (k' = k)) as [->|Hne].
    + rewrite decide_True; [done|]. apply elem_of_cons; by left.
    + destruct (decide (k ∈ ks)) as [Hin|Hin].
      * rewrite decide_True; [done|]. apply elem_of_cons; by right.
      * rewrite decide_False; [done|]. intros [?|?]%elem_of_cons; congruence.
Qed.

Lemma lookup_by_label {A} (cols : list label) (g : label -> A) (k : pd.key) :
  pd.by_label cols g !! k =
  match k with
  | pd.KStr c => if decide (c ∈ cols) then Some (g c) else None
  | _ => None
  end.
Proof.
  unfold pd.by_label. induction cols as [|c' cols IH].
  - rewrite fmap_nil, list_to_map_nil, lookup_empty. destruct k; [done| |done].
    case_decide as Hin; [|done]. by apply elem_of_nil in Hin.
  - rewrite fmap_cons, list_to_map_cons, lookup_insert, IH. cbn [fst snd].
    destruct k as [q|c|qs].
    + by rewrite decide_False.
    + destruct (decide (c' = c)) as [->|Hne].
      * rewrite !decide_True; [done| |done]. apply elem_of_cons; by left.
      * rewrite (decide_False (P := pd.KStr c' = pd.KStr c)) by congruence.
        destruct (decide (c ∈ cols)) as [Hin|Hin].
        -- rewrite decide_True; [done|]. apply elem_of_cons; by right.
        -- rewrite decide_False; [done|]. intros [?|?]%elem_of_cons; congruence.
    + by rewrite decide_False.
Qed.

Lemma by_label_ext {A} (cols : list label) (g1 g2 : label -> A) :
  (forall c, c ∈ cols -> g1 c = g2 c) -> pd.by_label cols g1 = pd.by_label cols g2.
Proof.
  intros Hg. apply map_eq. intros k. rewrite !lookup_by_label.
  destruct k; [done| |done]. case_decide; [|done]. by rewrite Hg.
Qed.

Lemma fmap_by_label {A B} (f : A -> B) (cols : list label) (g : label -> A) :
  f <$> pd.by_label cols g = pd.by_label cols (fun c => f (g c)).
Proof.
  apply map_eq. intros k. rewrite lookup_fmap, !lookup_by_label.
  destruct k; [done| |done]. by case_decide.
Qed.

Lemma align2_by_label (f : num -> num -> num) (cols : list label) (g1 g2 : label -> num) :
  pd.align2 f (pd.by_label cols g1) (pd.by_label cols g2)
  = pd.by_label cols (fun c => f (g1 c) (g2 c)).
Proof.
  apply map_eq. intros k. unfold pd.align2.
  rewrite lookup_merge, !lookup_by_label.
  destruct k; [done| |done]. by case_decide.
Qed.

(** ** Running sum *)

Section running.
Context `{Platform}.

Lemma feed_accumulate_source (src : nat) (x : value)
    (func : value -> value -> result value) (start : option value)
    (returns_state : bool) (state : option value) :
  streamz.feed src x (streamz.accumulate func start returns_state (streamz.Source src))
               (streamz.SAcc state streamz.SSource)
  = so ← streamz.accumulate_update func returns_state state x;
    Ok (streamz.SAcc (fst so) streamz.SSource, snd so).
Proof.
  cbn [streamz.feed]. rewrite decide_True by done.
  cbn [mbind result_bind snd fst streamz.accumulate_all].
  destruct (streamz.accumulate_update func returns_state state x) as [[st out]|e];
    [|done].
  cbn. by rewrite app_nil_r.
Qed.

Lemma py_sum_frame_like cols x :
  frame_like cols x ->
  py_sum x = Ok (VTable1 (pd.by_label cols (fun c => Fin (nansum (cells (pd.KStr c) x))))).
Proof.
  intros [Hdf Hcols]. destruct x; try discriminate; cbn in Hcols; simplify_eq; done.
Qed.

Lemma py_count_frame_like cols x :
  frame_like cols x ->
  py_count x = Ok (VTable1 (pd.by_label cols (fun c => Fin (nancount (cells (pd.KStr c) x))))).
Proof.
  intros [Hdf Hcols]. destruct x; try discriminate; cbn in Hcols; simplify_eq; done.
Qed.

Lemma accumulate_sum_first_frame cols x :
  frame_like cols x ->
  _accumulate_sum (VInt 0) x
  = Ok (VTable1 (pd.by_label cols (fun c => Fin (0 + nansum (cells (pd.KStr c) x))%Qc))).
Proof.
  intros Hx. unfold _accumulate_sum. rewrite (py_sum_frame_like cols x Hx).
  cbn. by rewrite fmap_by_label.
Qed.

Lemma accumulate_sum_next_frame cols (a : label -> Qc) x :
  frame_like cols x ->
  _accumulate_sum (VTable1 (pd.by_label cols (fun c => Fin (a c)))) x
  = Ok (VTable1 (pd.by_label cols (fun c => Fin (a c + nansum (cells (pd.KStr c) x))%Qc))).
Proof.
  intros Hx. unfold _accumulate_sum. rewrite (py_sum_frame_like cols x Hx).
  cbn. by rewrite align2_by_label.
Qed.


Lemma total_sum_cons c x p :
  total_sum c (x :: p) = (nansum (cells c x) + total_sum c p)%Qc.
Proof. reflexivity. Qed.

Lemma prefixes_cons {A} (x : A) (l : list A) :
  prefixes (x :: l) = [x] :: ((fun p => x :: p) <$> prefixes l).
Proof. reflexivity. Qed.

Lemma run_sum_frames src cols start (a : label -> Qc) chunks :
  Forall (frame_like cols) chunks ->
  streamz.run_from src
    (streamz.accumulate _accumulate_sum start false (streamz.Source src))
    (streamz.SAcc (Some (VTable1 (pd.by_label cols (fun c => Fin (a c))))) streamz.SSource)
    chunks
  = Ok ((fun p => [VTable1 (pd.by_label cols
                              (fun c => Fin (a c + total_sum (pd.KStr c) p)%Qc))])
          <$> prefixes chunks).
Proof.
  intros Hall. revert a. induction Hall as [|x chunks Hx Hall IH]; intros a; [done|].
  cbn [streamz.run_from]. rewrite feed_accumulate_source.
  cbn [streamz.accumulate_update]. rewrite (accumulate_sum_next_frame cols a x Hx).
  cbn [mbind result_bind fst snd]. rewrite IH. cbn [mbind result_bind].
  rewrite prefixes_cons, fmap_cons, <- list_fmap_compose. f_equal. f_equal.
  - f_equal. f_equal. apply by_label_ext. intros c _.
    rewrite total_sum_cons. cbn [total_sum foldr]. by rewrite Qcplus_0_r.
  - apply list_fmap_ext. intros _ p _. unfold compose. f_equal. f_equal.
    apply by_label_ext. intros c _. by rewrite total_sum_cons, Qcplus_assoc.
Qed.


Lemma verify_frame_like (h : Handle) x :
  type_of h = TStreamingDataFrame ->
  verify h x = Ok tt ->
  exists cols, py_columns (example h) = Ok cols /\ frame_like cols x.
Proof.
  intros Ht. unfold verify. rewrite Ht.
  unfold StreamingDataFrame.verify, Streaming.verify. rewrite Ht. cbn [_subtype].
  destruct (is_DataFrame x) eqn:Hx; [|done]. cbn [mbind result_bind].
  destruct (py_columns x) as [xc|] eqn:Hxc; [|done].
  destruct (py_columns (example h)) as [ec|] eqn:Hec; [|done].
  cbn [mbind result_bind]. case_decide as Hne; [done|].
  intros _. exists ec. split; [done|]. split; [done|].
  destruct (decide (xc = ec)) as [->|]; [done|]. by destruct Hne.
Qed.

Lemma verify_series_like (h : Handle) x :
  type_of h = TStreamingSeries ->
  verify h x = Ok tt -> is_Series x = true.
Proof.
  intros Ht. unfold verify. rewrite Ht. unfold Streaming.verify. rewrite Ht.
  cbn [_subtype]. by destruct (is_Series x).
Qed.

Lemma py_sum_series_like k x :
  is_Series x = true -> py_sum x = Ok (VNum (Fin (nansum (cells k x)))).
Proof. destruct x; try discriminate; intros _; by destruct k. Qed.

Lemma py_count_series_like k x :
  is_Series x = true -> py_count x = Ok (VNum (Fin (nancount (cells k x)))).
Proof. destruct x; try discriminate; intros _; by destruct k. Qed.

Lemma accumulate_sum_first_series k x :
  is_Series x = true ->
  _accumulate_sum (VInt 0) x = Ok (VNum (Fin (0 + nansum (cells k x))%Qc)).
Proof.
  intros Hx. unfold _accumulate_sum. by rewrite (py_sum_series_like k x Hx).
Qed.

Lemma accumulate_sum_next_series k (a : Qc) x :
  is_Series x = true ->
  _accumulate_sum (VNum (Fin a)) x = Ok (VNum (Fin (a + nansum (cells k x))%Qc)).
Proof.
  intros Hx. unfold _accumulate_sum. by rewrite (py_sum_series_like k x Hx).
Qed.

Lemma run_sum_series src k start (a : Qc) chunks :
  Forall (fun x => is_Series x = true) chunks ->
  streamz.run_from src
    (streamz.accumulate _accumulate_sum start false (streamz.Source src))
    (streamz.SAcc (Some (VNum (Fin a))) streamz.SSource) chunks
  = Ok ((fun p => [VNum (Fin (a + total_sum k p)%Qc)]) <$> prefixes chunks).
Proof.
  intros Hall. revert a. induction Hall as [|x chunks Hx Hall IH]; intros a; [done|].
  cbn [streamz.run_from]. rewrite feed_accumulate_source.
  cbn [streamz.accumulate_update]. rewrite (accumulate_sum_next_series k a x Hx).
  cbn [mbind result_bind fst snd].
  rewrite IH. cbn [mbind result_bind].
  rewrite prefixes_cons, fmap_cons, <- list_fmap_compose. f_equal. f_equal.
  - rewrite total_sum_cons. cbn [total_sum foldr]. by rewrite Qcplus_0_r.
  - apply list_fmap_ext. intros _ p _. unfold compose.
    by rewrite total_sum_cons, Qcplus_assoc.
Qed.

(** Claim C1 (running sum). On a frame or Series handle fed at its source,
    with every chunk accepted by [verify], [sum()] derives a handle whose
    stream emits, at the tick of each chunk, the sum over the chunks so far
    of the chunk-level sum: one entry per column for a frame, a scalar for
    a Series. This holds for every prefix of the chunks. *)
Theorem running_sum_correct (h : Handle) (src : nat) (chunks : list value) :
  stream h = streamz.Source src ->
  type_of h = TStreamingDataFrame \/ type_of h = TStreamingSeries ->
  _subtype (type_of h) (example h) = true ->
  Forall (fun x => verify h x = Ok tt) chunks ->
  exists h',
    StreamingFrame.sum h = Ok h' /\
    streamz.run src (stream h') chunks
    = Ok ((fun p => [running_sum (example h) p]) <$> prefixes chunks).
Proof.
  intros Hsrc [Ht|Ht] Hex Hall; rewrite Ht in Hex; cbn [_subtype] in Hex.
  - (* frame handle *)
    assert (exists cols, py_columns (example h) = Ok cols) as [cols Hcols].
    { destruct (example h); try discriminate; cbn; eauto. }
    assert (Forall (frame_like cols) chunks) as Hfl.
    { eapply Forall_impl; [exact Hall|]. intros x Hx.
      destruct (verify_frame_like h x Ht Hx) as (cols' & Hc & Hf). congruence. }
    unfold StreamingFrame.sum, Streaming.accumulate_partitions.
    cbn [from_option id]. rewrite (accumulate_sum_first_frame cols (example h)) by done.
    cbn [mbind result_bind]. unfold Streaming.wrap. cbn [is_DataFrame is_Series].
    unfold Streaming.__init__. cbn [_subtype is_Series from_option id].
    eexists. split; [reflexivity|]. cbn [stream]. rewrite Hsrc.
    unfold streamz.run. cbn [streamz.init]. unfold running_sum, agg_total. rewrite Hcols.
    destruct Hfl as [|x rest Hx Hrest]; [done|].
    cbn [streamz.run_from]. rewrite feed_accumulate_source.
    cbn [streamz.accumulate_update].
    rewrite (accumulate_sum_first_frame cols x Hx).
    cbn [mbind result_bind fst snd]. erewrite run_sum_frames by done.
    cbn [mbind result_bind].
    rewrite prefixes_cons, fmap_cons, <- list_fmap_compose. f_equal. f_equal.
    + f_equal. f_equal. apply by_label_ext. intros c _.
      rewrite total_sum_cons. cbn [total_sum foldr].
      by rewrite Qcplus_0_l, Qcplus_0_r.
    + apply list_fmap_ext. intros _ p _. unfold compose. f_equal. f_equal.
      apply by_label_ext. intros c _. by rewrite total_sum_cons, Qcplus_0_l.
  - (* series handle *)
    assert (exists e, py_columns (example h) = Raise e) as [e He].
    { destruct (example h); try discriminate; cbn; eauto. }
    assert (Forall (fun x => is_Series x = true) chunks) as Hsl.
    { eapply Forall_impl; [exact Hall|]. intros x Hx.
      by apply (verify_series_like h). }
    unfold StreamingFrame.sum, Streaming.accumulate_partitions.
    cbn [from_option id]. rewrite (accumulate_sum_first_series (pd.KStr "") (example h) Hex).
    cbn [mbind result_bind]. unfold Streaming.wrap.
    cbn [is_DataFrame is_Series]. unfold Streaming.__init__. cbn [_subtype from_option id].
    eexists. split; [reflexivity|]. cbn [stream]. rewrite Hsrc.
    unfold streamz.run. cbn [streamz.init]. unfold running_sum, agg_total. rewrite He.
    destruct Hsl as [|x rest Hx Hrest]; [done|].
    cbn [streamz.run_from]. rewrite feed_accumulate_source.
    cbn [streamz.accumulate_update].
    rewrite (accumulate_sum_first_series (pd.KStr "") x Hx).
    cbn [mbind result_bind fst snd].
    erewrite (run_sum_series _ (pd.KStr "")) by done.
    cbn [mbind result_bind].
    rewrite prefixes_cons, fmap_cons, <- list_fmap_compose. f_equal. f_equal.
    + rewrite total_sum_cons. cbn [total_sum foldr].
      by rewrite Qcplus_0_l, Qcplus_0_r.
    + apply list_fmap_ext. intros _ p _. unfold compose.
      by rewrite total_sum_cons, Qcplus_0_l.
Qed.

End running.


(** ** Running mean *)

Lemma cell_mean_row_sums s c : pd.cell (mean_row s c) "sums" = s.
Proof. unfold pd.cell, mean_row. by rewrite lookup_insert_eq. Qed.

Lemma cell_mean_row_counts s c : pd.cell (mean_row s c) "counts" = c.
Proof.
  unfold pd.cell, mean_row. rewrite lookup_insert_ne by done.
  by rewrite lookup_singleton_eq.
Qed.

Lemma insert_mean_row_sums x s c : <["sums"%string := x]> (mean_row s c) = mean_row x c.
Proof. unfold mean_row. by rewrite insert_insert_eq. Qed.

Lemma insert_mean_row_counts x s c : <["counts"%string := x]> (mean_row s c) = mean_row s x.
Proof.
  unfold mean_row. rewrite insert_insert_ne by done.
  by rewrite insert_singleton_eq.
Qed.

Lemma setitem_column (key : label) (cols : list label)
    (rowf : label -> gmap label num) (g : label -> num) :
  map_imap (fun k r => Some (<[key := default NaN (pd.by_label cols g !! k)]> r))
           (pd.by_label cols rowf)
  = pd.by_label cols (fun c => <[key := g c]> (rowf c)).
Proof.
  apply map_eq. intros k. rewrite map_lookup_imap, !lookup_by_label.
  destruct k as [q|c|qs]; [done| |done]. case_decide; [|done]. done.
Qed.

Lemma accumulate_mean_frame cols (a n : label -> Qc) x :
  frame_like cols x ->
  _accumulate_mean
    (VTable2 ["sums"; "counts"]%string
       (pd.by_label cols (fun c => mean_row (Fin (a c)) (Fin (n c))))) x
  = Ok (VTuple
          (VTable2 ["sums"; "counts"]%string
             (pd.by_label cols
                (fun c => mean_row (Fin (a c + nansum (cells (pd.KStr c) x))%Qc)
                                   (Fin (n c + nancount (cells (pd.KStr c) x))%Qc))))
          (VTable1
             (pd.by_label cols
                (fun c => num_truediv (Fin (a c + nansum (cells (pd.KStr c) x))%Qc)
                                      (Fin (n c + nancount (cells (pd.KStr c) x))%Qc))))).
Proof.
  intros Hx. unfold _accumulate_mean.
  rewrite (py_sum_frame_like cols x Hx), (py_count_frame_like cols x Hx).
  cbn [py_copy mbind result_bind py_getitem].
  rewrite !decide_True by (rewrite !elem_of_cons; auto).
  cbn [mbind result_bind]. rewrite fmap_by_label.
  cbn [py_binop as_scalar mbind result_bind num_binop].
  rewrite align2_by_label. cbn [py_setitem].
  rewrite !decide_True by (rewrite !elem_of_cons; auto).
  rewrite setitem_column. cbn [mbind result_bind py_getitem].
  rewrite !decide_True by (rewrite !elem_of_cons; auto).
  cbn [mbind result_bind]. rewrite fmap_by_label.
  cbn [py_binop as_scalar mbind result_bind num_binop].
  rewrite align2_by_label. cbn [py_setitem].
  rewrite !decide_True by (rewrite !elem_of_cons; auto).
  rewrite setitem_column. cbn [mbind result_bind py_getitem].
  rewrite !decide_True by (rewrite !elem_of_cons; auto).
  cbn [mbind result_bind]. rewrite !fmap_by_label.
  cbn [py_binop as_scalar mbind result_bind num_binop].
  rewrite align2_by_label.
  reflexivity.
Qed.

Lemma accumulate_mean_series k (a n : Qc) x :
  is_Series x = true ->
  _accumulate_mean (VTable1 (mean_pair (Fin a) (Fin n))) x
  = Ok (VTuple
          (VTable1 (mean_pair (Fin (a + nansum (cells k x))%Qc)
                              (Fin (n + nancount (cells k x))%Qc)))
          (VNum (num_truediv (Fin (a + nansum (cells k x))%Qc)
                             (Fin (n + nancount (cells k x))%Qc)))).
Proof.
  intros Hx. unfold _accumulate_mean.
  rewrite (py_sum_series_like k x Hx), (py_count_series_like k x Hx).
  reflexivity.
Qed.

Lemma total_count_cons c x p :
  total_count c (x :: p) = (nancount (cells c x) + total_count c p)%Qc.
Proof. reflexivity. Qed.

Section running_mean.
Context `{Platform}.

Lemma run_mean_frames src cols start (a n : label -> Qc) chunks :
  Forall (frame_like cols) chunks ->
  streamz.run_from src
    (streamz.accumulate _accumulate_mean start true (streamz.Source src))
    (streamz.SAcc
       (Some (VTable2 ["sums"; "counts"]%string
                (pd.by_label cols (fun c => mean_row (Fin (a c)) (Fin (n c))))))
       streamz.SSource)
    chunks
  = Ok ((fun p =>
           [VTable1 (pd.by_label cols
                       (fun c => num_truediv
                                   (Fin (a c + total_sum (pd.KStr c) p)%Qc)
                                   (Fin (n c + total_count (pd.KStr c) p)%Qc)))])
          <$> prefixes chunks).
Proof.
  intros Hall. revert a n.
  induction Hall as [|x chunks Hx Hall IH]; intros a n; [done|].
  cbn [streamz.run_from]. rewrite feed_accumulate_source.
  cbn [streamz.accumulate_update]. rewrite (accumulate_mean_frame cols a n x Hx).
  cbn [mbind result_bind fst snd unpack2]. rewrite IH. cbn [mbind result_bind].
  rewrite prefixes_cons, fmap_cons, <- list_fmap_compose. f_equal. f_equal.
  - f_equal. f_equal. apply by_label_ext. intros c _.
    rewrite total_sum_cons, total_count_cons. cbn [total_sum total_count foldr].
    by rewrite !Qcplus_0_r.
  - apply list_fmap_ext. intros _ p _. unfold compose. f_equal. f_equal.
    apply by_label_ext. intros c _.
    by rewrite total_sum_cons, total_count_cons, !Qcplus_assoc.
Qed.

Lemma state_mean_frames src cols start (a n : label -> Qc) chunks :
  Forall (frame_like cols) chunks ->
  streamz.state_from src
    (streamz.accumulate _accumulate_mean start true (streamz.Source src))
    (streamz.SAcc
       (Some (VTable2 ["sums"; "counts"]%string
                (pd.by_label cols (fun c => mean_row (Fin (a c)) (Fin (n c))))))
       streamz.SSource)
    chunks
  = Ok (streamz.SAcc
          (Some (VTable2 ["sums"; "counts"]%string
                   (pd.by_label cols
                      (fun c => mean_row (Fin (a c + total_sum (pd.KStr c) chunks)%Qc)
                                         (Fin (n c + total_count (pd.KStr c) chunks)%Qc)))))
          streamz.SSource).
Proof.
  intros Hall. revert a n.
  induction Hall as [|x chunks Hx Hall IH]; intros a n.
  - cbn [streamz.state_from]. do 4 f_equal. apply by_label_ext. intros c _.
    cbn [total_sum total_count foldr]. by rewrite !Qcplus_0_r.
  - cbn [streamz.state_from]. rewrite feed_accumulate_source.
    cbn [streamz.accumulate_update]. rewrite (accumulate_mean_frame cols a n x Hx).
    cbn [mbind result_bind fst snd unpack2]. rewrite IH.
    do 4 f_equal. apply by_label_ext. intros c _.
    by rewrite total_sum_cons, total_count_cons, !Qcplus_assoc.
Qed.

Lemma run_mean_series src k start (a n : Qc) chunks :
  Forall (fun x => is_Series x = true) chunks ->
  streamz.run_from src
    (streamz.accumulate _accumulate_mean start true (streamz.Source src))
    (streamz.SAcc (Some (VTable1 (mean_pair (Fin a) (Fin n)))) streamz.SSource)
    chunks
  = Ok ((fun p => [VNum (num_truediv (Fin (a + total_sum k p)%Qc)
                                     (Fin (n + total_count k p)%Qc))])
          <$> prefixes chunks).
Proof.
  intros Hall. revert a n.
  induction Hall as [|x chunks Hx Hall IH]; intros a n; [done|].
  cbn [streamz.run_from]. rewrite feed_accumulate_source.
  cbn [streamz.accumulate_update]. rewrite (accumulate_mean_series k a n x Hx).
  cbn [mbind result_bind fst snd unpack2]. rewrite IH. cbn [mbind result_bind].
  rewrite prefixes_cons, fmap_cons, <- list_fmap_compose. f_equal. f_equal.
  - rewrite total_sum_cons, total_count_cons. cbn [total_sum total_count foldr].
    by rewrite !Qcplus_0_r.
  - apply list_fmap_ext. intros _ p _. unfold compose.
    by rewrite total_sum_cons, total_count_cons, !Qcplus_assoc.
Qed.

Lemma state_mean_series src k start (a n : Qc) chunks :
  Forall (fun x => is_Series x = true) chunks ->
  streamz.state_from src
    (streamz.accumulate _accumulate_mean start true (streamz.Source src))
    (streamz.SAcc (Some (VTable1 (mean_pair (Fin a) (Fin n)))) streamz.SSource)
    chunks
  = Ok (streamz.SAcc
          (Some (VTable1 (mean_pair (Fin (a + total_sum k chunks)%Qc)
                                    (Fin (n + total_count k chunks)%Qc))))
          streamz.SSource).
Proof.
  intros Hall. revert a n.
  induction Hall as [|x chunks Hx Hall IH]; intros a n.
  - cbn [streamz.state_from total_sum total_count foldr]. by rewrite !Qcplus_0_r.
  - cbn [streamz.state_from]. rewrite feed_accumulate_source.
    cbn [streamz.accumulate_update]. rewrite (accumulate_mean_series k a n x Hx).
    cbn [mbind result_bind fst snd unpack2]. rewrite IH.
    by rewrite total_sum_cons, total_count_cons, !Qcplus_assoc.
Qed.

(** Claim C5 (running mean). Under the same conditions, [mean()] derives a
    handle whose stream emits, at the tick of each chunk, the sum of the
    chunk sums so far divided by the sum of the chunk counts so far, and
    the state the fold carries after the chunks is the table of these sums
    and counts, not the ratio. *)
Theorem running_mean_correct (h : Handle) (src : nat) (chunks : list value) :
  stream h = streamz.Source src ->
  type_of h = TStreamingDataFrame \/ type_of h = TStreamingSeries ->
  _subtype (type_of h) (example h) = true ->
  Forall (fun x => verify h x = Ok tt) chunks ->
  exists h',
    mean h = Ok h' /\
    streamz.run src (stream h') chunks
    = Ok ((fun p => [running_mean (example h) p]) <$> prefixes chunks) /\
    streamz.state_after src (stream h') chunks
    = Ok (streamz.SAcc (Some (mean_state (example h) chunks)) streamz.SSource).
Proof.
  intros Hsrc [Ht|Ht] Hex Hall; rewrite Ht in Hex; cbn [_subtype] in Hex.
  - assert (exists cols, py_columns (example h) = Ok cols) as [cols Hcols].
    { destruct (example h); try discriminate; cbn; eauto. }
    assert (Forall (frame_like cols) chunks) as Hfl.
    { eapply Forall_impl; [exact Hall|]. intros x Hx.
      destruct (verify_frame_like h x Ht Hx) as (cols' & Hc & Hf). congruence. }
    unfold mean. rewrite Ht.
    unfold StreamingDataFrame.mean, Streaming.accumulate_partitions.
    rewrite Hcols. cbn [mbind result_bind from_option id]. unfold num_of_Z.
    change (Q2Qc (inject_Z 0)) with 0%Qc.
    rewrite (accumulate_mean_frame cols (fun _ => 0%Qc) (fun _ => 0%Qc) (example h))
      by done.
    cbn [mbind result_bind fmap result_fmap unpack2 snd]. unfold Streaming.wrap.
    cbn [is_DataFrame is_Series]. unfold Streaming.__init__.
    cbn [_subtype is_Series from_option id].
    eexists. split; [reflexivity|]. cbn [stream]. rewrite Hsrc.
    unfold streamz.run, streamz.state_after. cbn [streamz.init].
    rewrite (run_mean_frames src cols _ (fun _ => 0%Qc) (fun _ => 0%Qc)) by done.
    rewrite (state_mean_frames src cols _ (fun _ => 0%Qc) (fun _ => 0%Qc)) by done.
    unfold running_mean, mean_state, agg_total. rewrite Hcols. split.
    + f_equal. apply list_fmap_ext. intros _ p _. do 2 f_equal.
      apply by_label_ext. intros c _. by rewrite !Qcplus_0_l.
    + do 4 f_equal. apply by_label_ext. intros c _. by rewrite !Qcplus_0_l.
  - assert (exists e, py_columns (example h) = Raise e) as [e He].
    { destruct (example h); try discriminate; cbn; eauto. }
    assert (Forall (fun x => is_Series x = true) chunks) as Hsl.
    { eapply Forall_impl; [exact Hall|]. intros x Hx.
      by apply (verify_series_like h). }
    unfold mean. rewrite Ht.
    unfold StreamingSeries.mean, Streaming.accumulate_partitions.
    cbn [from_option id]. unfold num_of_Z. change (Q2Qc (inject_Z 0)) with 0%Qc.
    rewrite (accumulate_mean_series (pd.KStr "") 0 0 (example h)) by done.
    cbn [mbind result_bind fmap result_fmap unpack2 snd]. unfold Streaming.wrap.
    cbn [is_DataFrame is_Series]. unfold Streaming.__init__.
    cbn [_subtype from_option id].
    eexists. split; [reflexivity|]. cbn [stream]. rewrite Hsrc.
    unfold streamz.run, streamz.state_after. cbn [streamz.init].
    rewrite (run_mean_series src (pd.KStr "") _ 0 0) by done.
    rewrite (state_mean_series src (pd.KStr "") _ 0 0) by done.
    unfold running_mean, mean_state, agg_total. rewrite He. split.
    + f_equal. apply list_fmap_ext. intros _ p _. by rewrite !Qcplus_0_l.
    + by rewrite !Qcplus_0_l.
Qed.

End running_mean.


(** ** Rolling windows *)

Section rolling.
Context `{Platform}.

Lemma feed_filter_scan_source (src : nat) (x : value)
    (predicate : value -> result bool)
    (func : value -> value -> result value) (start : option value)
    (returns_state : bool) (state : option value) :
  streamz.feed src x
    (streamz.filter predicate
       (streamz.scan func start returns_state (streamz.Source src)))
    (streamz.SFilter (streamz.SAcc state streamz.SSource))
  = so ← streamz.accumulate_update func returns_state state x;
    ys ← streamz.filter_all predicate (snd so);
    Ok (streamz.SFilter (streamz.SAcc (fst so) streamz.SSource), ys).
Proof.
  unfold streamz.scan. cbn [streamz.feed]. rewrite decide_True by done.
  cbn [mbind result_bind snd fst streamz.accumulate_all].
  destruct (streamz.accumulate_update func returns_state state x) as [[st out]|e];
    [|done].
  cbn [mbind result_bind snd fst]. by rewrite app_nil_r.
Qed.

Lemma roll_series nm rows r (w mp : Z) :
  _roll (series_chunk nm rows) (series_chunk nm [r]) (VInt w) mp
  = Ok (VTuple
          (series_chunk nm (pd.slice_from (- w) (rows ++ [r])))
          (if decide (mp <= Z.of_nat (length (pd.slice_from (- w) (rows ++ [r]))))
           then series_chunk nm (pd.slice_from (- w) (rows ++ [r]))
           else VList [])).
Proof.
  unfold _roll, series_chunk. cbn [py_concat mbind result_bind py_iloc_from].
  unfold pd.concat_series, pd.iloc_from_series. cbn [pd.name pd.items].
  rewrite decide_True by done. reflexivity.
Qed.


Lemma py_len_nonneg v n : py_len v = Ok n -> 0 <= n.
Proof. destruct v; cbn; intros; simplify_eq; lia. Qed.

Lemma roll_shape acc x window mp r :
  _roll acc x window mp = Ok r ->
  exists buf n, py_len buf = Ok n /\
    r = VTuple buf (if decide (mp <= n) then buf else VList []).
Proof.
  unfold _roll. destruct (py_concat acc x) as [c|]; [|done].
  cbn [mbind result_bind].
  destruct (match window with
            | VInt w => py_iloc_from (- w) c
            | VTimedelta d => py_loc_tail d c
            | _ => Ok c
            end) as [buf|]; [|done].
  cbn [mbind result_bind]. destruct (py_len buf) as [n|] eqn:Hn; [|done].
  cbn [mbind result_bind]. intros [= <-]. eauto.
Qed.

Lemma rolling_suppresses src window mp st x st' outs buf n :
  streamz.feed src x (rolling_stream window mp (streamz.Source src)) st = Ok (st', outs) ->
  st' = streamz.SFilter (streamz.SAcc (Some buf) streamz.SSource) ->
  py_len buf = Ok n ->
  n < mp ->
  outs = [].
Proof.
  intros Hfeed -> Hlen Hlt. unfold rolling_stream in Hfeed.
  destruct st as [| |?|[| |state []| |]|]; try discriminate Hfeed.
  rewrite feed_filter_scan_source in Hfeed.
  destruct state as [acc|]; cbn [streamz.accumulate_update] in Hfeed.
  - destruct (_roll acc x window mp) as [r|] eqn:Hr; [|done].
    destruct (roll_shape _ _ _ _ _ Hr) as (buf' & n' & Hlen' & ->).
    cbn [mbind result_bind unpack2 fst snd streamz.filter_all] in Hfeed.
    destruct (decide (mp <= n')) as [Hle|Hgt].
    + exfalso. rewrite Hlen' in Hfeed. cbn [mbind result_bind] in Hfeed.
      injection Hfeed as Hbuf _. rewrite Hbuf in Hlen'.
      rewrite Hlen in Hlen'. simplify_eq. lia.
    + cbn [py_len mbind result_bind length] in Hfeed.
      pose proof (py_len_nonneg _ _ Hlen').
      rewrite bool_decide_eq_false_2 in Hfeed by (cbn; lia). by simplify_eq.
  - cbn [mbind result_bind fst snd] in Hfeed.
    destruct seed_tick_emits; cbn [streamz.filter_all mbind result_bind] in Hfeed.
    + destruct (py_len x) as [m|] eqn:Hm; [|done]. cbn [mbind result_bind] in Hfeed.
      injection Hfeed as Hbuf Houts. rewrite Hbuf, Hlen in Hm. injection Hm as <-.
      by rewrite bool_decide_eq_false_2 in Houts by lia.
    + by simplify_eq.
Qed.

Lemma run_rolling_cons src window mp state x xs :
  streamz.run_from src (rolling_stream window mp (streamz.Source src))
    (streamz.SFilter (streamz.SAcc state streamz.SSource)) (x :: xs)
  = so ← streamz.accumulate_update
           (fun acc new => _roll acc new window mp) true state x;
    ys ← streamz.filter_all
           (fun x => n ← py_len x; Ok (bool_decide (mp <= n))) (snd so);
    rest ← streamz.run_from src (rolling_stream window mp (streamz.Source src))
             (streamz.SFilter (streamz.SAcc (fst so) streamz.SSource)) xs;
    Ok (ys :: rest).
Proof.
  unfold rolling_stream. cbn [streamz.run_from].
  rewrite feed_filter_scan_source.
  destruct (streamz.accumulate_update _ true state x) as [[st out]|]; [|done].
  cbn [mbind result_bind fst snd].
  by destruct (streamz.filter_all _ out).
Qed.

(** Claim C3 (row-count window). With [rolling(window=3, min_periods=2)]
    the four one-row chunks give no tick after the first, the two rows
    after the second, the three rows after the third, and the last three
    rows after the fourth; and a tick that leaves a buffer of fewer than
    [min_periods] rows emits nothing. Both hold whether or not the engine
    passes the seeding chunk on. *)
Theorem rolling_row_count_trace (h : Handle) (src : nat) (nm : option label)
    (r1 r2 r3 r4 : Z * num) :
  stream h = streamz.Source src ->
  _subtype (type_of h) (example h) = true ->
  exists h',
    Streaming.rolling h (VInt 3) 2 = Ok h' /\
    streamz.run src (stream h')
      [series_chunk nm [r1]; series_chunk nm [r2];
       series_chunk nm [r3]; series_chunk nm [r4]]
    = Ok [[]; [series_chunk nm [r1; r2]]; [series_chunk nm [r1; r2; r3]];
          [series_chunk nm [r2; r3; r4]]] /\
    (forall st x st' outs buf n,
        streamz.feed src x (stream h') st = Ok (st', outs) ->
        st' = streamz.SFilter (streamz.SAcc (Some buf) streamz.SSource) ->
        py_len buf = Ok n -> n < 2 -> outs = []).
Proof.
  intros Hsrc Hex. unfold Streaming.rolling. cbn [mbind result_bind fst snd].
  unfold Streaming.__init__. rewrite Hex. cbn [from_option id].
  eexists. split; [reflexivity|]. cbn [stream]. rewrite Hsrc.
  fold (rolling_stream (VInt 3) 2 (streamz.Source src)). split.
  - unfold streamz.run.
    change (streamz.init (rolling_stream (VInt 3) 2 (streamz.Source src)))
      with (streamz.SFilter (streamz.SAcc None streamz.SSource)).
    rewrite run_rolling_cons.
    cbn [streamz.accumulate_update mbind result_bind fst snd].
    assert (streamz.filter_all
              (fun x => n ← py_len x; Ok (bool_decide (2 <= n)))
              (if seed_tick_emits then [series_chunk nm [r1]] else []) = Ok []) as ->.
    { by destruct seed_tick_emits. }
    cbn [mbind result_bind].
    rewrite run_rolling_cons. cbn [streamz.accumulate_update].
    rewrite (roll_series nm [r1] r2).
    cbn [mbind result_bind unpack2 fst snd].
    rewrite run_rolling_cons. cbn [streamz.accumulate_update].
    rewrite (roll_series nm [r1; r2] r3).
    cbn [mbind result_bind unpack2 fst snd].
    rewrite run_rolling_cons. cbn [streamz.accumulate_update].
    rewrite (roll_series nm [r1; r2; r3] r4).
    reflexivity.
  - intros st x st' outs buf n. apply rolling_suppresses.
Qed.

End rolling.


Section duration.
Context `{Platform}.

(** Claim C7 (duration windows). For a window that is not an integer,
    [rolling] reads it as a duration and builds the scan and the filter
    with 1 as the minimum number of rows, whatever the caller gave; for an
    integer window both use the caller's value. Hence any other value of
    [min_periods] gives the same handle exactly when the window is not an
    integer. *)
Theorem duration_window_forces_min_periods (h : Handle) (window : value)
    (min_periods other : Z) :
  Streaming.rolling h window min_periods
  = (w ← (if is_int window then Ok window else VTimedelta <$> py_Timedelta window);
     Streaming.__init__ (type_of h)
       (Some (rolling_stream w (if is_int window then min_periods else 1) (stream h)))
       (Some (example h)) None 0%nat)
  /\ Streaming.rolling h window (if is_int window then min_periods else other)
     = Streaming.rolling h window min_periods.
Proof.
  unfold Streaming.rolling, rolling_stream.
  destruct window; cbn [is_int]; try done;
    destruct (py_Timedelta _) as [d|]; done.
Qed.

End duration.

(** ** Schema enforcement *)

Lemma emit_schema_violation (w : World) (x : value) (cols xcols : list label) :
  type_of (self w) = TStreamingDataFrame ->
  py_columns (example (self w)) = Ok cols ->
  is_DataFrame x = true ->
  py_columns x = Ok xcols ->
  xcols <> cols ->
  emit x w = (Raise IndexError, w).
Proof.
  intros Ht Hcols Hx Hxcols Hne. unfold emit, verify. rewrite Ht.
  unfold StreamingDataFrame.verify, Streaming.verify. rewrite Ht.
  cbn [_subtype]. rewrite Hx, Hxcols, Hcols. cbn [mbind result_bind].
  by rewrite decide_True.
Qed.

(** Claim C4 (schema enforcement). On a frame handle whose example has the
    columns [a] and [b], emitting a frame chunk whose columns are [a] alone
    raises the schema error ([IndexError]) and leaves the world as it was:
    the same example, and every subscriber in the state it had. *)
Theorem schema_enforcement_atomic (w : World) (x : value) :
  type_of (self w) = TStreamingDataFrame ->
  py_columns (example (self w)) = Ok ["a"; "b"]%string ->
  is_DataFrame x = true ->
  py_columns x = Ok ["a"]%string ->
  emit x w = (Raise IndexError, w) /\
  example (self (snd (emit x w))) = example (self w) /\
  subscribers (snd (emit x w)) = subscribers w.
Proof.
  intros Ht Hcols Hx Hxcols.
  rewrite (emit_schema_violation w x _ _ Ht Hcols Hx Hxcols) by done. done.
Qed.

(** ** First-chunk bootstrap of the grouped accumulators *)

Lemma group_agg_not_int f g : is_int (group_agg f g) = false.
Proof. unfold group_agg. by destruct (pd.squeeze g). Qed.

Lemma group_sum_not_int g : is_int (group_sum g) = false.
Proof. apply group_agg_not_int. Qed.

Lemma py_add_fill_not_int a b r : py_add_fill a b = Ok r -> is_int r = false.
Proof.
  destruct a; cbn; try done; destruct b; cbn; try done;
    try (intros; by simplify_eq);
    try (destruct (series_binop _ _ _); cbn; intros; by simplify_eq);
    try (destruct (frame_binop _ _ _); cbn; intros; by simplify_eq).
Qed.

Section bootstrap.
Context `{Platform}.

Lemma accumulate_groupby_sum_first (z : Z) (new grouper index : value) :
  _accumulate_groupby_sum (VInt z) new grouper index
  = (g ← grouped new grouper index; Ok (group_sum g)).
Proof. reflexivity. Qed.

Lemma accumulate_groupby_mean_first (z : Z) (c new grouper index : value) :
  _accumulate_groupby_mean (VTuple (VInt z) c) new grouper index
  = (g ← grouped new grouper index;
     ratio ← py_binop TrueDiv (group_sum g) (group_count g);
     Ok (VTuple (VTuple (group_sum g) (group_count g)) ratio)).
Proof.
  unfold _accumulate_groupby_mean.
  destruct (grouped new grouper index) as [g|]; [|done].
  cbn [mbind result_bind unpack2 fst snd is_int].
  by destruct (py_binop TrueDiv (group_sum g) (group_count g)).
Qed.

Lemma accumulate_groupby_sum_later (g0 : pd.GroupBy) (new grouper index : value) :
  _accumulate_groupby_sum (group_sum g0) new grouper index
  = (g ← grouped new grouper index; py_add_fill (group_sum g0) (group_sum g)).
Proof. unfold _accumulate_groupby_sum. by rewrite group_sum_not_int. Qed.

Lemma accumulate_groupby_mean_later (g0 : pd.GroupBy) (new grouper index : value) :
  _accumulate_groupby_mean (VTuple (group_sum g0) (group_count g0)) new grouper index
  = (g ← grouped new grouper index;
     sums ← py_add_fill (group_sum g0) (group_sum g);
     counts ← py_add_fill (group_count g0) (group_count g);
     ratio ← py_binop TrueDiv sums counts;
     Ok (VTuple (VTuple sums counts) ratio)).
Proof.
  unfold _accumulate_groupby_mean.
  destruct (grouped new grouper index) as [g|]; [|done].
  cbn [mbind result_bind unpack2 fst snd]. rewrite group_sum_not_int.
  destruct (py_add_fill (group_sum g0) (group_sum g)) as [sums|]; [|done].
  cbn [mbind result_bind].
  destruct (py_add_fill (group_count g0) (group_count g)) as [counts|]; [|done].
  cbn [mbind result_bind fst snd].
  by destruct (py_binop TrueDiv sums counts).
Qed.

Lemma accumulate_groupby_sum_not_int (acc new grouper index : value) :
  is_int <$> _accumulate_groupby_sum acc new grouper index
  = (fun _ => false) <$> _accumulate_groupby_sum acc new grouper index.
Proof.
  unfold _accumulate_groupby_sum.
  destruct (grouped new grouper index) as [g|]; [|done].
  cbn [mbind result_bind]. destruct (is_int acc).
  - cbn [fmap result_fmap]. by rewrite group_sum_not_int.
  - destruct (py_add_fill acc (group_sum g)) as [r|] eqn:Hr; [|done].
    cbn [fmap result_fmap]. by rewrite (py_add_fill_not_int _ _ _ Hr).
Qed.

End bootstrap.


(** ** Derivation of examples *)

Lemma wrap_Ok stream example :
  example <> VNone ->
  exists cls, Streaming.wrap stream example = Ok (mkHandle cls stream example).
Proof.
  intros Hne. unfold Streaming.wrap, Streaming.__init__.
  destruct (is_DataFrame example) eqn:Hdf; cbn [_subtype from_option id].
  - rewrite Hdf. eauto.
  - destruct (is_Series example) eqn:Hs; [eauto|].
    destruct example; try done; cbn [Streaming.given]; eauto.
Qed.

Lemma wrap_None stream : Streaming.wrap stream VNone = Raise AssertionError.
Proof. reflexivity. Qed.

Lemma example_wrap stream ex :
  example <$> Streaming.wrap stream ex
  = match ex with VNone => Raise AssertionError | _ => Ok ex end.
Proof. by destruct ex. Qed.

Lemma example_map_partitions (self : Handle) (func : callable) (args : list value) :
  example <$> Streaming.map_partitions self func args None
  = (e ← func (example self) args;
     match e with VNone => Raise AssertionError | _ => Ok e end).
Proof.
  unfold Streaming.map_partitions. cbn [Streaming.given].
  destruct (func (example self) args) as [e|]; [|done].
  cbn [mbind result_bind]. apply example_wrap.
Qed.

Lemma broadcast_not_None g v r : broadcast g v = Ok r -> r <> VNone.
Proof. destruct v; cbn; intros; by simplify_eq. Qed.

Lemma int_binop_not_None op a b r : int_binop op a b = Ok r -> r <> VNone.
Proof. destruct op; cbn; repeat case_decide; intros; by simplify_eq. Qed.

Lemma py_binop_not_None op a b r : py_binop op a b = Ok r -> r <> VNone.
Proof.
  unfold py_binop. intros Hr.
  assert (forall s : result pd.Series, VSeries <$> s = Ok r -> r <> VNone) as Hs.
  { intros [s|]; cbn; intros; by simplify_eq. }
  assert (forall d : result pd.DataFrame, VFrame <$> d = Ok r -> r <> VNone) as Hd.
  { intros [d|]; cbn; intros; by simplify_eq. }
  destruct a, b; cbn [as_scalar] in Hr;
    first [ exact (int_binop_not_None _ _ _ _ Hr)
          | exact (broadcast_not_None _ _ _ Hr)
          | exact (Hs _ Hr)
          | exact (Hd _ Hr)
          | by simplify_eq ].
Qed.

Lemma example_operator (self : Handle) (op : binop) (other : value) :
  example <$> Streaming.map_partitions self (operator op) [other] None
  = py_binop op (example self) other.
Proof.
  rewrite example_map_partitions. cbn [operator].
  destruct (py_binop op (example self) other) as [r|] eqn:Hr; [|done].
  cbn [mbind result_bind]. apply py_binop_not_None in Hr. by destruct r.
Qed.

Lemma finish_Ok stream example :
  is_DataFrame example = true \/ is_Series example = true ->
  exists cls, StreamingSeriesGroupby.finish stream example
              = Ok (mkHandle cls stream example).
Proof.
  unfold StreamingSeriesGroupby.finish, Streaming.__init__.
  intros [Hdf|Hs].
  - rewrite Hdf. cbn [_subtype from_option id]. rewrite Hdf. eauto.
  - destruct (is_DataFrame example) eqn:Hdf; cbn [_subtype from_option id];
      rewrite ?Hdf, ?Hs; eauto.
Qed.

Lemma group_agg_kind f g :
  is_DataFrame (group_agg f g) = true \/ is_Series (group_agg f g) = true.
Proof. unfold group_agg. destruct (pd.squeeze g); cbn; auto. Qed.

(** ** Column access by attribute *)

Section attribute.
Context `{Platform}.

Lemma py_getattr_not_None (x : value) (key : string) (r : value) :
  py_getattr x key = Ok r -> r <> VNone.
Proof.
  unfold py_getattr. destruct (builtin_attr x key); [intros; by simplify_eq|].
  destruct x; try done; case_decide; intros; by simplify_eq.
Qed.

Lemma getattr_getitem_column (x : value) (cols : list label) (key : string) :
  frame_like cols x ->
  key ∈ cols ->
  builtin_attr x key = false ->
  py_getattr x key = py_getitem x (VStr key).
Proof.
  intros [Hdf Hcols] Hin Hattr. unfold py_getattr. rewrite Hattr.
  destruct x; try discriminate Hdf; cbn in Hcols; injection Hcols as Hcols;
    cbn [py_getitem]; rewrite Hcols.
  - destruct (decide (key ∈ cols)) as [|Hn]; [done|by destruct Hn].
  - destruct (decide (key ∈ cols)) as [|Hn]; [done|by destruct Hn].
Qed.

(** Claim C8, as amended. For a frame handle and a column name that
    ordinary attribute lookup resolves neither on the handle (a method or
    attribute of its class, or of any Python object) nor on a frame chunk,
    [handle.name] and [handle[name]] derive handles of the same class with
    equal examples and with per-chunk functions that agree on every chunk
    the handle accepts. *)
Theorem attribute_access_matches_subscript (self : Handle) (cols : list label)
    (key : string) :
  type_of self = TStreamingDataFrame ->
  py_columns (example self) = Ok cols ->
  key ∈ cols ->
  key ∉ names TStreamingDataFrame ->
  object_attr key = false ->
  (forall x, is_DataFrame x = true -> builtin_attr x key = false) ->
  attr_matches_item self key.
Proof.
  intros Ht Hcols Hin Hnames Hobj Hattr.
  assert (frame_like cols (example self)) as Hex.
  { split; [|done]. destruct (example self); try discriminate Hcols; done. }
  assert (py_getitem (example self) (VStr key) = py_getattr (example self) key) as Hsame.
  { symmetry. apply (getattr_getitem_column _ cols); [done..|]. apply Hattr, Hex. }
  unfold attr_matches_item, getattribute. rewrite Ht.
  rewrite bool_decide_eq_false_2 by done. rewrite Hobj. cbn [orb].
  unfold StreamingDataFrame.__getattr__, StreamingDataFrame.columns,
    StreamingDataFrame.__getitem__, Streaming.map_partitions.
  rewrite Hcols. cbn [mbind result_bind]. rewrite decide_True by done.
  cbn [getattr operator_getitem]. rewrite Hsame.
  cbn [Streaming.given].
  destruct (py_getattr (example self) key) as [e|] eqn:He.
  - cbn [mbind result_bind].
    assert (e <> VNone) as Hne by (by eapply py_getattr_not_None).
    destruct (wrap_Ok (streamz.map (fun x => py_getattr x key) (stream self)) e Hne)
      as [cls Hw].
    destruct (wrap_Ok (streamz.map (fun x => py_getitem x (VStr key)) (stream self)) e Hne)
      as [cls' Hw'].
    assert (cls = cls') as <-.
    { unfold Streaming.wrap, Streaming.__init__ in Hw, Hw'.
      destruct (is_DataFrame e), (is_Series e); cbn in Hw, Hw';
        repeat case_match; congruence. }
    rewrite Hw, Hw'. cbn [fmap result_fmap].
    eexists _, _, _, _. repeat split.
    intros x Hx. destruct (verify_frame_like self x Ht Hx) as (cols' & Hc & Hf).
    assert (cols' = cols) as -> by congruence.
    apply (getattr_getitem_column _ cols); [done..|]. apply Hattr, Hf.
  - exfalso. clear He. destruct Hex as [Hdf Hc].
    destruct (example self); try discriminate Hdf; cbn in Hc; injection Hc as Hc;
      cbn [py_getitem] in Hsame; rewrite Hc in Hsame; revert Hsame;
      (destruct (decide (key ∈ cols)) as [|Hn]; [done|by destruct Hn]).
Qed.

End attribute.

(** Claim C8, as stated, fails: on a frame handle with a column named
    [sum], [handle.sum] is the method of the class and no derived handle. *)
Lemma attribute_access_counterexample :
  let self := mkHandle TStreamingDataFrame (streamz.Source 0)
                (frame_chunk ["sum"; "x"]%string []) in
  py_columns (example self) = Ok ["sum"; "x"]%string /\
  ("sum"%string ∈ ["sum"; "x"]%string) /\
  getattribute (H := sample_platform) self "sum" = Ok (Member "sum") /\
  ~ attr_matches_item (H := sample_platform) self "sum".
Proof.
  cbn zeta. split; [done|]. split; [apply elem_of_cons; by left|].
  assert (getattribute (H := sample_platform)
            (mkHandle TStreamingDataFrame (streamz.Source 0)
               (frame_chunk ["sum"; "x"]%string [])) "sum" = Ok (Member "sum")) as Hm.
  { unfold getattribute. cbn [type_of].
    rewrite bool_decide_eq_true_2; [done|].
    unfold names, StreamingDataFrame_names, StreamingFrame_names.
    rewrite !elem_of_app, !elem_of_cons. auto 20. }
  split; [exact Hm|].
  intros (ha & hi & fa & fi & Hga & _). rewrite Hm in Hga. discriminate.
Qed.


(** ** The mean accumulator leaves its input alone *)

Lemma writes_at_ret {A} l (a : A) : Heap.writes_at l (Heap.ret a).
Proof. intros h0 h Hsub _. exact Hsub. Qed.

Lemma writes_at_lift {A} l (r : result A) : Heap.writes_at l (Heap.lift r).
Proof. intros h0 h Hsub _. exact Hsub. Qed.

Lemma writes_at_read l l' : Heap.writes_at l (Heap.read l').
Proof. intros h0 h Hsub _. unfold Heap.read. by destruct (h !! l'). Qed.

Lemma writes_at_write l v : Heap.writes_at l (Heap.write l v).
Proof.
  intros h0 h Hsub Hl. cbn. by apply insert_subseteq_r.
Qed.

Lemma writes_at_bind {A B} l (m : Heap.ST A) (k : A -> Heap.ST B) :
  Heap.writes_at l m -> (forall a, Heap.writes_at l (k a)) -> Heap.writes_at l (Heap.bind m k).
Proof.
  intros Hm Hk h0 h Hsub Hl. unfold Heap.bind.
  specialize (Hm h0 h Hsub Hl).
  destruct (m h) as [[a|e] h'] eqn:Hmh; cbn [snd] in *.
  - by apply Hk.
  - done.
Qed.

Lemma writes_at_getitem l l' key : Heap.writes_at l (Heap.getitem l' key).
Proof.
  apply writes_at_bind; [apply writes_at_read|]. intros v. apply writes_at_lift.
Qed.

Lemma writes_at_setitem l key v : Heap.writes_at l (Heap.setitem l key v).
Proof.
  apply writes_at_bind; [apply writes_at_read|]. intros x.
  apply writes_at_bind; [apply writes_at_lift|]. intros y. apply writes_at_write.
Qed.

(** After a Heap.copy the computation continues at the new object, which is
    none of the objects that were there before. *)
Lemma copy_then {A} (acc : nat) (k : nat -> Heap.ST A) (h : gmap nat value) :
  (forall l, Heap.writes_at l (k l)) -> h ⊆ snd (Heap.bind (Heap.copy acc) k h).
Proof.
  intros Hk. unfold Heap.bind, Heap.copy, Heap.bind, Heap.read, Heap.lift, Heap.alloc.
  destruct (h !! acc) as [v|]; [|done].
  destruct (py_copy v) as [v'|]; [|done].
  assert (h !! fresh (dom h) = None) as Hfresh.
  { apply not_elem_of_dom, is_fresh. }
  apply (Hk (fresh (dom h))); [|done].
  by apply insert_subseteq.
Qed.

Lemma accumulate_mean_frame_rule (accumulator : nat) (new : value) (h : gmap nat value) :
  h ⊆ snd (Heap._accumulate_mean accumulator new h).
Proof.
  unfold Heap._accumulate_mean. apply copy_then. intros l.
  repeat first
    [ apply writes_at_ret
    | apply writes_at_lift
    | apply writes_at_getitem
    | apply writes_at_setitem
    | apply writes_at_bind; [|intros ?] ].
Qed.

Lemma ticks_frame_rule (chunks : list value) (state : nat) (h : gmap nat value) :
  h ⊆ snd (Heap.ticks state chunks h).
Proof.
  revert state h. induction chunks as [|x chunks IH]; intros state h; [done|].
  cbn [Heap.ticks]. unfold Heap.bind at 1.
  pose proof (accumulate_mean_frame_rule state x h) as Hstep.
  destruct (Heap._accumulate_mean state x h) as [[r|e] h1]; cbn [snd] in Hstep; [|done].
  unfold Heap.bind. specialize (IH (fst r) h1).
  destruct (Heap.ticks (fst r) chunks h1) as [[rest|e] h2]; cbn [snd] in *;
    by etrans.
Qed.

Lemma ticks_prefix (xs ys : list value) (state : nat) (h : gmap nat value) :
  snd (Heap.ticks state xs h) ⊆ snd (Heap.ticks state (xs ++ ys) h).
Proof.
  revert state h. induction xs as [|x xs IH]; intros state h.
  - apply ticks_frame_rule.
  - cbn [Heap.ticks app]. unfold Heap.bind at 1 3.
    destruct (Heap._accumulate_mean state x h) as [[r|e] h1]; [|done].
    unfold Heap.bind. specialize (IH (fst r) h1).
    destruct (Heap.ticks (fst r) xs h1) as [[rest|e] h2],
             (Heap.ticks (fst r) (xs ++ ys) h1) as [[rest'|e'] h2']; done.
Qed.

(** What the call computes is what the value-level [_accumulate_mean] computes:
    the new state is stored in a fresh object. *)
Lemma accumulate_mean_agrees (accumulator : nat) (new v : value) (h : gmap nat value) :
  h !! accumulator = Some v ->
  match _accumulate_mean v new with
  | Ok (VTuple st out) =>
      Heap._accumulate_mean accumulator new h
      = (Ok (fresh (dom h), out), <[fresh (dom h) := st]> h)
  | Ok _ => True
  | Raise e => fst (Heap._accumulate_mean accumulator new h) = Raise e
  end.
Proof.
  intros Hv. unfold Heap._accumulate_mean, _accumulate_mean.
  unfold Heap.bind at 1. unfold Heap.copy, Heap.bind, Heap.read, Heap.lift, Heap.alloc. rewrite Hv.
  destruct (py_copy v) as [v'|] eqn:Hcopy; [|done].
  cbn [mbind result_bind]. set (l := fresh (dom h)).
  unfold Heap.getitem, Heap.setitem, Heap.bind, Heap.read, Heap.lift, Heap.write, Heap.ret.
  rewrite lookup_insert_eq.
  destruct (py_getitem v' (VStr "sums")) as [sums|]; [|done]. cbn [mbind result_bind].
  destruct (py_sum new) as [s|]; [|done]. cbn [mbind result_bind].
  destruct (py_binop Add sums s) as [sums'|]; [|done]. cbn [mbind result_bind].
  rewrite lookup_insert_eq.
  destruct (py_setitem v' "sums" sums') as [v1|]; [|done]. cbn [mbind result_bind].
  rewrite lookup_insert_eq.
  destruct (py_getitem v1 (VStr "counts")) as [counts|]; [|done]. cbn [mbind result_bind].
  destruct (py_count new) as [c|]; [|done]. cbn [mbind result_bind].
  destruct (py_binop Add counts c) as [counts'|]; [|done]. cbn [mbind result_bind].
  rewrite lookup_insert_eq.
  destruct (py_setitem v1 "counts" counts') as [v2|]; [|done]. cbn [mbind result_bind].
  rewrite !lookup_insert_eq.
  destruct (py_getitem v2 (VStr "sums")) as [sums2|]; [|done]. cbn [mbind result_bind].
  destruct (py_getitem v2 (VStr "counts")) as [counts2|]; [|done]. cbn [mbind result_bind].
  destruct (py_binop TrueDiv sums2 counts2) as [out|]; [|done]. cbn [mbind result_bind].
  by rewrite !insert_insert_eq.
Qed.


(** Claim C10 (no mutation of the input state). A call of
    [_accumulate_mean] leaves every object of the heap as it was, the
    accumulator it was given included; so does any number of ticks, and the
    objects that exist after some ticks, the states of those ticks
    included, are unchanged by the ticks that follow. *)
Theorem accumulate_mean_never_mutates_input
    (accumulator : nat) (new : value) (chunks later : list value)
    (h : gmap nat value) :
  h ⊆ snd (Heap._accumulate_mean accumulator new h)
  /\ h ⊆ snd (Heap.ticks accumulator chunks h)
  /\ snd (Heap.ticks accumulator chunks h)
     ⊆ snd (Heap.ticks accumulator (chunks ++ later) h).
Proof.
  split; [apply accumulate_mean_frame_rule|].
  split; [apply ticks_frame_rule | apply ticks_prefix].
Qed.


(** ** Grouped aggregation over concatenated chunks *)

Lemma tabulate_ext {K} `{Countable K} {A} (ks : list K) (f g : K -> A) :
  (forall k, k ∈ ks -> f k = g k) -> tabulate ks f = tabulate ks g.
Proof.
  intros Hfg. apply map_eq. intros k. rewrite !lookup_tabulate.
  destruct (decide (k ∈ ks)); [|done]. by rewrite Hfg.
Qed.

Lemma nansum_app l1 l2 : nansum (l1 ++ l2) = (nansum l1 + nansum l2)%Qc.
Proof.
  induction l1 as [|[|q] l1 IH]; cbn [nansum foldr app].
  - by rewrite Qcplus_0_l.
  - exact IH.
  - fold (nansum (l1 ++ l2)). fold (nansum l1). by rewrite IH, Qcplus_assoc.
Qed.

Lemma nancount_app l1 l2 : nancount (l1 ++ l2) = (nancount l1 + nancount l2)%Qc.
Proof.
  induction l1 as [|[|q] l1 IH]; cbn [nancount foldr app].
  - by rewrite Qcplus_0_l.
  - exact IH.
  - fold (nancount (l1 ++ l2)). fold (nancount l1). by rewrite IH, Qcplus_assoc.
Qed.

Lemma additive_sum : additive (fun l => Fin (nansum l)).
Proof. exists nansum. split; [done|]. split; [done|]. apply nansum_app. Qed.

Lemma additive_count : additive (fun l => Fin (nancount l)).
Proof. exists nancount. split; [done|]. split; [done|]. apply nancount_app. Qed.

Section groups.
Variables (oc sel : list label) (sq : option label).

Local Notation "'G' rows" := (pd.mkGroupBy oc sel sq rows) (at level 10, rows at level 9).

Lemma group_keys_app r1 r2 :
  pd.group_keys (G (r1 ++ r2)) = pd.group_keys (G r1) ++ pd.group_keys (G r2).
Proof. unfold pd.group_keys. cbn [pd.keyed_rows]. apply omap_app. Qed.

Lemma group_column_app r1 r2 k c :
  pd.group_column (G (r1 ++ r2)) k c
  = pd.group_column (G r1) k c ++ pd.group_column (G r2) k c.
Proof.
  unfold pd.group_column. cbn [pd.keyed_rows]. by rewrite filter_app, fmap_app.
Qed.

Lemma group_column_absent r k c :
  k ∉ pd.group_keys (G r) -> pd.group_column (G r) k c = [].
Proof.
  unfold pd.group_keys, pd.group_column. cbn [pd.keyed_rows]. intros Hk.
  induction r as [|kr r IH]; [done|].
  rewrite filter_cons. cbn [omap list_omap] in Hk.
  destruct (decide (kr.1 = Some k)) as [Heq|Hne].
  - exfalso. apply Hk. rewrite Heq. apply elem_of_cons. by left.
  - apply IH. intros Hin. apply Hk.
    destruct (kr.1); [apply elem_of_cons; by right|done].
Qed.

Lemma additive_merge F r1 r2 k c :
  additive F ->
  pd.fill_add
    (if decide (k ∈ pd.group_keys (G r1)) then F (pd.group_column (G r1) k c) else NaN)
    (if decide (k ∈ pd.group_keys (G r2)) then F (pd.group_column (G r2) k c) else NaN)
  = if decide (k ∈ pd.group_keys (G (r1 ++ r2)))
    then F (pd.group_column (G (r1 ++ r2)) k c) else NaN.
Proof.
  intros (phi & HF & Hnil & Happ).
  rewrite group_keys_app, group_column_app, !HF, Happ.
  destruct (decide (k ∈ pd.group_keys (G r1))) as [H1|H1],
           (decide (k ∈ pd.group_keys (G r2))) as [H2|H2]; cbn [pd.fill_add].
  - rewrite decide_True by (apply elem_of_app; by left). done.
  - rewrite decide_True by (apply elem_of_app; by left).
    by rewrite (group_column_absent r2 k c H2), Hnil.
  - rewrite decide_True by (apply elem_of_app; by right).
    by rewrite (group_column_absent r1 k c H1), Hnil.
  - rewrite decide_False; [done|]. by intros [?|?]%elem_of_app.
Qed.

Lemma agg_series_merge F r1 r2 c :
  additive F ->
  pd.align2 pd.fill_add (pd.agg_series F (G r1) c) (pd.agg_series F (G r2) c)
  = pd.agg_series F (G (r1 ++ r2)) c.
Proof.
  intros HF. apply map_eq. intros k. unfold pd.align2, pd.agg_series.
  rewrite lookup_merge, !lookup_tabulate.
  pose proof (additive_merge F r1 r2 k c HF) as Hm. revert Hm.
  destruct (decide (k ∈ pd.group_keys (G r1))) as [H1|H1],
           (decide (k ∈ pd.group_keys (G r2))) as [H2|H2];
    cbn [diag_None from_option id]; rewrite group_keys_app.
  - rewrite !decide_True by (apply elem_of_app; by left). congruence.
  - rewrite !decide_True by (apply elem_of_app; by left). congruence.
  - rewrite !decide_True by (apply elem_of_app; by right). congruence.
  - intros _. rewrite decide_False; [done|]. by intros [?|?]%elem_of_app.
Qed.


Lemma cell_tabulate (cs : list label) (g : label -> num) c :
  pd.cell (tabulate cs g) c = if decide (c ∈ cs) then g c else NaN.
Proof. unfold pd.cell. rewrite lookup_tabulate. by destruct (decide (c ∈ cs)). Qed.

Lemma cell2_agg_frame F r k c :
  c ∈ sel ->
  pd.cell2 (pd.agg_frame F (G r)) k c
  = if decide (k ∈ pd.group_keys (G r)) then F (pd.group_column (G r) k c) else NaN.
Proof.
  intros Hc. unfold pd.cell2, pd.agg_frame. rewrite lookup_tabulate.
  destruct (decide (k ∈ pd.group_keys (G r))); [|done].
  rewrite cell_tabulate. cbn [pd.selection]. by rewrite decide_True.
Qed.

Lemma elem_of_dom_tabulate {A} (ks : list pd.key) (f : pd.key -> A) k :
  k ∈ dom (tabulate ks f) <-> k ∈ ks.
Proof.
  rewrite elem_of_dom, lookup_tabulate.
  destruct (decide (k ∈ ks)); split; intros Hk; try done.
Qed.

Lemma lookup_zip_agg (f : num -> num -> num) F1 F2 r1 r2 k :
  pd.zip_tables f sel (pd.agg_frame F1 (G r1)) (pd.agg_frame F2 (G r2)) !! k
  = if decide (k ∈ pd.group_keys (G r1) ++ pd.group_keys (G r2))
    then Some (tabulate sel
                 (fun c =>
                    f (if decide (k ∈ pd.group_keys (G r1))
                       then F1 (pd.group_column (G r1) k c) else NaN)
                      (if decide (k ∈ pd.group_keys (G r2))
                       then F2 (pd.group_column (G r2) k c) else NaN)))
    else None.
Proof.
  unfold pd.zip_tables. rewrite lookup_tabulate.
  assert (k ∈ elements (dom (pd.agg_frame F1 (G r1)) ∪ dom (pd.agg_frame F2 (G r2)))
          <-> k ∈ pd.group_keys (G r1) ++ pd.group_keys (G r2)) as Hk.
  { rewrite elem_of_elements, elem_of_union, elem_of_app.
    unfold pd.agg_frame. by rewrite !elem_of_dom_tabulate. }
  destruct (decide (k ∈ elements _)) as [Hin|Hin].
  - rewrite decide_True by (by apply Hk). f_equal. apply tabulate_ext.
    intros c Hc. by rewrite !cell2_agg_frame.
  - rewrite decide_False; [done|]. intros Hin'. by apply Hin, Hk.
Qed.

Lemma agg_frame_merge F r1 r2 :
  additive F ->
  pd.zip_tables pd.fill_add sel (pd.agg_frame F (G r1)) (pd.agg_frame F (G r2))
  = pd.agg_frame F (G (r1 ++ r2)).
Proof.
  intros HF. apply map_eq. intros k. rewrite lookup_zip_agg.
  unfold pd.agg_frame at 1. rewrite lookup_tabulate, group_keys_app.
  destruct (decide (k ∈ pd.group_keys (G r1) ++ pd.group_keys (G r2))) as [Hin|Hin];
    [|done].
  f_equal. apply tabulate_ext. intros c _. cbn [pd.selection].
  rewrite (additive_merge F r1 r2 k c HF), group_keys_app.
  by rewrite decide_True.
Qed.

Lemma agg_series_mean r c :
  pd.align2 num_truediv (pd.agg_series (fun l => Fin (nansum l)) (G r) c)
                        (pd.agg_series (fun l => Fin (nancount l)) (G r) c)
  = pd.agg_series pd.nanmean (G r) c.
Proof.
  apply map_eq. intros k. unfold pd.align2, pd.agg_series.
  rewrite lookup_merge, !lookup_tabulate.
  by destruct (decide (k ∈ pd.group_keys (G r))).
Qed.

Lemma agg_frame_mean r :
  pd.zip_tables num_truediv sel (pd.agg_frame (fun l => Fin (nansum l)) (G r))
                                (pd.agg_frame (fun l => Fin (nancount l)) (G r))
  = pd.agg_frame pd.nanmean (G r).
Proof.
  apply map_eq. intros k. rewrite lookup_zip_agg.
  unfold pd.agg_frame at 1. rewrite lookup_tabulate.
  destruct (decide (k ∈ pd.group_keys (G r))) as [Hin|Hin].
  - rewrite decide_True by (apply elem_of_app; by left). done.
  - rewrite decide_False; [done|]. by intros [?|?]%elem_of_app.
Qed.

End groups.

(** The value-level statements: keyed addition of two grouped aggregates
    is the aggregate of the rows put together, and sums over counts are
    the grouped mean. *)
Lemma group_agg_merge oc sel sq F r1 r2 :
  additive F ->
  py_add_fill (group_agg F (pd.mkGroupBy oc sel sq r1))
              (group_agg F (pd.mkGroupBy oc sel sq r2))
  = Ok (group_agg F (pd.mkGroupBy oc sel sq (r1 ++ r2))).
Proof.
  intros HF. unfold group_agg. cbn [pd.squeeze pd.selection].
  destruct sq as [c|]; cbn [py_add_fill].
  - by rewrite agg_series_merge.
  - unfold pd.align_labels. rewrite decide_True by done.
    by rewrite agg_frame_merge.
Qed.

Lemma group_mean_ratio oc sel sq r :
  py_binop TrueDiv (group_sum (pd.mkGroupBy oc sel sq r))
                   (group_count (pd.mkGroupBy oc sel sq r))
  = Ok (group_mean (pd.mkGroupBy oc sel sq r)).
Proof.
  unfold group_sum, group_count, group_mean, group_agg. cbn [pd.squeeze pd.selection].
  destruct sq as [c|]; cbn [py_binop as_scalar num_binop].
  - by rewrite agg_series_mean.
  - unfold pd.align_labels. rewrite decide_True by done.
    by rewrite agg_frame_mean.
Qed.

Lemma concat_frames_same (a b : pd.DataFrame) :
  pd.columns b = pd.columns a ->
  pd.concat_frames a b = pd.mkFrame (pd.columns a) (pd.rows a ++ pd.rows b).
Proof. intros Hb. unfold pd.concat_frames. by rewrite decide_True. Qed.

Lemma keyed_rows_concat (a b : pd.DataFrame) cs :
  pd.columns b = pd.columns a ->
  pd.keyed_rows (pd.groupby_columns (pd.concat_frames a b) cs)
  = pd.keyed_rows (pd.groupby_columns a cs) ++ pd.keyed_rows (pd.groupby_columns b cs).
Proof.
  intros Hb. rewrite concat_frames_same by done.
  unfold pd.groupby_columns. cbn [pd.keyed_rows pd.rows]. apply fmap_app.
Qed.

Lemma labels_of_nil l cs : labels_of l = Some cs -> cs = [] -> l = [].
Proof.
  unfold labels_of. intros Hl ->. apply length_mapM in Hl. by destruct l.
Qed.

Lemma columns_concat_all (first : pd.DataFrame) (rest : list pd.DataFrame) :
  Forall (fun df => pd.columns df = pd.columns first) rest ->
  pd.columns (concat_all first rest) = pd.columns first.
Proof.
  unfold concat_all. revert first.
  induction rest as [|d rest IH]; intros first Hall; [done|].
  inversion Hall as [|? ? Hd Hrest]; subst. cbn [foldl].
  rewrite IH.
  - by rewrite concat_frames_same.
  - rewrite concat_frames_same by done. exact Hrest.
Qed.

Section grouping.
Context `{Platform}.

(** Grouping by columns that the key names. *)
Lemma py_groupby_key_columns (df : pd.DataFrame) (key : value) (cs : list label) :
  key_columns key = Some cs ->
  Forall (fun c => c ∈ pd.columns df) cs ->
  py_groupby (VFrame df) key
  = if decide (cs = []) then Raise ValueError else Ok (pd.groupby_columns df cs).
Proof.
  intros Hk Hin. destruct key; try discriminate Hk; cbn [key_columns] in Hk.
  - injection Hk as <-. cbn [py_groupby].
    rewrite (decide_False (P := [s] = [])) by done.
    inversion Hin; subst. by rewrite decide_True.
  - destruct l as [|v l].
    + cbn in Hk. injection Hk as <-. by rewrite (decide_True (P := [] = [])).
    + cbn [py_groupby]. rewrite Hk.
      rewrite (decide_True (P := Forall _ cs)) by done.
      destruct (decide (cs = [])) as [->|]; [|done].
      by apply labels_of_nil in Hk.
Qed.

Lemma py_groupby_key_columns_inv (df : pd.DataFrame) (key : value) (cs : list label)
    (g : pd.GroupBy) :
  key_columns key = Some cs ->
  Forall (fun c => c ∈ pd.columns df) cs ->
  py_groupby (VFrame df) key = Ok g ->
  cs <> [] /\ g = pd.groupby_columns df cs.
Proof.
  intros Hk Hin. rewrite (py_groupby_key_columns df key cs Hk Hin).
  destruct (decide (cs = [])); [done|]. intros [= <-]. done.
Qed.

(** Grouping a frame depends on its columns for everything but the rows. *)
Lemma grouped_frame (df : pd.DataFrame) (key : value) (cs : list label)
    (index : value) (g : pd.GroupBy) :
  key_columns key = Some cs ->
  Forall (fun c => c ∈ pd.columns df) cs ->
  grouped (VFrame df) key index = Ok g ->
  forall df', pd.columns df' = pd.columns df ->
    grouped (VFrame df') key index
    = Ok (pd.mkGroupBy (pd.obj_columns g) (pd.selection g) (pd.squeeze g)
            (pd.keyed_rows (pd.groupby_columns df' cs))).
Proof.
  unfold grouped. cbn [mbind result_bind fst snd].
  intros Hk Hin Hg df' Hcols.
  rewrite (py_groupby_key_columns df key cs Hk Hin) in Hg.
  rewrite (py_groupby_key_columns df' key cs Hk) by (by rewrite Hcols).
  destruct (decide (cs = [])); [done|]. cbn [mbind result_bind] in Hg |- *.
  revert Hg.
  destruct index; cbn [group_getitem]; try done.
  - intros [= <-]. unfold pd.groupby_columns. cbn. by rewrite Hcols.
  - cbn [pd.groupby_columns pd.obj_columns]. rewrite Hcols.
    destruct (decide _); [|done]. intros [= <-].
    unfold pd.select_column. cbn. by rewrite Hcols.
  - destruct (labels_of l) as [cs'|]; [|done].
    cbn [pd.groupby_columns pd.obj_columns]. rewrite Hcols.
    destruct (decide _); [|done]. intros [= <-].
    unfold pd.select_columns. cbn. by rewrite Hcols.
Qed.

Lemma grouped_frame_self (df : pd.DataFrame) (key : value) (cs : list label)
    (index : value) (g : pd.GroupBy) :
  key_columns key = Some cs ->
  Forall (fun c => c ∈ pd.columns df) cs ->
  grouped (VFrame df) key index = Ok g ->
  g = pd.mkGroupBy (pd.obj_columns g) (pd.selection g) (pd.squeeze g)
        (pd.keyed_rows (pd.groupby_columns df cs)).
Proof.
  intros Hk Hin Hg. pose proof (grouped_frame df key cs index g Hk Hin Hg df eq_refl) as Hg'.
  congruence.
Qed.

Lemma accumulate_groupby_sum_next oc sel sq r1 r2 new key index :
  grouped new key index = Ok (pd.mkGroupBy oc sel sq r2) ->
  _accumulate_groupby_sum (group_sum (pd.mkGroupBy oc sel sq r1)) new key index
  = Ok (group_sum (pd.mkGroupBy oc sel sq (r1 ++ r2))).
Proof.
  intros Hg. unfold _accumulate_groupby_sum. rewrite Hg. cbn [mbind result_bind].
  rewrite group_sum_not_int. apply group_agg_merge, additive_sum.
Qed.

Lemma accumulate_groupby_mean_next oc sel sq r1 r2 new key index :
  grouped new key index = Ok (pd.mkGroupBy oc sel sq r2) ->
  _accumulate_groupby_mean
    (VTuple (group_sum (pd.mkGroupBy oc sel sq r1))
            (group_count (pd.mkGroupBy oc sel sq r1))) new key index
  = Ok (VTuple
          (VTuple (group_sum (pd.mkGroupBy oc sel sq (r1 ++ r2)))
                  (group_count (pd.mkGroupBy oc sel sq (r1 ++ r2))))
          (group_mean (pd.mkGroupBy oc sel sq (r1 ++ r2)))).
Proof.
  intros Hg. unfold _accumulate_groupby_mean. rewrite Hg.
  cbn [mbind result_bind unpack2 fst snd]. rewrite group_sum_not_int.
  unfold group_sum at 1 2, group_count at 1 2.
  rewrite (group_agg_merge _ _ _ _ _ _ additive_sum).
  rewrite (group_agg_merge _ _ _ _ _ _ additive_count).
  cbn [mbind result_bind fst snd].
  fold (group_sum (pd.mkGroupBy oc sel sq (r1 ++ r2))).
  fold (group_count (pd.mkGroupBy oc sel sq (r1 ++ r2))).
  by rewrite group_mean_ratio.
Qed.

End grouping.

Section grouped_run.
Context `{Platform}.
Variables (src : nat) (key : value) (cs : list label) (index : value).
Variables (oc sel : list label) (sq : option label).

Local Notation "'G' df" :=
  (pd.mkGroupBy oc sel sq (pd.keyed_rows (pd.groupby_columns df cs)))
  (at level 10, df at level 9).

Lemma run_grouped_sum start (acc : pd.DataFrame) (rest : list pd.DataFrame) :
  (forall df, pd.columns df = pd.columns acc ->
     grouped (VFrame df) key index = Ok (G df)) ->
  Forall (fun df => pd.columns df = pd.columns acc) rest ->
  exists outs,
    streamz.run_from src
      (streamz.accumulate
         (fun a new => _accumulate_groupby_sum a new key index)
         start false (streamz.Source src))
      (streamz.SAcc (Some (group_sum (G acc))) streamz.SSource)
      (VFrame <$> rest)
    = Ok outs /\
    last ([group_sum (G acc)] :: outs) = Some [group_sum (G (concat_all acc rest))].
Proof.
  revert acc. induction rest as [|d rest IH]; intros acc Hg Hall.
  - exists []. done.
  - inversion Hall as [|? ? Hd Hrest]; subst.
    rewrite fmap_cons. cbn [streamz.run_from]. rewrite feed_accumulate_source.
    cbn [streamz.accumulate_update].
    rewrite (accumulate_groupby_sum_next _ _ _ _ _ _ _ _ (Hg d Hd)).
    rewrite <- keyed_rows_concat by done.
    cbn [mbind result_bind fst snd].
    destruct (IH (pd.concat_frames acc d)) as (outs & Hrun & Hlast).
    + intros df Hdf. apply Hg. rewrite Hdf. by rewrite concat_frames_same.
    + rewrite concat_frames_same by done. exact Hrest.
    + rewrite Hrun. cbn [mbind result_bind]. eexists. split; [done|].
      exact Hlast.
Qed.

Lemma run_grouped_mean start (acc : pd.DataFrame) (rest : list pd.DataFrame) :
  (forall df, pd.columns df = pd.columns acc ->
     grouped (VFrame df) key index = Ok (G df)) ->
  Forall (fun df => pd.columns df = pd.columns acc) rest ->
  exists outs,
    streamz.run_from src
      (streamz.accumulate
         (fun a new => _accumulate_groupby_mean a new key index)
         start true (streamz.Source src))
      (streamz.SAcc (Some (VTuple (group_sum (G acc)) (group_count (G acc))))
                    streamz.SSource)
      (VFrame <$> rest)
    = Ok outs /\
    last ([group_mean (G acc)] :: outs) = Some [group_mean (G (concat_all acc rest))].
Proof.
  revert acc. induction rest as [|d rest IH]; intros acc Hg Hall.
  - exists []. done.
  - inversion Hall as [|? ? Hd Hrest]; subst.
    rewrite fmap_cons. cbn [streamz.run_from]. rewrite feed_accumulate_source.
    cbn [streamz.accumulate_update].
    rewrite (accumulate_groupby_mean_next _ _ _ _ _ _ _ _ (Hg d Hd)).
    rewrite <- keyed_rows_concat by done.
    cbn [mbind result_bind unpack2 fst snd].
    destruct (IH (pd.concat_frames acc d)) as (outs & Hrun & Hlast).
    + intros df Hdf. apply Hg. rewrite Hdf. by rewrite concat_frames_same.
    + rewrite concat_frames_same by done. exact Hrest.
    + rewrite Hrun. cbn [mbind result_bind]. eexists. split; [done|].
      exact Hlast.
Qed.

End grouped_run.

Section static_key.
Context `{Platform}.

Lemma example_of_grouped agg (e : pd.DataFrame) key index :
  StreamingSeriesGroupby.example_of agg (VFrame e) key index
  = (g ← grouped (VFrame e) key index; Ok (agg g)).
Proof.
  unfold StreamingSeriesGroupby.example_of, grouped.
  cbn [mbind result_bind fst snd].
  by destruct (py_groupby (VFrame e) key).
Qed.

Lemma batch_grouped_grouped agg first rest key index :
  batch_grouped agg first rest key index
  = (g ← grouped (VFrame (concat_all first rest)) key index; Ok (agg g)).
Proof.
  unfold batch_grouped, py_grouped, grouped. cbn [mbind result_bind fst snd].
  by destruct (py_groupby (VFrame (concat_all first rest)) key).
Qed.

(** What [groupby(key).sum()] and [groupby(key).mean()] end on, for a key
    that names columns. *)
Lemma static_key_last (h : Handle) (src : nat) (key idx : value) (cs : list label)
    (e first : pd.DataFrame) (rest : list pd.DataFrame) (g : pd.GroupBy) :
  stream h = streamz.Source src ->
  example h = VFrame e ->
  key_columns key = Some cs ->
  Forall (fun c => c ∈ pd.columns e) cs ->
  Forall (fun df => pd.columns df = pd.columns e) (first :: rest) ->
  grouped (VFrame (concat_all first rest)) key idx = Ok g ->
  exists hs hm outs_sum outs_mean,
    StreamingSeriesGroupby.sum (mkGroupby h (Static key) idx) = Ok hs /\
    StreamingSeriesGroupby.mean (mkGroupby h (Static key) idx) = Ok hm /\
    streamz.run src (stream hs) (VFrame <$> first :: rest) = Ok outs_sum /\
    last outs_sum = Some [group_sum g] /\
    streamz.run src (stream hm) (VFrame <$> first :: rest) = Ok outs_mean /\
    last outs_mean = Some [group_mean g].
Proof.
  intros Hsrc Hex Hk Hin Hall Hg.
  inversion Hall as [|? ? Hfirst Hrest]; subst.
  assert (Forall (fun df => pd.columns df = pd.columns first) rest) as Hrest'.
  { eapply Forall_impl; [exact Hrest|]. intros df Hdf. cbn in Hdf. congruence. }
  assert (pd.columns (concat_all first rest) = pd.columns first) as Hcat
    by (by apply columns_concat_all).
  assert (Forall (fun c => c ∈ pd.columns (concat_all first rest)) cs) as Hin'.
  { rewrite Hcat, Hfirst. exact Hin. }
  pose proof (grouped_frame _ _ _ _ _ Hk Hin' Hg) as Hdf.
  pose proof (grouped_frame_self _ _ _ _ _ Hk Hin' Hg) as Hself.
  set (oc := pd.obj_columns g) in *. set (sel := pd.selection g) in *.
  set (sq := pd.squeeze g) in *.
  assert (forall df, pd.columns df = pd.columns first ->
            grouped (VFrame df) key idx
            = Ok (pd.mkGroupBy oc sel sq (pd.keyed_rows (pd.groupby_columns df cs))))
    as Hchunk.
  { intros df Hc. apply Hdf. congruence. }
  (* the handles *)
  unfold StreamingSeriesGroupby.sum, StreamingSeriesGroupby.mean.
  cbn [grouper root index]. rewrite Hex, !example_of_grouped.
  rewrite (Hchunk e) by done. cbn [mbind result_bind].
  destruct (finish_Ok
              (streamz.accumulate
                 (fun acc new => _accumulate_groupby_sum acc new key idx)
                 (Some (VInt 0)) false (stream h))
              (group_sum (pd.mkGroupBy oc sel sq
                            (pd.keyed_rows (pd.groupby_columns e cs))))
              (group_agg_kind _ _)) as [cls_s ->].
  destruct (finish_Ok
              (streamz.accumulate
                 (fun acc new => _accumulate_groupby_mean acc new key idx)
                 (Some (VTuple (VInt 0) (VInt 0))) true (stream h))
              (group_mean (pd.mkGroupBy oc sel sq
                             (pd.keyed_rows (pd.groupby_columns e cs))))
              (group_agg_kind _ _)) as [cls_m ->].
  (* the first chunk seeds the state, the others are merged into it *)
  destruct (run_grouped_sum src key cs idx oc sel sq (Some (VInt 0)) first rest
              Hchunk Hrest')
    as (outs_s & Hrun_s & Hlast_s).
  destruct (run_grouped_mean src key cs idx oc sel sq (Some (VTuple (VInt 0) (VInt 0)))
              first rest Hchunk Hrest')
    as (outs_m & Hrun_m & Hlast_m).
  eexists _, _, _, _. split; [reflexivity|]. split; [reflexivity|].
  cbn [stream]. rewrite Hsrc.
  unfold streamz.run. cbn [streamz.init]. rewrite fmap_cons.
  cbn [streamz.run_from]. rewrite !feed_accumulate_source.
  cbn [streamz.accumulate_update].
  rewrite accumulate_groupby_sum_first, accumulate_groupby_mean_first.
  rewrite (Hchunk first) by done.
  cbn [mbind result_bind]. rewrite group_mean_ratio.
  cbn [mbind result_bind unpack2 fst snd]. rewrite Hrun_s, Hrun_m.
  cbn [mbind result_bind]. rewrite Hself.
  repeat split; assumption.
Qed.

(** Claim C2, as amended (grouped sum and mean, constant key). The key
    names columns of the chunks: it is a column label or a list of column
    labels. The chunks all have the columns of the example, and their
    cells are integers small enough for every sum to be exact. Then the
    last value that [groupby(key).sum()] emits is the grouped sum of the
    concatenation of all chunks, and the last value that
    [groupby(key).mean()] emits is its grouped mean; groups that occur in
    some chunks only are included. *)
Theorem grouped_static_key_homomorphism (h : Handle) (src : nat) (key idx : value)
    (cs : list label) (e first : pd.DataFrame) (rest : list pd.DataFrame)
    (vs vm : value) :
  stream h = streamz.Source src ->
  example h = VFrame e ->
  key_columns key = Some cs ->
  Forall (fun c => c ∈ pd.columns e) cs ->
  Forall (fun df => pd.columns df = pd.columns e) (first :: rest) ->
  exact_frames (pd.columns e) (first :: rest) = true ->
  batch_grouped group_sum first rest key idx = Ok vs ->
  batch_grouped group_mean first rest key idx = Ok vm ->
  exists hs hm outs_sum outs_mean,
    StreamingSeriesGroupby.sum (mkGroupby h (Static key) idx) = Ok hs /\
    StreamingSeriesGroupby.mean (mkGroupby h (Static key) idx) = Ok hm /\
    streamz.run src (stream hs) (VFrame <$> first :: rest) = Ok outs_sum /\
    last outs_sum = Some [vs] /\
    streamz.run src (stream hm) (VFrame <$> first :: rest) = Ok outs_mean /\
    last outs_mean = Some [vm].
Proof.
  intros Hsrc Hex Hk Hin Hall _ Hvs Hvm.
  rewrite batch_grouped_grouped in Hvs, Hvm.
  destruct (grouped (VFrame (concat_all first rest)) key idx) as [g|] eqn:Hg;
    [|done].
  cbn [mbind result_bind] in Hvs, Hvm. injection Hvs as <-. injection Hvm as <-.
  by apply (static_key_last h src key idx cs e first rest g).
Qed.

End static_key.


(** * The statements at sample inputs *)

Lemma sample_chunks_verified :
  Forall (fun x => verify sample_frame_handle x = Ok tt) sample_chunks.
Proof. repeat constructor. Defined.

Lemma running_sum_correct_witness :
  (stream sample_frame_handle = streamz.Source 0 /\
   (type_of sample_frame_handle = TStreamingDataFrame \/
    type_of sample_frame_handle = TStreamingSeries) /\
   _subtype (type_of sample_frame_handle) (example sample_frame_handle) = true /\
   Forall (fun x => verify sample_frame_handle x = Ok tt) sample_chunks) /\
  exists h',
    StreamingFrame.sum sample_frame_handle = Ok h' /\
    streamz.run (H := sample_platform) 0 (stream h') sample_chunks
    = Ok ((fun p => [running_sum (example sample_frame_handle) p])
            <$> prefixes sample_chunks).
Proof.
  assert (type_of sample_frame_handle = TStreamingDataFrame \/
          type_of sample_frame_handle = TStreamingSeries) as Ht by (left; reflexivity).
  split.
  - split; [reflexivity|]. split; [exact Ht|]. split; [reflexivity|].
    exact sample_chunks_verified.
  - apply (running_sum_correct (H := sample_platform) sample_frame_handle 0%nat
             sample_chunks eq_refl Ht eq_refl sample_chunks_verified).
Defined.

Lemma running_mean_correct_witness :
  (stream sample_frame_handle = streamz.Source 0 /\
   (type_of sample_frame_handle = TStreamingDataFrame \/
    type_of sample_frame_handle = TStreamingSeries) /\
   _subtype (type_of sample_frame_handle) (example sample_frame_handle) = true /\
   Forall (fun x => verify sample_frame_handle x = Ok tt) sample_chunks) /\
  exists h',
    mean sample_frame_handle = Ok h' /\
    streamz.run (H := sample_platform) 0 (stream h') sample_chunks
    = Ok ((fun p => [running_mean (example sample_frame_handle) p])
            <$> prefixes sample_chunks) /\
    streamz.state_after (H := sample_platform) 0 (stream h') sample_chunks
    = Ok (streamz.SAcc
            (Some (mean_state (example sample_frame_handle) sample_chunks))
            streamz.SSource).
Proof.
  assert (type_of sample_frame_handle = TStreamingDataFrame \/
          type_of sample_frame_handle = TStreamingSeries) as Ht by (left; reflexivity).
  split.
  - split; [reflexivity|]. split; [exact Ht|]. split; [reflexivity|].
    exact sample_chunks_verified.
  - apply (running_mean_correct (H := sample_platform) sample_frame_handle 0%nat
             sample_chunks eq_refl Ht eq_refl sample_chunks_verified).
Defined.

Lemma rolling_row_count_trace_witness :
  (stream sample_series_handle = streamz.Source 0 /\
   _subtype (type_of sample_series_handle) (example sample_series_handle) = true) /\
  exists h',
    Streaming.rolling (H := sample_platform) sample_series_handle (VInt 3) 2 = Ok h' /\
    streamz.run (H := sample_platform) 0 (stream h')
      [series_chunk None [(0, num_of_Z 1)]; series_chunk None [(1, num_of_Z 2)];
       series_chunk None [(2, num_of_Z 3)]; series_chunk None [(3, num_of_Z 4)]]
    = Ok [[];
          [series_chunk None [(0, num_of_Z 1); (1, num_of_Z 2)]];
          [series_chunk None [(0, num_of_Z 1); (1, num_of_Z 2); (2, num_of_Z 3)]];
          [series_chunk None [(1, num_of_Z 2); (2, num_of_Z 3); (3, num_of_Z 4)]]] /\
    (forall st x st' outs buf n,
        streamz.feed (H := sample_platform) 0 x (stream h') st = Ok (st', outs) ->
        st' = streamz.SFilter (streamz.SAcc (Some buf) streamz.SSource) ->
        py_len buf = Ok n -> n < 2 -> outs = []).
Proof.
  split.
  - split; reflexivity.
  - apply (rolling_row_count_trace (H := sample_platform) sample_series_handle 0%nat
             None (0, num_of_Z 1) (1, num_of_Z 2) (2, num_of_Z 3) (3, num_of_Z 4)
             eq_refl eq_refl).
Defined.

Lemma schema_enforcement_atomic_witness :
  let x := frame_chunk ["a"]%string [(0, [num_of_Z 1])] in
  (type_of (self sample_world) = TStreamingDataFrame /\
   py_columns (example (self sample_world)) = Ok ["a"; "b"]%string /\
   is_DataFrame x = true /\
   py_columns x = Ok ["a"]%string) /\
  (emit x sample_world = (Raise IndexError, sample_world) /\
   example (self (snd (emit x sample_world))) = example (self sample_world) /\
   subscribers (snd (emit x sample_world)) = subscribers sample_world).
Proof.
  cbn zeta. split.
  - repeat split; reflexivity.
  - apply (schema_enforcement_atomic sample_world
             (frame_chunk ["a"]%string [(0, [num_of_Z 1])])
             eq_refl eq_refl eq_refl eq_refl).
Defined.

Lemma sample_plain_column : "a"%string ∉ names TStreamingDataFrame.
Proof.
  apply (bool_decide_unpack _). vm_compute. exact I.
Defined.

Lemma attribute_access_matches_subscript_witness :
  (type_of sample_frame_handle = TStreamingDataFrame /\
   py_columns (example sample_frame_handle) = Ok ["a"; "b"]%string /\
   ("a"%string ∈ ["a"; "b"]%string) /\
   ("a"%string ∉ names TStreamingDataFrame) /\
   object_attr (Platform := sample_platform) "a" = false /\
   (forall x, is_DataFrame x = true ->
              builtin_attr (Platform := sample_platform) x "a" = false)) /\
  attr_matches_item (H := sample_platform) sample_frame_handle "a".
Proof.
  assert ("a"%string ∈ ["a"; "b"]%string) as Hin.
  { apply (bool_decide_unpack _). vm_compute. exact I. }
  assert (forall x, is_DataFrame x = true ->
                    builtin_attr (Platform := sample_platform) x "a" = false) as Hattr.
  { intros x Hx. cbn. rewrite Hx. reflexivity. }
  split.
  - split; [reflexivity|]. split; [reflexivity|]. split; [exact Hin|].
    split; [exact sample_plain_column|]. split; [reflexivity|exact Hattr].
  - apply (attribute_access_matches_subscript (H := sample_platform)
             sample_frame_handle ["a"; "b"]%string "a"
             eq_refl eq_refl Hin sample_plain_column eq_refl Hattr).
Defined.

Lemma grouped_static_key_homomorphism_witness :
  let e := pd.empty_frame ["a"; "b"]%string in
  let first := pd.mkFrame ["a"; "b"]%string
                 [(0, {[ "a"%string := num_of_Z 1; "b"%string := num_of_Z 2 ]});
                  (1, {[ "a"%string := num_of_Z 3; "b"%string := NaN ]})] in
  let rest := [pd.mkFrame ["a"; "b"]%string
                 [(0, {[ "a"%string := num_of_Z 1; "b"%string := num_of_Z 20 ]});
                  (1, {[ "a"%string := num_of_Z 5; "b"%string := num_of_Z 40 ]})]] in
  let g := pd.groupby_columns (concat_all first rest) ["a"%string] in
  (stream sample_frame_handle = streamz.Source 0 /\
   example sample_frame_handle = VFrame e /\
   key_columns (VStr "a") = Some ["a"%string] /\
   Forall (fun c => c ∈ pd.columns e) ["a"%string] /\
   Forall (fun df => pd.columns df = pd.columns e) (first :: rest) /\
   exact_frames (pd.columns e) (first :: rest) = true /\
   batch_grouped (H := sample_platform) group_sum first rest (VStr "a") VNone
   = Ok (group_sum g) /\
   batch_grouped (H := sample_platform) group_mean first rest (VStr "a") VNone
   = Ok (group_mean g)) /\
  exists hs hm outs_sum outs_mean,
    StreamingSeriesGroupby.sum (H := sample_platform)
      (mkGroupby sample_frame_handle (Static (VStr "a")) VNone) = Ok hs /\
    StreamingSeriesGroupby.mean (H := sample_platform)
      (mkGroupby sample_frame_handle (Static (VStr "a")) VNone) = Ok hm /\
    streamz.run (H := sample_platform) 0 (stream hs) (VFrame <$> first :: rest)
    = Ok outs_sum /\
    last outs_sum = Some [group_sum g] /\
    streamz.run (H := sample_platform) 0 (stream hm) (VFrame <$> first :: rest)
    = Ok outs_mean /\
    last outs_mean = Some [group_mean g].
Proof.
  cbn zeta.
  assert (Forall (fun df => pd.columns df = pd.columns (pd.empty_frame ["a"; "b"]%string))
            sample_frames) as Hall by (repeat constructor).
  assert (Forall (fun c => c ∈ pd.columns (pd.empty_frame ["a"; "b"]%string))
            ["a"%string]) as Hin.
  { repeat constructor. }
  split.
  - split; [reflexivity|]. split; [reflexivity|]. split; [reflexivity|].
    split; [exact Hin|]. split; [exact Hall|]. split; [reflexivity|].
    split; reflexivity.
  - apply (grouped_static_key_homomorphism (H := sample_platform)
             sample_frame_handle 0%nat (VStr "a") VNone ["a"%string]
             (pd.empty_frame ["a"; "b"]%string)
             _ _ _ _ eq_refl eq_refl eq_refl Hin Hall eq_refl eq_refl eq_refl).
Defined.


(** ** The first chunk of a grouped aggregate *)

Section first_chunk.
Context `{Platform}.

Lemma example_of_py_grouped agg x key index :
  StreamingSeriesGroupby.example_of agg x key index = py_grouped agg x key index.
Proof. reflexivity. Qed.

Lemma grouped_py_grouped agg (df : pd.DataFrame) key index :
  (g ← grouped (VFrame df) key index; Ok (agg g))
  = py_grouped agg (VFrame df) key index.
Proof.
  unfold grouped, py_grouped. cbn [mbind result_bind fst snd].
  by destruct (py_groupby (VFrame df) key).
Qed.

Lemma grouped_zipped_py_grouped agg (x key index : value) :
  (g ← grouped (VTuple x key) VNone index; Ok (agg g))
  = py_grouped agg x key index.
Proof.
  unfold grouped, py_grouped. cbn [mbind result_bind fst snd].
  by destruct (py_groupby x key).
Qed.

Lemma py_grouped_inv agg x key index r :
  py_grouped agg x key index = Ok r -> exists g, r = agg g.
Proof.
  unfold py_grouped. destruct (py_groupby x key) as [g|]; [|done].
  cbn [mbind result_bind].
  destruct (match index with VNone => Ok g | _ => group_getitem g index end)
    as [g'|]; [|done].
  cbn [mbind result_bind]. intros [= <-]. by exists g'.
Qed.

Lemma py_grouped_not_int f x key index r :
  py_grouped (group_agg f) x key index = Ok r -> is_int r = false.
Proof. intros [g ->]%py_grouped_inv. apply group_agg_not_int. Qed.

Lemma py_grouped_kind f x key index r :
  py_grouped (group_agg f) x key index = Ok r ->
  is_DataFrame r = true \/ is_Series r = true.
Proof. intros [g ->]%py_grouped_inv. apply group_agg_kind. Qed.

Lemma py_grouped_both (x key index : value) :
  (g ← (g ← py_groupby x key;
        match index with VNone => Ok g | _ => group_getitem g index end);
   Ok (group_sum g, group_count g))
  = (s ← py_grouped group_sum x key index;
     c ← py_grouped group_count x key index;
     Ok (s, c)).
Proof.
  unfold py_grouped. destruct (py_groupby x key) as [g|]; [|done].
  cbn [mbind result_bind].
  by destruct (match index with VNone => Ok g | _ => group_getitem g index end).
Qed.

Lemma groupby_sum_seed (z : Z) (df : pd.DataFrame) (key index : value) :
  _accumulate_groupby_sum (VInt z) (VFrame df) key index
  = py_grouped group_sum (VFrame df) key index.
Proof. rewrite accumulate_groupby_sum_first. apply grouped_py_grouped. Qed.

Lemma groupby_sum_seed_zipped (z : Z) (x key index : value) :
  _accumulate_groupby_sum (VInt z) (VTuple x key) VNone index
  = py_grouped group_sum x key index.
Proof. rewrite accumulate_groupby_sum_first. apply grouped_zipped_py_grouped. Qed.

Lemma groupby_mean_seed (z : Z) (c : value) (df : pd.DataFrame) (key index : value) :
  _accumulate_groupby_mean (VTuple (VInt z) c) (VFrame df) key index
  = (sums ← py_grouped group_sum (VFrame df) key index;
     counts ← py_grouped group_count (VFrame df) key index;
     ratio ← py_binop TrueDiv sums counts;
     Ok (VTuple (VTuple sums counts) ratio)).
Proof.
  rewrite accumulate_groupby_mean_first.
  unfold grouped, py_grouped. cbn [mbind result_bind fst snd].
  destruct (py_groupby (VFrame df) key) as [g|]; [|done].
  cbn [mbind result_bind].
  by destruct (match index with VNone => Ok g | _ => group_getitem g index end).
Qed.

Lemma groupby_sum_later (acc : value) (df : pd.DataFrame) (key index : value) :
  is_int acc = false ->
  _accumulate_groupby_sum acc (VFrame df) key index
  = (s ← py_grouped group_sum (VFrame df) key index; py_add_fill acc s).
Proof.
  intros Hacc. unfold _accumulate_groupby_sum, grouped, py_grouped.
  cbn [mbind result_bind fst snd]. rewrite Hacc.
  destruct (py_groupby (VFrame df) key) as [g|]; [|done].
  cbn [mbind result_bind].
  by destruct (match index with VNone => Ok g | _ => group_getitem g index end).
Qed.

Lemma groupby_mean_later (sums counts : value) (df : pd.DataFrame) (key index : value) :
  is_int sums = false ->
  _accumulate_groupby_mean (VTuple sums counts) (VFrame df) key index
  = (s ← py_grouped group_sum (VFrame df) key index;
     c ← py_grouped group_count (VFrame df) key index;
     sums' ← py_add_fill sums s;
     counts' ← py_add_fill counts c;
     ratio ← py_binop TrueDiv sums' counts';
     Ok (VTuple (VTuple sums' counts') ratio)).
Proof.
  intros Hs. unfold _accumulate_groupby_mean, grouped, py_grouped.
  cbn [mbind result_bind fst snd].
  destruct (py_groupby (VFrame df) key) as [g|]; [|done].
  cbn [mbind result_bind].
  destruct (match index with VNone => Ok g | _ => group_getitem g index end)
    as [g'|]; [|done].
  cbn [mbind result_bind unpack2 fst snd]. rewrite Hs.
  destruct (py_add_fill sums (group_sum g')) as [sums'|]; [|done].
  cbn [mbind result_bind].
  destruct (py_add_fill counts (group_count g')) as [counts'|]; [|done].
  cbn [mbind result_bind fst snd].
  by destruct (py_binop TrueDiv sums' counts').
Qed.

Lemma add_fill_seed (z : Z) (v : value) : py_add_fill (VInt z) v = Raise AttributeError.
Proof. by destruct v. Qed.

(** The run of a grouped [sum()] once its state is a table. *)
Lemma run_keyed_totals (src : nat) (key idx : value) start (total : value)
    (rest : list pd.DataFrame) (parts : list value) :
  is_int total = false ->
  Forall2 (fun df p => py_grouped group_sum (VFrame df) key idx = Ok p) rest parts ->
  streamz.run_from src
    (streamz.accumulate (fun a new => _accumulate_groupby_sum a new key idx)
       start false (streamz.Source src))
    (streamz.SAcc (Some total) streamz.SSource) (VFrame <$> rest)
  = (outs ← keyed_totals total parts; Ok (one_per_tick outs)).
Proof.
  intros Hint Hparts. revert total Hint.
  induction Hparts as [|df p rest parts Hp Hparts IH]; intros total Hint; [done|].
  rewrite fmap_cons. cbn [streamz.run_from keyed_totals].
  rewrite feed_accumulate_source. cbn [streamz.accumulate_update].
  rewrite groupby_sum_later by done. rewrite Hp. cbn [mbind result_bind].
  destruct (py_add_fill total p) as [total'|] eqn:Hadd; [|done].
  cbn [mbind result_bind fst snd].
  rewrite IH by (by eapply py_add_fill_not_int).
  by destruct (keyed_totals total' parts).
Qed.

(** The run of a grouped [mean()] once its state holds tables. *)
Lemma run_keyed_means (src : nat) (key idx : value) start (sums counts : value)
    (rest : list pd.DataFrame) (parts : list (value * value)) :
  is_int sums = false ->
  Forall2 (fun df p =>
             py_grouped group_sum (VFrame df) key idx = Ok (fst p) /\
             py_grouped group_count (VFrame df) key idx = Ok (snd p)) rest parts ->
  streamz.run_from src
    (streamz.accumulate (fun a new => _accumulate_groupby_mean a new key idx)
       start true (streamz.Source src))
    (streamz.SAcc (Some (VTuple sums counts)) streamz.SSource) (VFrame <$> rest)
  = (outs ← keyed_means sums counts parts; Ok (one_per_tick outs)).
Proof.
  intros Hint Hparts. revert sums counts Hint.
  induction Hparts as [|df p rest parts [Hs Hc] Hparts IH]; intros sums counts Hint;
    [done|].
  rewrite fmap_cons. cbn [streamz.run_from keyed_means].
  rewrite feed_accumulate_source. cbn [streamz.accumulate_update].
  rewrite groupby_mean_later by done. rewrite Hs, Hc. cbn [mbind result_bind].
  destruct (py_add_fill sums p.1) as [sums'|] eqn:Hadd; [|done].
  cbn [mbind result_bind].
  destruct (py_add_fill counts p.2) as [counts'|]; [|done].
  cbn [mbind result_bind].
  destruct (py_binop TrueDiv sums' counts') as [ratio|]; [|done].
  cbn [mbind result_bind unpack2 fst snd].
  rewrite IH by (by eapply py_add_fill_not_int).
  by destruct (keyed_means sums' counts' parts).
Qed.

(** The run of a grouped [sum()] with a constant key from the start. *)
Lemma static_sum_run (h : Handle) (src : nat) (key idx : value)
    (e first : pd.DataFrame) (rest : list pd.DataFrame)
    (ex_s s1 : value) (parts : list value) :
  stream h = streamz.Source src ->
  example h = VFrame e ->
  py_grouped group_sum (VFrame e) key idx = Ok ex_s ->
  py_grouped group_sum (VFrame first) key idx = Ok s1 ->
  Forall2 (fun df p => py_grouped group_sum (VFrame df) key idx = Ok p) rest parts ->
  exists hs,
    StreamingSeriesGroupby.sum (mkGroupby h (Static key) idx) = Ok hs /\
    streamz.run src (stream hs) (VFrame <$> first :: rest)
    = (outs ← keyed_totals s1 parts; Ok ([s1] :: one_per_tick outs)).
Proof.
  intros Hsrc Hex Hexs Hs1 Hparts.
  unfold StreamingSeriesGroupby.sum. cbn [grouper root index]. rewrite Hex.
  rewrite (example_of_py_grouped group_sum), Hexs. cbn [mbind result_bind].
  destruct (finish_Ok
              (streamz.accumulate
                 (fun acc new => _accumulate_groupby_sum acc new key idx)
                 (Some (VInt 0)) false (stream h))
              ex_s (py_grouped_kind _ _ _ _ _ Hexs)) as [cls_s ->].
  eexists. split; [reflexivity|].
  cbn [stream]. rewrite Hsrc. unfold streamz.run. cbn [streamz.init].
  rewrite fmap_cons. cbn [streamz.run_from]. rewrite feed_accumulate_source.
  cbn [streamz.accumulate_update]. rewrite groupby_sum_seed, Hs1.
  cbn [mbind result_bind fst snd].
  rewrite (run_keyed_totals src key idx _ s1 rest parts);
    [|by eapply py_grouped_not_int|done].
  by destruct (keyed_totals s1 parts).
Qed.

(** The run of a grouped [mean()] with a constant key from the start. *)
Lemma static_mean_run (h : Handle) (src : nat) (key idx : value)
    (e first : pd.DataFrame) (rest : list pd.DataFrame)
    (ex_m s1 c1 : value) (parts : list (value * value)) :
  stream h = streamz.Source src ->
  example h = VFrame e ->
  py_grouped group_mean (VFrame e) key idx = Ok ex_m ->
  py_grouped group_sum (VFrame first) key idx = Ok s1 ->
  py_grouped group_count (VFrame first) key idx = Ok c1 ->
  Forall2 (fun df p =>
             py_grouped group_sum (VFrame df) key idx = Ok (fst p) /\
             py_grouped group_count (VFrame df) key idx = Ok (snd p)) rest parts ->
  exists hm,
    StreamingSeriesGroupby.mean (mkGroupby h (Static key) idx) = Ok hm /\
    streamz.run src (stream hm) (VFrame <$> first :: rest)
    = (ratio1 ← py_binop TrueDiv s1 c1;
       outs ← keyed_means s1 c1 parts;
       Ok ([ratio1] :: one_per_tick outs)).
Proof.
  intros Hsrc Hex Hexm Hs1 Hc1 Hparts.
  unfold StreamingSeriesGroupby.mean. cbn [grouper root index]. rewrite Hex.
  rewrite (example_of_py_grouped group_mean), Hexm. cbn [mbind result_bind].
  destruct (finish_Ok
              (streamz.accumulate
                 (fun acc new => _accumulate_groupby_mean acc new key idx)
                 (Some (VTuple (VInt 0) (VInt 0))) true (stream h))
              ex_m (py_grouped_kind _ _ _ _ _ Hexm)) as [cls_m ->].
  eexists. split; [reflexivity|].
  cbn [stream]. rewrite Hsrc. unfold streamz.run. cbn [streamz.init].
  rewrite fmap_cons. cbn [streamz.run_from]. rewrite feed_accumulate_source.
  cbn [streamz.accumulate_update]. rewrite groupby_mean_seed, Hs1, Hc1.
  cbn [mbind result_bind fst snd].
  destruct (py_binop TrueDiv s1 c1) as [ratio1|]; [|done].
  cbn [mbind result_bind unpack2 fst snd].
  rewrite (run_keyed_means src key idx _ s1 c1 rest parts);
    [|by eapply py_grouped_not_int|done].
  by destruct (keyed_means s1 c1 parts).
Qed.

(** The grouped sum of a frame by a column label, cell by cell. *)
Lemma filter_keyed_rows (df : pd.DataFrame) (k : label) (q : Qc) :
  snd <$> filter (fun kr : option pd.key * gmap label num => kr.1 = Some (pd.KNum q))
            (pd.keyed_rows (pd.groupby_columns df [k]))
  = rows_with df k q.
Proof.
  unfold rows_with, pd.groupby_columns. cbn [pd.keyed_rows pd.row_key].
  induction (pd.rows df) as [|ir rows IH]; [done|].
  rewrite !fmap_cons, !filter_cons. cbn [fst snd].
  destruct (pd.cell ir.2 k) as [|q'] eqn:Hcell; cbn [pd.key_of_num].
  - rewrite decide_False by done. rewrite decide_False by done. exact IH.
  - destruct (decide (q' = q)) as [->|Hne].
    + rewrite !decide_True by done. rewrite fmap_cons. cbn [snd]. by rewrite IH.
    + rewrite !decide_False by congruence. exact IH.
Qed.

Lemma group_column_rows_with (df : pd.DataFrame) (k c : label) (q : Qc) :
  pd.group_column (pd.groupby_columns df [k]) (pd.KNum q) c
  = (fun r => pd.cell r c) <$> rows_with df k q.
Proof.
  unfold pd.group_column. rewrite <- filter_keyed_rows, <- list_fmap_compose.
  by apply list_fmap_ext.
Qed.

Lemma group_keys_rows_with (df : pd.DataFrame) (k : label) (key : pd.key) :
  key ∈ pd.group_keys (pd.groupby_columns df [k])
  <-> exists q, key = pd.KNum q /\ rows_with df k q <> [].
Proof.
  unfold pd.group_keys, rows_with, pd.groupby_columns. cbn [pd.keyed_rows pd.row_key].
  induction (pd.rows df) as [|ir rows IH].
  - cbn. rewrite elem_of_nil. split; [done|]. by intros (q & _ & ?).
  - rewrite !fmap_cons. cbn [omap list_omap fst snd].
    destruct (pd.cell ir.2 k) as [|q'] eqn:Hcell; cbn [pd.key_of_num].
    + rewrite IH. split; intros (q & -> & Hq); exists q; (split; [done|]);
        rewrite filter_cons in *; by rewrite decide_False in * by congruence.
    + rewrite elem_of_cons, IH. split.
      * intros [->|(q & -> & Hq)].
        -- exists q'. split; [done|]. rewrite filter_cons. by rewrite decide_True.
        -- exists q. split; [done|]. rewrite filter_cons.
           destruct (decide _); [done|exact Hq].
      * intros (q & -> & Hq). rewrite filter_cons in Hq.
        destruct (decide (q' = q)) as [->|Hne]; [by left|].
        right. exists q. split; [done|]. by rewrite decide_False in Hq by congruence.
Qed.

Lemma grouped_sum_cells (f : list num -> num) (df : pd.DataFrame) (k : label) :
  k ∈ pd.columns df ->
  exists t,
    py_grouped (group_agg f) (VFrame df) (VStr k) VNone
    = Ok (VTable2 (filter (fun c => c ∉ [k]) (pd.columns df)) t) /\
    (forall key, is_Some (t !! key)
                 <-> exists q, key = pd.KNum q /\ rows_with df k q <> []) /\
    (forall q c,
        rows_with df k q <> [] -> c ∈ pd.columns df -> c <> k ->
        pd.cell2 t (pd.KNum q) c = f ((fun r => pd.cell r c) <$> rows_with df k q)).
Proof.
  intros Hk. eexists. split.
  { unfold py_grouped. cbn [py_groupby]. rewrite decide_True by done.
    cbn [mbind result_bind]. unfold group_agg. cbn [pd.groupby_columns pd.squeeze].
    reflexivity. }
  split.
  - intros key. unfold pd.agg_frame. rewrite lookup_tabulate.
    rewrite <- group_keys_rows_with.
    destruct (decide (key ∈ _)) as [Hin|Hin].
    + split; [done|]. intros _. by eexists.
    + split; [|done]. by intros [? ?].
  - intros q c Hq Hc Hck. unfold pd.cell2, pd.agg_frame. rewrite lookup_tabulate.
    rewrite decide_True.
    + rewrite cell_tabulate. cbn [pd.selection pd.groupby_columns].
      rewrite decide_True.
      * by rewrite <- group_column_rows_with.
      * apply list_elem_of_filter. split; [|done].
        by intros ->%list_elem_of_singleton.
    + apply group_keys_rows_with. by exists q.
Qed.

(** Claim C9 (first-chunk bootstrap). While the accumulator is the integer
    seed, [_accumulate_groupby_sum] returns pandas' grouped sum of the
    chunk alone, whatever the seed, and [_accumulate_groupby_mean] starts
    the sums and counts from the chunk's grouped sum and count; the seed
    could not be added, an integer having no [add]. With any other
    accumulator the grouped sum (and count) of the chunk is added to it by
    [add(fill_value=0)]. Hence, in a run of [groupby(key).sum()] or
    [.mean()] on a frame handle, the first value is the grouped aggregate
    of the first chunk alone, and each later one comes from the state
    before by the keyed addition of the chunk's grouped aggregate. For a
    key that is a column label the grouped sum of a chunk has one row for
    each number in the key column and holds, for every other column, the
    sum of the cells of the rows with that number. *)
Theorem grouped_first_chunk_bootstrap (h : Handle) (src : nat) (key idx : value)
    (e first : pd.DataFrame) (rest : list pd.DataFrame)
    (ex_s ex_m s1 c1 : value) (parts : list (value * value)) :
  stream h = streamz.Source src ->
  example h = VFrame e ->
  py_grouped group_sum (VFrame e) key idx = Ok ex_s ->
  py_grouped group_mean (VFrame e) key idx = Ok ex_m ->
  py_grouped group_sum (VFrame first) key idx = Ok s1 ->
  py_grouped group_count (VFrame first) key idx = Ok c1 ->
  Forall2 (fun df p =>
             py_grouped group_sum (VFrame df) key idx = Ok (fst p) /\
             py_grouped group_count (VFrame df) key idx = Ok (snd p)) rest parts ->
  (forall z x k i,
      _accumulate_groupby_sum (VInt z) (VFrame x) k i
      = py_grouped group_sum (VFrame x) k i /\
      _accumulate_groupby_sum (VInt z) (VTuple (VFrame x) k) VNone i
      = py_grouped group_sum (VFrame x) k i) /\
  (forall z c x k i,
      _accumulate_groupby_mean (VTuple (VInt z) c) (VFrame x) k i
      = (sums ← py_grouped group_sum (VFrame x) k i;
         counts ← py_grouped group_count (VFrame x) k i;
         ratio ← py_binop TrueDiv sums counts;
         Ok (VTuple (VTuple sums counts) ratio))) /\
  (forall z v, py_add_fill (VInt z) v = Raise AttributeError) /\
  (forall acc x k i,
      is_int acc = false ->
      _accumulate_groupby_sum acc (VFrame x) k i
      = (s ← py_grouped group_sum (VFrame x) k i; py_add_fill acc s)) /\
  (forall sums counts x k i,
      is_int sums = false ->
      _accumulate_groupby_mean (VTuple sums counts) (VFrame x) k i
      = (s ← py_grouped group_sum (VFrame x) k i;
         c ← py_grouped group_count (VFrame x) k i;
         sums' ← py_add_fill sums s;
         counts' ← py_add_fill counts c;
         ratio ← py_binop TrueDiv sums' counts';
         Ok (VTuple (VTuple sums' counts') ratio))) /\
  (exists hs hm,
      StreamingSeriesGroupby.sum (mkGroupby h (Static key) idx) = Ok hs /\
      StreamingSeriesGroupby.mean (mkGroupby h (Static key) idx) = Ok hm /\
      streamz.run src (stream hs) (VFrame <$> first :: rest)
      = (outs ← keyed_totals s1 (fst <$> parts);
         Ok ([s1] :: one_per_tick outs)) /\
      streamz.run src (stream hm) (VFrame <$> first :: rest)
      = (ratio1 ← py_binop TrueDiv s1 c1;
         outs ← keyed_means s1 c1 parts;
         Ok ([ratio1] :: one_per_tick outs))) /\
  (forall (df : pd.DataFrame) (k : label),
      k ∈ pd.columns df ->
      exists t,
        _accumulate_groupby_sum (VInt 0) (VFrame df) (VStr k) VNone
        = Ok (VTable2 (filter (fun c => c ∉ [k]) (pd.columns df)) t) /\
        (forall key, is_Some (t !! key)
                     <-> exists q, key = pd.KNum q /\ rows_with df k q <> []) /\
        (forall q c,
            rows_with df k q <> [] -> c ∈ pd.columns df -> c <> k ->
            pd.cell2 t (pd.KNum q) c
            = Fin (nansum ((fun r => pd.cell r c) <$> rows_with df k q)))).
Proof.
  intros Hsrc Hex Hexs Hexm Hs1 Hc1 Hparts.
  split. { intros z x k i. split; [apply groupby_sum_seed|apply groupby_sum_seed_zipped]. }
  split. { intros z c x k i. apply groupby_mean_seed. }
  split. { apply add_fill_seed. }
  split. { intros acc x k i. apply groupby_sum_later. }
  split. { intros sums counts x k i. apply groupby_mean_later. }
  split.
  - destruct (static_sum_run h src key idx e first rest ex_s s1 (fst <$> parts)
                Hsrc Hex Hexs Hs1) as (hs & Hs & Hrs).
    { apply Forall2_fmap_r. eapply Forall2_impl; [exact Hparts|].
      by intros df p [? _]. }
    destruct (static_mean_run h src key idx e first rest ex_m s1 c1 parts
                Hsrc Hex Hexm Hs1 Hc1 Hparts) as (hm & Hm & Hrm).
    by exists hs, hm.
  - intros df k Hk. rewrite groupby_sum_seed. by apply grouped_sum_cells.
Qed.

End first_chunk.

Lemma grouped_first_chunk_bootstrap_witness :
  let e := pd.empty_frame ["a"; "b"]%string in
  let key := VStr "a" in
  let parts :=
    (fun df => (group_sum (pd.groupby_columns df ["a"%string]),
                group_count (pd.groupby_columns df ["a"%string]))) <$> sample_rest in
  let s1 := group_sum (pd.groupby_columns sample_first ["a"%string]) in
  let c1 := group_count (pd.groupby_columns sample_first ["a"%string]) in
  (stream sample_frame_handle = streamz.Source 0 /\
   example sample_frame_handle = VFrame e /\
   py_grouped (H := sample_platform) group_sum (VFrame e) key VNone
   = Ok (group_sum (pd.groupby_columns e ["a"%string])) /\
   py_grouped (H := sample_platform) group_mean (VFrame e) key VNone
   = Ok (group_mean (pd.groupby_columns e ["a"%string])) /\
   py_grouped (H := sample_platform) group_sum (VFrame sample_first) key VNone = Ok s1 /\
   py_grouped (H := sample_platform) group_count (VFrame sample_first) key VNone = Ok c1 /\
   Forall2 (fun df p =>
              py_grouped (H := sample_platform) group_sum (VFrame df) key VNone
              = Ok (fst p) /\
              py_grouped (H := sample_platform) group_count (VFrame df) key VNone
              = Ok (snd p)) sample_rest parts) /\
  exists hs hm,
    StreamingSeriesGroupby.sum (H := sample_platform)
      (mkGroupby sample_frame_handle (Static key) VNone) = Ok hs /\
    StreamingSeriesGroupby.mean (H := sample_platform)
      (mkGroupby sample_frame_handle (Static key) VNone) = Ok hm /\
    streamz.run (H := sample_platform) 0 (stream hs) (VFrame <$> sample_first :: sample_rest)
    = (outs ← keyed_totals s1 (fst <$> parts); Ok ([s1] :: one_per_tick outs)) /\
    streamz.run (H := sample_platform) 0 (stream hm) (VFrame <$> sample_first :: sample_rest)
    = (ratio1 ← py_binop TrueDiv s1 c1;
       outs ← keyed_means s1 c1 parts;
       Ok ([ratio1] :: one_per_tick outs)).
Proof.
  cbn zeta.
  assert (Forall2 (fun df p =>
              py_grouped (H := sample_platform) group_sum (VFrame df) (VStr "a") VNone
              = Ok (fst p) /\
              py_grouped (H := sample_platform) group_count (VFrame df) (VStr "a") VNone
              = Ok (snd p)) sample_rest
            ((fun df => (group_sum (pd.groupby_columns df ["a"%string]),
                         group_count (pd.groupby_columns df ["a"%string])))
               <$> sample_rest)) as Hparts.
  { repeat constructor. }
  split.
  - split; [reflexivity|]. split; [reflexivity|]. split; [reflexivity|].
    split; [reflexivity|]. split; [reflexivity|]. split; [reflexivity|].
    exact Hparts.
  - destruct (grouped_first_chunk_bootstrap (H := sample_platform)
                sample_frame_handle 0%nat (VStr "a") VNone
                (pd.empty_frame ["a"; "b"]%string) sample_first sample_rest
                _ _ _ _ _ eq_refl eq_refl eq_refl eq_refl eq_refl eq_refl Hparts)
      as (_ & _ & _ & _ & _ & Hrun & _).
    exact Hrun.
Defined.


(** ** The order of additions in binary64 *)

(** Adding 0.1 to the sum of 0.2 and 0.3, as a running total does with the
    sums of the chunks [0.1] and [0.2, 0.3], gives 0.6; adding 0.1, 0.2 and
    0.3 in a row, as the sum of their concatenation does, gives
    0.6000000000000001. The literals are the binary64 numbers nearest to
    0.1, 0.2 and 0.3. *)
Remark binary64_sums_depend_on_order :
  let x := 0x1.999999999999ap-4%float in
  let y := 0x1.999999999999ap-3%float in
  let z := 0x1.3333333333333p-2%float in
  PrimFloat.eqb (x + (y + z)) ((x + y) + z) = false /\
  PrimFloat.eqb (x + (y + z)) 0x1.3333333333333p-1 = true /\
  PrimFloat.eqb ((x + y) + z) 0x1.3333333333334p-1 = true.
Proof. cbn zeta. repeat split; vm_compute; reflexivity. Qed.

(** ** A constant key that is an array of group labels *)

(** Claim C2, as stated, fails for a constant key that is an array of group
    labels, one per row. Every chunk with as many rows as the array is
    grouped by position, and so is the running total that [sum()] emits;
    the concatenation of two such chunks has twice as many rows and pandas
    refuses to group it by the array. Here the handle and the chunks have
    two rows and the columns [a] and [b], the key is [[1, 2]], and the
    cells are small integers: the run ends on the table with the rows 1
    and 2 while the grouped sum of the concatenation raises [KeyError]. *)
Lemma grouped_static_key_counterexample :
  let h := mkHandle TStreamingDataFrame (streamz.Source 0) (VFrame sample_first) in
  let key := VList [VInt 1; VInt 2] in
  let chunks := sample_first :: sample_rest in
  Forall (fun df => pd.columns df = pd.columns sample_first) chunks /\
  exact_frames (pd.columns sample_first) chunks = true /\
  key_columns key = None /\
  exists hs outs t,
    StreamingSeriesGroupby.sum (H := sample_platform) (mkGroupby h (Static key) VNone)
    = Ok hs /\
    streamz.run (H := sample_platform) 0 (stream hs) (VFrame <$> chunks) = Ok outs /\
    last outs = Some [VTable2 ["a"; "b"]%string t] /\
    pd.cell2 t (pd.KNum 1) "b" = num_of_Z 22 /\
    pd.cell2 t (pd.KNum 2) "b" = num_of_Z 40 /\
    batch_grouped (H := sample_platform) group_sum sample_first sample_rest key VNone
    = Raise KeyError /\
    batch_grouped (H := sample_platform) group_mean sample_first sample_rest key VNone
    = Raise KeyError.
Proof.
  cbn zeta. split; [repeat constructor|]. split; [reflexivity|]. split; [reflexivity|].
  assert (Forall2 (fun df p =>
                     py_grouped (H := sample_platform) group_sum (VFrame df)
                       (VList [VInt 1; VInt 2]) VNone = Ok p)
            sample_rest
            ((fun df => group_sum
                          (pd.groupby_keys df
                             [Some (pd.KNum 1); Some (pd.KNum 2)] []))
               <$> sample_rest)) as Hparts.
  { repeat constructor. }
  destruct (static_sum_run (H := sample_platform)
              (mkHandle TStreamingDataFrame (streamz.Source 0) (VFrame sample_first))
              0%nat (VList [VInt 1; VInt 2]) VNone sample_first sample_first sample_rest
              _ _ _ eq_refl eq_refl eq_refl eq_refl Hparts)
    as (hs & Hs & Hrun).
  exists hs. eexists _, _. split; [exact Hs|]. split; [exact Hrun|].
  split; [reflexivity|]. split; [vm_compute; reflexivity|].
  split; [vm_compute; reflexivity|]. split; reflexivity.
Qed.


(** ** Incremental aggregates against the aggregate of the concatenation *)

Lemma rows_concat_all (first : pd.DataFrame) (rest : list pd.DataFrame) :
  pd.rows (concat_all first rest) = pd.rows first ++ concat (pd.rows <$> rest).
Proof.
  unfold concat_all. revert first.
  induction rest as [|d rest IH]; intros first.
  - cbn. by rewrite app_nil_r.
  - cbn [foldl]. rewrite IH. unfold pd.concat_frames. cbn [pd.rows].
    rewrite fmap_cons. cbn [concat]. by rewrite app_assoc.
Qed.

Lemma column_concat_all (first : pd.DataFrame) (rest : list pd.DataFrame) c :
  pd.column (concat_all first rest) c
  = pd.column first c ++ concat ((fun d => pd.column d c) <$> rest).
Proof.
  unfold pd.column. rewrite rows_concat_all, fmap_app. f_equal.
  induction rest as [|d rest IH]; [done|].
  rewrite !fmap_cons. cbn [concat]. by rewrite fmap_app, IH.
Qed.

Lemma total_sum_frames c (p : list pd.DataFrame) :
  total_sum (pd.KStr c) (VFrame <$> p)
  = nansum (concat ((fun d => pd.column d c) <$> p)).
Proof.
  induction p as [|d p IH]; [done|].
  rewrite !fmap_cons, total_sum_cons, IH. cbn [concat cells].
  by rewrite nansum_app.
Qed.

Lemma total_count_frames c (p : list pd.DataFrame) :
  total_count (pd.KStr c) (VFrame <$> p)
  = nancount (concat ((fun d => pd.column d c) <$> p)).
Proof.
  induction p as [|d p IH]; [done|].
  rewrite !fmap_cons, total_count_cons, IH. cbn [concat cells].
  by rewrite nancount_app.
Qed.

Lemma prefixes_fmap {A B : Type} (f : A -> B) (l : list A) :
  prefixes (f <$> l) = (fun p : list A => f <$> p) <$> prefixes l.
Proof.
  induction l as [|x l IH]; [done|].
  rewrite fmap_cons, !prefixes_cons, IH, fmap_cons.
  f_equal. rewrite <- !list_fmap_compose. by apply list_fmap_ext.
Qed.

Lemma Forall_prefixes {A} (P : A -> Prop) (l : list A) :
  Forall P l -> Forall (fun p => p <> [] /\ Forall P p) (prefixes l).
Proof.
  induction 1 as [|x l Hx Hl IH]; [constructor|].
  rewrite prefixes_cons. constructor.
  - split; [done|]. by constructor.
  - apply Forall_fmap. eapply Forall_impl; [exact IH|].
    intros p [_ Hp]. split; [done|]. by constructor.
Qed.

Lemma frame_like_VFrame cols (df : pd.DataFrame) :
  pd.columns df = cols -> frame_like cols (VFrame df).
Proof. intros <-. by split. Qed.

(** The aggregate of every column of the concatenation, from the totals
    over the chunks. *)
Lemma batch_tick_agg (F : list num -> num) (T : pd.key -> list value -> num)
    cols (p : list pd.DataFrame) :
  (forall c, T (pd.KStr c) (VFrame <$> p)
             = F (concat ((fun d => pd.column d c) <$> p))) ->
  p <> [] ->
  Forall (fun df => pd.columns df = cols) p ->
  batch_tick (py_agg F) p
  = Ok [VTable1 (pd.by_label cols (fun c => T (pd.KStr c) (VFrame <$> p)))].
Proof.
  intros HT Hne Hall. destruct p as [|d r]; [done|].
  inversion Hall as [|? ? Hd Hr]; subst.
  unfold batch_tick. cbn [py_concat_list mbind result_bind py_agg].
  unfold pd.frame_agg. rewrite columns_concat_all by done.
  do 3 f_equal. apply by_label_ext. intros c _.
  rewrite HT, column_concat_all. by rewrite fmap_cons.
Qed.

Lemma nanmean_ratio (l : list num) :
  num_truediv (Fin (nansum l)) (Fin (nancount l)) = pd.nanmean l.
Proof. reflexivity. Qed.

Section batch.
Context `{Platform}.

(** What [sum()] and [mean()] emit on frames, in terms of the totals. *)
Lemma sum_frames_run (h : Handle) (src : nat) cols (chunks : list value) :
  stream h = streamz.Source src ->
  frame_like cols (example h) ->
  Forall (frame_like cols) chunks ->
  exists h',
    StreamingFrame.sum h = Ok h' /\
    type_of h' = TStreamingSeries /\
    streamz.run src (stream h') chunks
    = Ok ((fun p => [VTable1 (pd.by_label cols
                                (fun c => Fin (total_sum (pd.KStr c) p)))])
            <$> prefixes chunks).
Proof.
  intros Hsrc Hex Hfl.
  unfold StreamingFrame.sum, Streaming.accumulate_partitions.
  cbn [from_option id]. rewrite (accumulate_sum_first_frame cols (example h)) by done.
  cbn [mbind result_bind]. unfold Streaming.wrap. cbn [is_DataFrame is_Series].
  unfold Streaming.__init__. cbn [_subtype is_Series from_option id].
  eexists. split; [reflexivity|]. split; [reflexivity|]. cbn [stream]. rewrite Hsrc.
  unfold streamz.run. cbn [streamz.init].
  destruct Hfl as [|x rest Hx Hrest]; [done|].
  cbn [streamz.run_from]. rewrite feed_accumulate_source.
  cbn [streamz.accumulate_update].
  rewrite (accumulate_sum_first_frame cols x Hx).
  cbn [mbind result_bind fst snd]. erewrite run_sum_frames by done.
  cbn [mbind result_bind].
  rewrite prefixes_cons, fmap_cons, <- list_fmap_compose. f_equal. f_equal.
  - f_equal. f_equal. apply by_label_ext. intros c _.
    rewrite total_sum_cons. cbn [total_sum foldr].
    by rewrite Qcplus_0_l, Qcplus_0_r.
  - apply list_fmap_ext. intros _ p _. unfold compose. f_equal. f_equal.
    apply by_label_ext. intros c _. by rewrite total_sum_cons, Qcplus_0_l.
Qed.

Lemma mean_frames_run (h : Handle) (src : nat) cols (chunks : list value) :
  stream h = streamz.Source src ->
  frame_like cols (example h) ->
  Forall (frame_like cols) chunks ->
  exists h',
    StreamingDataFrame.mean h = Ok h' /\
    type_of h' = TStreamingSeries /\
    streamz.run src (stream h') chunks
    = Ok ((fun p =>
             [VTable1 (pd.by_label cols
                         (fun c => num_truediv (Fin (total_sum (pd.KStr c) p))
                                               (Fin (total_count (pd.KStr c) p))))])
            <$> prefixes chunks).
Proof.
  intros Hsrc Hex Hfl. pose proof Hex as [_ Hcols].
  unfold StreamingDataFrame.mean, Streaming.accumulate_partitions.
  rewrite Hcols. cbn [mbind result_bind from_option id]. unfold num_of_Z.
  change (Q2Qc (inject_Z 0)) with 0%Qc.
  rewrite (accumulate_mean_frame cols (fun _ => 0%Qc) (fun _ => 0%Qc) (example h))
    by done.
  cbn [mbind result_bind fmap result_fmap unpack2 snd]. unfold Streaming.wrap.
  cbn [is_DataFrame is_Series]. unfold Streaming.__init__.
  cbn [_subtype is_Series from_option id].
  eexists. split; [reflexivity|]. split; [reflexivity|]. cbn [stream]. rewrite Hsrc.
  unfold streamz.run. cbn [streamz.init].
  rewrite (run_mean_frames src cols _ (fun _ => 0%Qc) (fun _ => 0%Qc)) by done.
  f_equal. apply list_fmap_ext. intros _ p _. do 2 f_equal.
  apply by_label_ext. intros c _. by rewrite !Qcplus_0_l.
Qed.

Lemma Forall2_prefixes_frames (out : list value -> list value)
    (F : value -> result value) cols (dfs : list pd.DataFrame) :
  (forall p, p <> [] -> Forall (fun df => pd.columns df = cols) p ->
             batch_tick F p = Ok (out (VFrame <$> p))) ->
  Forall (fun df => pd.columns df = cols) dfs ->
  Forall2 (fun o p => batch_tick F p = Ok o)
          (out <$> prefixes (VFrame <$> dfs)) (prefixes dfs).
Proof.
  intros Hout Hall. rewrite prefixes_fmap, <- list_fmap_compose.
  apply Forall2_fmap_l.
  pose proof (Forall_prefixes _ _ Hall) as Hp.
  induction Hp as [|p ps [Hne Hpc] Hps IH]; constructor; [|done].
  cbn. by apply Hout.
Qed.

(** Property X1. [sum()] against the sum of the concatenation. On chunks
    whose cells are integers small enough for every sum to be exact, a
    frame handle's [sum()] emits, at the tick of every chunk, what summing
    the concatenation of the chunks so far returns. *)
Theorem sum_matches_batch_sum (h : Handle) (src : nat) (cols : list label)
    (dfs : list pd.DataFrame) :
  stream h = streamz.Source src ->
  frame_like cols (example h) ->
  Forall (fun df => pd.columns df = cols) dfs ->
  exact_frames cols dfs = true ->
  exists h' outs,
    StreamingFrame.sum h = Ok h' /\
    streamz.run src (stream h') (VFrame <$> dfs) = Ok outs /\
    Forall2 (fun out p => batch_tick py_sum p = Ok out) outs (prefixes dfs).
Proof.
  intros Hsrc Hex Hall _.
  destruct (sum_frames_run h src cols (VFrame <$> dfs) Hsrc Hex) as (h' & Hs & _ & Hrun).
  { apply Forall_fmap. eapply Forall_impl; [exact Hall|].
    intros df. apply frame_like_VFrame. }
  exists h'. eexists. split; [done|]. split; [exact Hrun|].
  apply (Forall2_prefixes_frames
           (fun p => [VTable1 (pd.by_label cols (fun c => Fin (total_sum (pd.KStr c) p)))])
           py_sum cols); [|done].
  intros p Hne Hp.
  apply (batch_tick_agg (fun l => Fin (nansum l))
           (fun k q => Fin (total_sum k q)) cols p); [|done..].
  intros c. by rewrite total_sum_frames.
Qed.

(** Property X2. [mean()] against the mean of the concatenation. On chunks
    whose cells are integers small enough for every sum to be exact, a
    frame handle's [mean()] emits, at the tick of every chunk, what the
    column means of the concatenation of the chunks so far are; a column
    with no cell present so far has the mean [NaN]. *)
Theorem mean_matches_batch_mean (h : Handle) (src : nat) (cols : list label)
    (dfs : list pd.DataFrame) :
  stream h = streamz.Source src ->
  frame_like cols (example h) ->
  Forall (fun df => pd.columns df = cols) dfs ->
  exact_frames cols dfs = true ->
  exists h' outs,
    StreamingDataFrame.mean h = Ok h' /\
    streamz.run src (stream h') (VFrame <$> dfs) = Ok outs /\
    Forall2 (fun out p => batch_tick py_mean p = Ok out) outs (prefixes dfs).
Proof.
  intros Hsrc Hex Hall _.
  destruct (mean_frames_run h src cols (VFrame <$> dfs) Hsrc Hex) as (h' & Hs & _ & Hrun).
  { apply Forall_fmap. eapply Forall_impl; [exact Hall|].
    intros df. apply frame_like_VFrame. }
  exists h'. eexists. split; [done|]. split; [exact Hrun|].
  apply (Forall2_prefixes_frames
           (fun p => [VTable1 (pd.by_label cols
                        (fun c => num_truediv (Fin (total_sum (pd.KStr c) p))
                                              (Fin (total_count (pd.KStr c) p))))])
           py_mean cols); [|done].
  intros p Hne Hp.
  apply (batch_tick_agg pd.nanmean
           (fun k q => num_truediv (Fin (total_sum k q)) (Fin (total_count k q)))
           cols p); [|done..].
  intros c. by rewrite total_sum_frames, total_count_frames, nanmean_ratio.
Qed.

End batch.


(** ** Windows over arbitrary chunks *)

Lemma slice_from_neg {A} (w : Z) (l : list A) :
  0 < w -> pd.slice_from (- w) l = drop (length l - Z.to_nat w) l.
Proof.
  intros Hw. unfold pd.slice_from. rewrite decide_True by lia. f_equal. lia.
Qed.

Lemma slice_from_zero {A} (l : list A) : pd.slice_from (- 0) l = l.
Proof. unfold pd.slice_from. by rewrite decide_False by lia. Qed.

(** Trimming to the last [w] rows may be done at every step or once. *)
Lemma slice_from_neg_app {A} (w : Z) (a b : list A) :
  0 <= w ->
  pd.slice_from (- w) (pd.slice_from (- w) a ++ b) = pd.slice_from (- w) (a ++ b).
Proof.
  intros Hw. destruct (decide (w = 0)) as [->|Hne].
  - by rewrite !slice_from_zero.
  - rewrite !slice_from_neg by lia.
    set (W := Z.to_nat w).
    destruct (decide (length a <= W)%nat) as [Hle|Hgt].
    + replace (length a - W)%nat with 0%nat by lia. by rewrite drop_0.
    + rewrite !drop_app, !length_app, !length_drop, drop_drop.
      f_equal; f_equal; lia.
Qed.

Lemma length_slice_from_neg {A} (w : Z) (l : list A) :
  0 < w -> Z.of_nat (length (pd.slice_from (- w) l)) <= w.
Proof. intros Hw. rewrite slice_from_neg by lia. rewrite length_drop. lia. Qed.

Lemma concat_cons_app {A} (x : list A) (p : list (list A)) :
  concat (x :: p) = x ++ concat p.
Proof. reflexivity. Qed.

Section windows.
Context `{Platform}.

Lemma state_rolling_cons src window mp state x xs :
  streamz.state_from src (rolling_stream window mp (streamz.Source src))
    (streamz.SFilter (streamz.SAcc state streamz.SSource)) (x :: xs)
  = so ← streamz.accumulate_update
           (fun acc new => _roll acc new window mp) true state x;
    ys ← streamz.filter_all
           (fun x => n ← py_len x; Ok (bool_decide (mp <= n))) (snd so);
    streamz.state_from src (rolling_stream window mp (streamz.Source src))
      (streamz.SFilter (streamz.SAcc (fst so) streamz.SSource)) xs.
Proof.
  unfold rolling_stream. cbn [streamz.state_from].
  rewrite feed_filter_scan_source.
  destruct (streamz.accumulate_update _ true state x) as [[st out]|]; [|done].
  cbn [mbind result_bind fst snd].
  by destruct (streamz.filter_all _ out).
Qed.

(** The run of a count window over chunks of one shape: [mk] builds a
    chunk from its rows. *)
Section shape.
Context {R : Type} (mk : list R -> value) (w mp : Z).
Hypothesis roll_mk : forall a b,
  _roll (mk a) (mk b) (VInt w) mp
  = Ok (VTuple (mk (pd.slice_from (- w) (a ++ b)))
          (if decide (mp <= Z.of_nat (length (pd.slice_from (- w) (a ++ b))))
           then mk (pd.slice_from (- w) (a ++ b)) else VList [])).
Hypothesis len_mk : forall a, py_len (mk a) = Ok (Z.of_nat (length a)).

Lemma filter_window_out (buf : list R) :
  streamz.filter_all (fun x => n ← py_len x; Ok (bool_decide (mp <= n)))
    [if decide (mp <= Z.of_nat (length buf)) then mk buf else VList []]
  = Ok (window_tick mk mp buf).
Proof.
  unfold window_tick. cbn [streamz.filter_all].
  destruct (decide (mp <= Z.of_nat (length buf))) as [Hle|Hgt].
  - rewrite len_mk. cbn [mbind result_bind]. by rewrite bool_decide_eq_true_2.
  - cbn [py_len length mbind result_bind].
    rewrite bool_decide_eq_false_2; [done|]. cbn. lia.
Qed.

Lemma run_count_window (src : nat) (buf : list R) (rest : list (list R)) :
  0 <= w ->
  streamz.run_from src (rolling_stream (VInt w) mp (streamz.Source src))
    (streamz.SFilter (streamz.SAcc (Some (mk buf)) streamz.SSource)) (mk <$> rest)
  = Ok ((fun p => window_tick mk mp (pd.slice_from (- w) (buf ++ concat p)))
          <$> prefixes rest).
Proof.
  intros Hw. revert buf. induction rest as [|x rest IH]; intros buf; [done|].
  rewrite fmap_cons, run_rolling_cons. cbn [streamz.accumulate_update].
  rewrite roll_mk. cbn [mbind result_bind unpack2 fst snd].
  rewrite filter_window_out. cbn [mbind result_bind]. rewrite IH.
  cbn [mbind result_bind]. rewrite prefixes_cons, fmap_cons. f_equal. f_equal.
  - cbn [concat]. by rewrite app_nil_r.
  - rewrite <- list_fmap_compose. apply list_fmap_ext. intros _ p _.
    unfold compose. rewrite concat_cons_app, slice_from_neg_app by done.
    by rewrite app_assoc.
Qed.

Lemma state_count_window (src : nat) (buf : list R) (x : list R) (rest : list (list R)) :
  0 <= w ->
  streamz.state_from src (rolling_stream (VInt w) mp (streamz.Source src))
    (streamz.SFilter (streamz.SAcc (Some (mk buf)) streamz.SSource)) (mk <$> x :: rest)
  = Ok (streamz.SFilter
          (streamz.SAcc (Some (mk (pd.slice_from (- w) (buf ++ concat (x :: rest)))))
                        streamz.SSource)).
Proof.
  intros Hw. revert buf x. induction rest as [|y rest IH]; intros buf x.
  - rewrite fmap_cons, state_rolling_cons. cbn [streamz.accumulate_update].
    rewrite roll_mk. cbn [mbind result_bind unpack2 fst snd].
    rewrite filter_window_out. cbn [mbind result_bind fst concat].
    rewrite fmap_nil. cbn [streamz.state_from]. by rewrite app_nil_r.
  - rewrite fmap_cons, state_rolling_cons. cbn [streamz.accumulate_update].
    rewrite roll_mk. cbn [mbind result_bind unpack2 fst snd].
    rewrite filter_window_out. cbn [mbind result_bind fst].
    rewrite IH.
    rewrite (concat_cons_app x), slice_from_neg_app by done.
    by rewrite app_assoc.
Qed.

Lemma count_window_trace (h : Handle) (src : nat) (r0 : list R) (rest : list (list R)) :
  stream h = streamz.Source src ->
  _subtype (type_of h) (example h) = true ->
  0 <= w ->
  exists h',
    Streaming.rolling h (VInt w) mp = Ok h' /\
    streamz.run src (stream h') (mk <$> r0 :: rest)
    = Ok ((if seed_tick_emits then window_tick mk mp r0 else [])
          :: ((fun p => window_tick mk mp (pd.slice_from (- w) (r0 ++ concat p)))
                <$> prefixes rest)) /\
    streamz.state_after src (stream h') (mk <$> r0 :: rest)
    = Ok (streamz.SFilter
            (streamz.SAcc
               (Some (mk (match rest with
                          | [] => r0
                          | _ => pd.slice_from (- w) (r0 ++ concat rest)
                          end)))
               streamz.SSource)).
Proof.
  intros Hsrc Hex Hw. unfold Streaming.rolling. cbn [mbind result_bind fst snd].
  unfold Streaming.__init__. rewrite Hex. cbn [from_option id].
  eexists. split; [reflexivity|]. cbn [stream]. rewrite Hsrc.
  fold (rolling_stream (VInt w) mp (streamz.Source src)).
  unfold streamz.run, streamz.state_after.
  change (streamz.init (rolling_stream (VInt w) mp (streamz.Source src)))
    with (streamz.SFilter (streamz.SAcc None streamz.SSource)).
  rewrite fmap_cons. split.
  - rewrite run_rolling_cons.
    cbn [streamz.accumulate_update mbind result_bind fst snd].
    assert (streamz.filter_all
              (fun x => n ← py_len x; Ok (bool_decide (mp <= n)))
              (if seed_tick_emits then [mk r0] else [])
            = Ok (if seed_tick_emits then window_tick mk mp r0 else [])) as ->.
    { destruct seed_tick_emits; [|done]. cbn [streamz.filter_all].
      rewrite len_mk. cbn [mbind result_bind]. unfold window_tick.
      destruct (decide (mp <= Z.of_nat (length r0))).
      - by rewrite bool_decide_eq_true_2.
      - by rewrite bool_decide_eq_false_2. }
    cbn [mbind result_bind]. by rewrite run_count_window.
  - rewrite state_rolling_cons.
    cbn [streamz.accumulate_update mbind result_bind fst snd].
    assert (exists ys, streamz.filter_all
              (fun x => n ← py_len x; Ok (bool_decide (mp <= n)))
              (if seed_tick_emits then [mk r0] else []) = Ok ys) as [ys ->].
    { destruct seed_tick_emits; [|by eexists]. cbn [streamz.filter_all].
      rewrite len_mk. cbn [mbind result_bind]. by eexists. }
    cbn [mbind result_bind].
    destruct rest as [|x rest]; [done|].
    by rewrite state_count_window.
Qed.

End shape.

Lemma roll_series_rows nm a b (w mp : Z) :
  _roll (series_chunk nm a) (series_chunk nm b) (VInt w) mp
  = Ok (VTuple
          (series_chunk nm (pd.slice_from (- w) (a ++ b)))
          (if decide (mp <= Z.of_nat (length (pd.slice_from (- w) (a ++ b))))
           then series_chunk nm (pd.slice_from (- w) (a ++ b))
           else VList [])).
Proof.
  unfold _roll, series_chunk. cbn [py_concat mbind result_bind py_iloc_from].
  unfold pd.concat_series, pd.iloc_from_series. cbn [pd.name pd.items].
  rewrite decide_True by done. reflexivity.
Qed.

Lemma roll_frame_rows cols a b (w mp : Z) :
  _roll (rows_chunk cols a) (rows_chunk cols b) (VInt w) mp
  = Ok (VTuple
          (rows_chunk cols (pd.slice_from (- w) (a ++ b)))
          (if decide (mp <= Z.of_nat (length (pd.slice_from (- w) (a ++ b))))
           then rows_chunk cols (pd.slice_from (- w) (a ++ b))
           else VList [])).
Proof.
  unfold _roll, rows_chunk. cbn [py_concat mbind result_bind py_iloc_from].
  unfold pd.concat_frames, pd.iloc_from_frame. cbn [pd.columns pd.rows].
  rewrite decide_True by done. reflexivity.
Qed.

(** Property X3. Count windows in general. With an integer window [w >= 0],
    whatever the sizes of the chunks: the first chunk seeds the buffer as it
    is, and from the second chunk on the buffer is the last [w] rows of all
    the rows received (every row when [w = 0], as [iloc[-0:]] keeps them
    all); each tick passes the buffer on unless it holds fewer than
    [min_periods] rows. This holds for Series chunks and for frame chunks. *)
Theorem rolling_count_window_is_tail (h : Handle) (src : nat) (w mp : Z) :
  stream h = streamz.Source src ->
  _subtype (type_of h) (example h) = true ->
  0 <= w ->
  exists h',
    Streaming.rolling h (VInt w) mp = Ok h' /\
    (forall nm (r0 : list (Z * num)) (rest : list (list (Z * num))),
       let mk := series_chunk nm in
       streamz.run src (stream h') (mk <$> r0 :: rest)
       = Ok ((if seed_tick_emits then window_tick mk mp r0 else [])
             :: ((fun p => window_tick mk mp (pd.slice_from (- w) (r0 ++ concat p)))
                   <$> prefixes rest)) /\
       streamz.state_after src (stream h') (mk <$> r0 :: rest)
       = Ok (streamz.SFilter
               (streamz.SAcc
                  (Some (mk (match rest with
                             | [] => r0
                             | _ => pd.slice_from (- w) (r0 ++ concat rest)
                             end)))
                  streamz.SSource))) /\
    (forall cols (r0 : list (Z * gmap label num)) (rest : list (list (Z * gmap label num))),
       let mk := rows_chunk cols in
       streamz.run src (stream h') (mk <$> r0 :: rest)
       = Ok ((if seed_tick_emits then window_tick mk mp r0 else [])
             :: ((fun p => window_tick mk mp (pd.slice_from (- w) (r0 ++ concat p)))
                   <$> prefixes rest)) /\
       streamz.state_after src (stream h') (mk <$> r0 :: rest)
       = Ok (streamz.SFilter
               (streamz.SAcc
                  (Some (mk (match rest with
                             | [] => r0
                             | _ => pd.slice_from (- w) (r0 ++ concat rest)
                             end)))
                  streamz.SSource))).
Proof.
  intros Hsrc Hex Hw.
  assert (exists h', Streaming.rolling h (VInt w) mp = Ok h') as [h' Hh'].
  { unfold Streaming.rolling. cbn [mbind result_bind fst snd].
    unfold Streaming.__init__. rewrite Hex. eauto. }
  exists h'. split; [done|]. split.
  - intros nm r0 rest mk.
    destruct (count_window_trace mk w mp (fun a b => roll_series_rows nm a b w mp)
                (fun a => eq_refl) h src r0 rest Hsrc Hex Hw) as (h2 & Hh2 & Hrun).
    rewrite Hh' in Hh2. by injection Hh2 as <-.
  - intros cols r0 rest mk.
    destruct (count_window_trace mk w mp (fun a b => roll_frame_rows cols a b w mp)
                (fun a => eq_refl) h src r0 rest Hsrc Hex Hw) as (h2 & Hh2 & Hrun).
    rewrite Hh' in Hh2. by injection Hh2 as <-.
Qed.

End windows.


(** ** Duration windows *)





Section duration_windows.
Context `{Platform}.



End duration_windows.


(** ** The handles of [sum] and [mean] *)

Lemma py_sum_cells cols x :
  frame_like cols x ->
  py_sum x = Ok (VTable1 (pd.by_label cols (fun c => Fin (0 + nansum (cells (pd.KStr c) x))%Qc))).
Proof.
  intros Hx. rewrite (py_sum_frame_like cols x Hx). do 2 f_equal.
  apply by_label_ext. intros c _. by rewrite Qcplus_0_l.
Qed.

Lemma py_mean_cells cols x :
  frame_like cols x ->
  py_mean x
  = Ok (VTable1 (pd.by_label cols
                   (fun c => num_truediv (Fin (0 + nansum (cells (pd.KStr c) x))%Qc)
                                         (Fin (0 + nancount (cells (pd.KStr c) x))%Qc)))).
Proof.
  intros [Hdf Hcols]. destruct x; try discriminate; cbn in Hcols; simplify_eq;
    unfold py_mean; cbn [py_agg]; do 2 f_equal; unfold pd.frame_agg;
    apply by_label_ext; intros c _; by rewrite !Qcplus_0_l.
Qed.

Lemma sum_frame_handle (h : Handle) cols :
  frame_like cols (example h) ->
  exists e,
    py_sum (example h) = Ok e /\
    StreamingFrame.sum h
    = Ok (mkHandle TStreamingSeries
            (streamz.accumulate _accumulate_sum (Some (VInt 0)) false (stream h)) e).
Proof.
  intros Hex. eexists. split; [by apply py_sum_cells|].
  unfold StreamingFrame.sum, Streaming.accumulate_partitions.
  cbn [from_option id]. rewrite (accumulate_sum_first_frame cols (example h)) by done.
  reflexivity.
Qed.

Lemma mean_frame_handle (h : Handle) cols :
  frame_like cols (example h) ->
  exists e start,
    py_mean (example h) = Ok e /\
    StreamingDataFrame.mean h
    = Ok (mkHandle TStreamingSeries
            (streamz.accumulate _accumulate_mean (Some start) true (stream h)) e).
Proof.
  intros Hex. pose proof Hex as [_ Hcols].
  eexists _, _. split; [by apply py_mean_cells|].
  unfold StreamingDataFrame.mean, Streaming.accumulate_partitions.
  rewrite Hcols. cbn [mbind result_bind from_option id]. unfold num_of_Z.
  change (Q2Qc (inject_Z 0)) with 0%Qc.
  rewrite (accumulate_mean_frame cols (fun _ => 0%Qc) (fun _ => 0%Qc) (example h))
    by done.
  reflexivity.
Qed.

Section aggregates.
Context `{Platform}.

(** Property X10. The handles of the running aggregates. On a frame handle,
    [sum()] and [mean()] return Series handles whose examples are the column
    sums and the column means of the parent's example. For every chunk with
    the parent's columns each of them emits one value, neither none nor
    several, and that value passes the handle's own [verify]. *)
Theorem sum_mean_handles (h : Handle) (src : nat) (cols : list label)
    (chunks : list value) :
  stream h = streamz.Source src ->
  frame_like cols (example h) ->
  Forall (frame_like cols) chunks ->
  exists hs hm outs_s outs_m,
    StreamingFrame.sum h = Ok hs /\
    StreamingDataFrame.mean h = Ok hm /\
    type_of hs = TStreamingSeries /\
    type_of hm = TStreamingSeries /\
    py_sum (example h) = Ok (example hs) /\
    py_mean (example h) = Ok (example hm) /\
    streamz.run src (stream hs) chunks = Ok outs_s /\
    streamz.run src (stream hm) chunks = Ok outs_m /\
    Forall2 (fun out x => exists y, out = [y] /\ verify hs y = Ok tt) outs_s chunks /\
    Forall2 (fun out x => exists y, out = [y] /\ verify hm y = Ok tt) outs_m chunks.
Proof.
  intros Hsrc Hex Hall.
  destruct (sum_frame_handle h cols Hex) as (es & Hes & Hs).
  destruct (mean_frame_handle h cols Hex) as (em & start & Hem & Hm).
  destruct (sum_frames_run h src cols chunks Hsrc Hex Hall) as (hs & Hs' & _ & Hrs).
  destruct (mean_frames_run h src cols chunks Hsrc Hex Hall) as (hm & Hm' & _ & Hrm).
  rewrite Hs in Hs'. injection Hs' as <-. rewrite Hm in Hm'. injection Hm' as <-.
  eexists _, _, _, _. split; [exact Hs|]. split; [exact Hm|].
  split; [done|]. split; [done|]. split; [exact Hes|]. split; [exact Hem|].
  split; [exact Hrs|]. split; [exact Hrm|].
  assert (forall (f : list value -> list value) (P : list value -> value -> Prop),
            (forall p x, P (f p) x) ->
            forall l : list value, Forall2 P (f <$> prefixes l) l) as Hpre.
  { intros f P HP l. revert f HP. induction l as [|a l IH]; intros f HP; [constructor|].
    rewrite prefixes_cons, fmap_cons. constructor; [apply HP|].
    rewrite <- list_fmap_compose. apply (IH (f ∘ (fun p => a :: p))).
    intros p x. apply HP. }
  split; apply Hpre; intros p x; eexists; (split; [reflexivity|]); reflexivity.
Qed.

End aggregates.


(** ** Handles derived by [map_partitions] *)

Lemma map_partitions_Ok (h : Handle) (f : callable) (args : list value) e :
  f (example h) args = Ok e ->
  e <> VNone ->
  exists cls,
    Streaming.map_partitions h f args None
    = Ok (mkHandle cls (streamz.map (fun x => f x args) (stream h)) e) /\
    cls = (if is_DataFrame e then TStreamingDataFrame
           else if is_Series e then TStreamingSeries else TStreaming).
Proof.
  intros He Hne. unfold Streaming.map_partitions. cbn [Streaming.given].
  rewrite He. cbn [mbind result_bind].
  unfold Streaming.wrap, Streaming.__init__.
  destruct (is_DataFrame e) eqn:Hdf; cbn [_subtype from_option id].
  - rewrite Hdf. eauto.
  - destruct (is_Series e) eqn:Hs; [eauto|].
    destruct e; try done; cbn [Streaming.given]; eauto.
Qed.

Lemma verify_frame_handle s e (df : pd.DataFrame) :
  pd.columns df = pd.columns e ->
  verify (mkHandle TStreamingDataFrame s (VFrame e)) (VFrame df) = Ok tt.
Proof.
  intros Hc. unfold verify, StreamingDataFrame.verify, Streaming.verify.
  cbn. rewrite Hc. by rewrite decide_False by (intros Hn; by apply Hn).
Qed.

Lemma labels_of_strs (cs : list label) : labels_of (VStr <$> cs) = Some cs.
Proof.
  unfold labels_of. induction cs as [|c cs IH]; [done|].
  rewrite fmap_cons. cbn [mapM]. rewrite IH. done.
Qed.

Section chunkwise.
Context `{Platform}.

Lemma feed_map_source (src : nat) (x : value) (f : value -> result value) :
  streamz.feed src x (streamz.map f (streamz.Source src)) (streamz.SMap streamz.SSource)
  = y ← f x; Ok (streamz.SMap streamz.SSource, [y]).
Proof.
  cbn [streamz.feed]. rewrite decide_True by done.
  cbn [mbind result_bind fst snd streamz.map_all].
  by destruct (f x).
Qed.

Lemma run_map_chunkwise (h' : Handle) (src : nat) (f : value -> result value)
    (chunks : list value) :
  stream h' = streamz.map f (streamz.Source src) ->
  Forall (fun x => exists y, f x = Ok y /\ verify h' y = Ok tt) chunks ->
  exists outs,
    streamz.run src (stream h') chunks = Ok outs /\
    chunkwise f h' outs chunks.
Proof.
  intros Hs Hall. rewrite Hs. unfold streamz.run. cbn [streamz.init].
  induction Hall as [|x chunks (y & Hy & Hv) Hall (outs & Hrun & Hcw)].
  - exists []. split; [done|]. constructor.
  - exists ([y] :: outs). cbn [streamz.run_from]. rewrite feed_map_source, Hy.
    cbn [mbind result_bind fst snd]. rewrite Hrun. split; [done|].
    constructor; [|done]. eauto.
Qed.

(** Property X8. Operators and subscripts, chunk by chunk. On a frame handle
    fed at its source with frames of its columns: an operator with a scalar
    operand derives a frame handle with the same columns, the subscript by a
    column label derives a Series handle, and the subscript by a list of
    column labels derives a frame handle with exactly these columns. Each of
    them emits, at every tick, the operation applied to the chunk, and every
    value emitted passes the derived handle's own [verify]. *)
Theorem map_derived_handles_chunkwise (h : Handle) (src : nat)
    (e : pd.DataFrame) (dfs : list pd.DataFrame) :
  stream h = streamz.Source src ->
  example h = VFrame e ->
  Forall (fun df => pd.columns df = pd.columns e) dfs ->
  (forall op other,
     is_Some (as_scalar other) ->
     exists h' outs,
       operator_method op h other = Ok h' /\
       type_of h' = TStreamingDataFrame /\
       py_columns (example h') = Ok (pd.columns e) /\
       streamz.run src (stream h') (VFrame <$> dfs) = Ok outs /\
       chunkwise (fun x => py_binop op x other) h' outs (VFrame <$> dfs)) /\
  (forall c,
     c ∈ pd.columns e ->
     exists h' outs,
       StreamingDataFrame.__getitem__ h (VStr c) = Ok h' /\
       type_of h' = TStreamingSeries /\
       streamz.run src (stream h') (VFrame <$> dfs) = Ok outs /\
       chunkwise (fun x => py_getitem x (VStr c)) h' outs (VFrame <$> dfs)) /\
  (forall cs,
     Forall (fun c => c ∈ pd.columns e) cs ->
     exists h' outs,
       StreamingDataFrame.__getitem__ h (VList (VStr <$> cs)) = Ok h' /\
       type_of h' = TStreamingDataFrame /\
       py_columns (example h') = Ok cs /\
       streamz.run src (stream h') (VFrame <$> dfs) = Ok outs /\
       chunkwise (fun x => py_getitem x (VList (VStr <$> cs))) h' outs (VFrame <$> dfs)).
Proof.
  intros Hsrc Hex Hall. split; [|split].
  - intros op other [y Hy].
    assert (forall df, py_binop op (VFrame df) other
                       = Ok (VFrame (map_frame (fun c => num_binop op c y) df))) as Hop.
    { intros df. destruct other; try discriminate Hy; cbn in Hy; simplify_eq; done. }
    destruct (map_partitions_Ok h (operator op) [other]
                (VFrame (map_frame (fun c => num_binop op c y) e))) as (cls & Hh' & ->).
    { rewrite Hex. apply Hop. }
    { done. }
    cbn [is_DataFrame] in Hh'.
    destruct (run_map_chunkwise
                (mkHandle TStreamingDataFrame
                   (streamz.map (fun x => operator op x [other]) (stream h))
                   (VFrame (map_frame (fun c => num_binop op c y) e)))
                src (fun x => py_binop op x other) (VFrame <$> dfs))
      as (outs & Hrun & Hcw).
    { cbn [stream]. by rewrite Hsrc. }
    { apply Forall_fmap. eapply Forall_impl; [exact Hall|]. intros df Hdf.
      unfold compose. eexists. split; [apply Hop|].
      apply verify_frame_handle. exact Hdf. }
    eexists _, outs. split; [by destruct op|]. done.
  - intros c Hc.
    assert (forall df, pd.columns df = pd.columns e ->
              py_getitem (VFrame df) (VStr c) = Ok (VSeries (pd.getitem_column df c)))
      as Hget.
    { intros df Hdf. cbn [py_getitem]. rewrite Hdf. by rewrite decide_True. }
    destruct (map_partitions_Ok h operator_getitem [VStr c]
                (VSeries (pd.getitem_column e c))) as (cls & Hh' & ->).
    { rewrite Hex. by apply Hget. }
    { done. }
    cbn [is_DataFrame is_Series] in Hh'.
    destruct (run_map_chunkwise
                (mkHandle TStreamingSeries
                   (streamz.map (fun x => operator_getitem x [VStr c]) (stream h))
                   (VSeries (pd.getitem_column e c)))
                src (fun x => py_getitem x (VStr c)) (VFrame <$> dfs))
      as (outs & Hrun & Hcw).
    { cbn [stream]. by rewrite Hsrc. }
    { apply Forall_fmap. eapply Forall_impl; [exact Hall|]. intros df Hdf.
      unfold compose. eexists. split; [by apply Hget|]. done. }
    eexists _, outs. split; [exact Hh'|]. done.
  - intros cs Hcs.
    assert (forall df, pd.columns df = pd.columns e ->
              py_getitem (VFrame df) (VList (VStr <$> cs))
              = Ok (VFrame (pd.getitem_columns df cs))) as Hget.
    { intros df Hdf. cbn [py_getitem]. rewrite labels_of_strs, Hdf.
      by rewrite decide_True. }
    destruct (map_partitions_Ok h operator_getitem [VList (VStr <$> cs)]
                (VFrame (pd.getitem_columns e cs))) as (cls & Hh' & ->).
    { rewrite Hex. by apply Hget. }
    { done. }
    cbn [is_DataFrame] in Hh'.
    destruct (run_map_chunkwise
                (mkHandle TStreamingDataFrame
                   (streamz.map (fun x => operator_getitem x [VList (VStr <$> cs)])
                                (stream h))
                   (VFrame (pd.getitem_columns e cs)))
                src (fun x => py_getitem x (VList (VStr <$> cs))) (VFrame <$> dfs))
      as (outs & Hrun & Hcw).
    { cbn [stream]. by rewrite Hsrc. }
    { apply Forall_fmap. eapply Forall_impl; [exact Hall|]. intros df Hdf.
      unfold compose. eexists. split; [by apply Hget|].
      by apply verify_frame_handle. }
    eexists _, outs. split; [exact Hh'|]. done.
Qed.

End chunkwise.


(** ** Names that are not columns *)

Section missing.
Context `{Platform}.

(** Property X13. A name that is not a column. On a frame handle, for a name
    that is none of the example's columns: the subscript raises [KeyError]
    and the attribute raises [AttributeError] when the handle is derived, a
    grouped [sum] or [mean] raises [KeyError] when the name is the grouping
    key or the selected column, and on a grouped handle the attribute
    raises [AttributeError] unless ordinary lookup finds the name there
    ([sum], [mean], [root], ...). No handle is made in any of these
    cases. *)
Theorem missing_column_errors (h : Handle) (e : pd.DataFrame) (key : string) :
  type_of h = TStreamingDataFrame ->
  example h = VFrame e ->
  key ∉ pd.columns e ->
  StreamingDataFrame.__getitem__ h (VStr key) = Raise KeyError /\
  (key ∉ names TStreamingDataFrame -> object_attr key = false ->
     getattribute h key = Raise AttributeError) /\
  (forall idx,
     StreamingSeriesGroupby.sum (mkGroupby h (Static (VStr key)) idx) = Raise KeyError /\
     StreamingSeriesGroupby.mean (mkGroupby h (Static (VStr key)) idx) = Raise KeyError) /\
  (forall k,
     k ∈ pd.columns e ->
     StreamingSeriesGroupby.sum (mkGroupby h (Static (VStr k)) (VStr key))
     = Raise KeyError /\
     StreamingSeriesGroupby.mean (mkGroupby h (Static (VStr k)) (VStr key))
     = Raise KeyError) /\
  (forall g idx,
     StreamingSeriesGroupby.getattribute (mkGroupby h g idx) key
     = if bool_decide (key ∈ StreamingSeriesGroupby_names) || object_attr key
       then Ok (GroupMember key) else Raise AttributeError).
Proof.
  intros Ht Hex Hkey. split; [|split; [|split; [|split]]].
  - unfold StreamingDataFrame.__getitem__, Streaming.map_partitions.
    rewrite Hex. cbn [Streaming.given operator_getitem py_getitem].
    by rewrite decide_False.
  - intros Hn Ho. unfold getattribute. rewrite Ht.
    rewrite bool_decide_eq_false_2 by done. rewrite Ho. cbn [orb].
    unfold StreamingDataFrame.__getattr__, StreamingDataFrame.columns.
    rewrite Hex. cbn [py_columns mbind result_bind].
    by rewrite decide_False.
  - intros idx.
    unfold StreamingSeriesGroupby.sum, StreamingSeriesGroupby.mean,
      StreamingSeriesGroupby.example_of.
    cbn [grouper root index]. rewrite Hex. cbn [py_groupby].
    by rewrite decide_False.
  - intros k Hk.
    unfold StreamingSeriesGroupby.sum, StreamingSeriesGroupby.mean,
      StreamingSeriesGroupby.example_of.
    cbn [grouper root index]. rewrite Hex. cbn [py_groupby].
    rewrite decide_True by done. cbn [mbind result_bind group_getitem].
    cbn [pd.groupby_columns pd.obj_columns].
    by rewrite decide_False.
  - intros g idx. unfold StreamingSeriesGroupby.getattribute.
    destruct (_ || _); [done|].
    unfold StreamingSeriesGroupby.__getattr__. cbn [root].
    rewrite Ht. unfold StreamingDataFrame.columns. rewrite Hex.
    cbn [py_columns mbind result_bind]. by rewrite decide_False.
Qed.

End missing.

(** ** The constructor *)

Lemma dict_keys_from (acc cols : list label) :
  NoDup acc ->
  let r := foldl (fun acc c => if decide (c ∈ acc) then acc else acc ++ [c]) acc cols in
  NoDup r /\ (forall c, c ∈ r <-> c ∈ acc \/ c ∈ cols) /\
  (NoDup (acc ++ cols) -> r = acc ++ cols).
Proof.
  cbn zeta. revert acc. induction cols as [|c cols IH]; intros acc Hacc.
  - cbn [foldl]. split; [done|]. split.
    + intros c. rewrite elem_of_nil. tauto.
    + by rewrite app_nil_r.
  - cbn [foldl]. destruct (decide (c ∈ acc)) as [Hin|Hin].
    + destruct (IH acc Hacc) as (Hnd & Hel & Heq). split; [done|]. split.
      * intros c'. rewrite Hel, elem_of_cons. split; [tauto|].
        intros [?|[->|?]]; tauto.
      * intros Hn. apply NoDup_app in Hn as (_ & Hdis & _).
        exfalso. apply (Hdis c Hin). apply elem_of_cons. by left.
    + assert (NoDup (acc ++ [c])) as Hacc'.
      { apply NoDup_app. split; [done|]. split; [|apply NoDup_singleton].
        intros x Hx ->%list_elem_of_singleton. done. }
      destruct (IH (acc ++ [c]) Hacc') as (Hnd & Hel & Heq). split; [done|]. split.
      * intros c'. rewrite Hel, elem_of_app, list_elem_of_singleton, elem_of_cons. tauto.
      * intros Hn. rewrite <- app_assoc in Heq. cbn [app] in Heq. by apply Heq.
Qed.

Lemma dict_keys_spec (cols : list label) :
  NoDup (Streaming.dict_keys cols) /\
  (forall c, c ∈ Streaming.dict_keys cols <-> c ∈ cols) /\
  (NoDup cols -> Streaming.dict_keys cols = cols).
Proof.
  destruct (dict_keys_from [] cols (NoDup_nil_2)) as (Hnd & Hel & Heq).
  split; [exact Hnd|]. split; [|exact Heq].
  intros c. rewrite (Hel c), elem_of_nil. tauto.
Qed.

(** Property X14. The arguments of the constructor. Without an example and
    without columns the constructor fails its assertion, and [None] passed
    for the example counts as no example. An example that is given takes
    precedence over the columns. A Series handle cannot be made from
    columns alone, since the columns make a frame. A frame handle made
    from columns alone has for its example the empty frame whose columns
    are the labels given, each once, in the order of first occurrence; it
    accepts exactly the frames that have these columns in this order. *)
Theorem constructor_arguments (cls : type) (s : option streamz.Stream)
    (cols : list label) (fresh : nat) (e : value) :
  Streaming.__init__ cls s None None fresh = Raise AssertionError /\
  Streaming.__init__ cls s (Streaming.given (Some e)) (Some cols) fresh
  = match e with
    | VNone => Streaming.__init__ cls s None (Some cols) fresh
    | _ => Streaming.__init__ cls s (Some e) None fresh
    end /\
  Streaming.__init__ TStreamingSeries s None (Some cols) fresh = Raise AssertionError /\
  exists h,
    Streaming.__init__ TStreamingDataFrame s None (Some cols) fresh = Ok h /\
    example h = VFrame (pd.empty_frame (Streaming.dict_keys cols)) /\
    NoDup (Streaming.dict_keys cols) /\
    (forall c, c ∈ Streaming.dict_keys cols <-> c ∈ cols) /\
    (NoDup cols -> Streaming.dict_keys cols = cols) /\
    stream h = default (streamz.Source fresh) s /\
    forall x, verify h x = Ok tt <-> frame_like (Streaming.dict_keys cols) x.
Proof.
  split; [done|]. split; [by destruct e|]. split; [done|].
  destruct (dict_keys_spec cols) as (Hnd & Hel & Heq).
  eexists. split; [reflexivity|]. split; [done|].
  split; [exact Hnd|]. split; [exact Hel|]. split; [exact Heq|]. split; [done|].
  intros x. unfold verify, StreamingDataFrame.verify, Streaming.verify, frame_like.
  cbn [type_of example _subtype py_columns pd.empty_frame pd.columns].
  destruct (is_DataFrame x) eqn:Hx; cbn [mbind result_bind].
  - destruct (py_columns x) as [xc|err]; cbn [mbind result_bind].
    + destruct (decide (xc ≠ Streaming.dict_keys cols)) as [Hne|Heq'].
      * split; [done|]. intros [_ [= ->]]. by destruct Hne.
      * split; [|done]. intros _. split; [done|]. f_equal.
        destruct (decide (xc = Streaming.dict_keys cols)); [done|by destruct Heq'].
    + split; [done|]. by intros [_ ?].
  - split; [done|]. by intros [? _].
Qed.


(** ** Grouping by a streaming key *)

Lemma index_getitem_column (df : pd.DataFrame) (k : label) :
  fst <$> pd.items (pd.getitem_column df k) = fst <$> pd.rows df.
Proof.
  unfold pd.getitem_column. cbn [pd.items]. rewrite <- list_fmap_compose.
  by apply list_fmap_ext.
Qed.

(** Grouping a frame by its own column [k], taken as a Series, is grouping
    it by the label [k]. *)
Lemma groupby_own_column_at `{Platform} (df : pd.DataFrame) (k : label) :
  k ∈ pd.columns df ->
  is_in_obj df (pd.getitem_column df k) = true ->
  py_groupby (VFrame df) (VSeries (pd.getitem_column df k))
  = Ok (pd.groupby_columns df [k]).
Proof.
  intros Hk Hown. cbn [py_groupby]. unfold pd.aligned_keys.
  rewrite decide_True by (by rewrite index_getitem_column).
  unfold excluded_by. cbn [pd.getitem_column pd.name].
  rewrite bool_decide_eq_true_2 by done.
  fold (pd.getitem_column df k).
  rewrite bool_decide_eq_true_2 by done. rewrite Hown. cbn [andb].
  unfold pd.groupby_keys, pd.groupby_columns. f_equal. f_equal.
  unfold pd.values, pd.getitem_column. cbn [pd.items].
  induction (pd.rows df) as [|r rows IH]; [done|].
  rewrite !fmap_cons. cbn [zip zip_with]. f_equal. exact IH.
Qed.

Section own_column.
Context `{Platform}.
Variable k : label.
Hypothesis own : forall df, is_in_obj df (pd.getitem_column df k) = true.

Lemma groupby_own_column (df : pd.DataFrame) :
  k ∈ pd.columns df ->
  py_groupby (VFrame df) (VSeries (pd.getitem_column df k))
  = Ok (pd.groupby_columns df [k]).
Proof. intros Hk. by apply groupby_own_column_at. Qed.

Lemma grouped_zipped (df : pd.DataFrame) (index : value) :
  k ∈ pd.columns df ->
  grouped (VTuple (VFrame df) (VSeries (pd.getitem_column df k))) VNone index
  = grouped (VFrame df) (VStr k) index.
Proof.
  intros Hk. unfold grouped. cbn [mbind result_bind fst snd].
  rewrite groupby_own_column by done. cbn [py_groupby].
  by rewrite decide_True.
Qed.

Lemma example_of_zipped agg (e : pd.DataFrame) key index :
  StreamingSeriesGroupby.example_of agg (VFrame e) key index
  = (g ← grouped (VTuple (VFrame e) key) VNone index; Ok (agg g)).
Proof.
  unfold StreamingSeriesGroupby.example_of, grouped.
  cbn [mbind result_bind fst snd].
  by destruct (py_groupby (VFrame e) key).
Qed.

Lemma batch_grouped_own agg first rest index :
  k ∈ pd.columns (concat_all first rest) ->
  batch_grouped agg first rest
    (VSeries (pd.getitem_column (concat_all first rest) k)) index
  = batch_grouped agg first rest (VStr k) index.
Proof.
  intros Hk. unfold batch_grouped, py_grouped. rewrite groupby_own_column by done.
  cbn [py_groupby]. by rewrite decide_True.
Qed.

Lemma feed_accumulate_zip (src : nat) (x : value)
    (func : value -> value -> result value) (start : option value)
    (returns_state : bool) (state : option value) (f : value -> result value) :
  streamz.feed src x
    (streamz.accumulate func start returns_state
       (streamz.zip (streamz.Source src) (streamz.map f (streamz.Source src))))
    (streamz.SAcc state (streamz.SZip [] [] streamz.SSource (streamz.SMap streamz.SSource)))
  = y ← f x;
    so ← streamz.accumulate_update func returns_state state (VTuple x y);
    Ok (streamz.SAcc (fst so)
          (streamz.SZip [] [] streamz.SSource (streamz.SMap streamz.SSource)),
        snd so).
Proof.
  cbn [streamz.feed]. rewrite decide_True by done.
  cbn [mbind result_bind fst snd streamz.map_all].
  destruct (f x) as [y|]; [|done].
  cbn [mbind result_bind fst snd app streamz.zip_ready streamz.accumulate_all].
  destruct (streamz.accumulate_update func returns_state state (VTuple x y))
    as [[st out]|]; [|done].
  cbn. by rewrite app_nil_r.
Qed.

Section run.
Variables (src : nat) (index : value).
Variables (oc sel : list label) (sq : option label).

Local Notation "'G' df" :=
  (pd.mkGroupBy oc sel sq (pd.keyed_rows (pd.groupby_columns df [k])))
  (at level 10, df at level 9).

Local Notation "'ZS' st" :=
  (streamz.SAcc st (streamz.SZip [] [] streamz.SSource (streamz.SMap streamz.SSource)))
  (at level 10, st at level 9).

Lemma key_of_chunk (df : pd.DataFrame) :
  k ∈ pd.columns df ->
  operator_getitem (VFrame df) [VStr k] = Ok (VSeries (pd.getitem_column df k)).
Proof. intros Hk. cbn [operator_getitem py_getitem]. by rewrite decide_True. Qed.

Lemma run_zipped_sum start (acc : pd.DataFrame) (rest : list pd.DataFrame) :
  k ∈ pd.columns acc ->
  (forall df, pd.columns df = pd.columns acc ->
     grouped (VTuple (VFrame df) (VSeries (pd.getitem_column df k))) VNone index
     = Ok (G df)) ->
  Forall (fun df => pd.columns df = pd.columns acc) rest ->
  exists outs,
    streamz.run_from src
      (streamz.accumulate
         (fun a new => _accumulate_groupby_sum a new VNone index)
         start false
         (streamz.zip (streamz.Source src)
            (streamz.map (fun x => operator_getitem x [VStr k]) (streamz.Source src))))
      (ZS (Some (group_sum (G acc))))
      (VFrame <$> rest)
    = Ok outs /\
    last ([group_sum (G acc)] :: outs) = Some [group_sum (G (concat_all acc rest))].
Proof.
  revert acc. induction rest as [|d rest IH]; intros acc Hk Hg Hall.
  - exists []. done.
  - inversion Hall as [|? ? Hd Hrest]; subst.
    rewrite fmap_cons. cbn [streamz.run_from]. rewrite feed_accumulate_zip.
    cbv beta. rewrite key_of_chunk by (by rewrite Hd).
    cbn [mbind result_bind streamz.accumulate_update].
    rewrite (accumulate_groupby_sum_next _ _ _ _ _ _ _ _ (Hg d Hd)).
    rewrite <- keyed_rows_concat by done.
    cbn [mbind result_bind fst snd].
    destruct (IH (pd.concat_frames acc d)) as (outs & Hrun & Hlast).
    + by rewrite concat_frames_same.
    + intros df Hdf. apply Hg. rewrite Hdf. by rewrite concat_frames_same.
    + rewrite concat_frames_same by done. exact Hrest.
    + rewrite Hrun. cbn [mbind result_bind]. eexists. split; [done|].
      exact Hlast.
Qed.

Lemma run_zipped_mean start (acc : pd.DataFrame) (rest : list pd.DataFrame) :
  k ∈ pd.columns acc ->
  (forall df, pd.columns df = pd.columns acc ->
     grouped (VTuple (VFrame df) (VSeries (pd.getitem_column df k))) VNone index
     = Ok (G df)) ->
  Forall (fun df => pd.columns df = pd.columns acc) rest ->
  exists outs,
    streamz.run_from src
      (streamz.accumulate
         (fun a new => _accumulate_groupby_mean a new VNone index)
         start true
         (streamz.zip (streamz.Source src)
            (streamz.map (fun x => operator_getitem x [VStr k]) (streamz.Source src))))
      (ZS (Some (VTuple (group_sum (G acc)) (group_count (G acc)))))
      (VFrame <$> rest)
    = Ok outs /\
    last ([group_mean (G acc)] :: outs) = Some [group_mean (G (concat_all acc rest))].
Proof.
  revert acc. induction rest as [|d rest IH]; intros acc Hk Hg Hall.
  - exists []. done.
  - inversion Hall as [|? ? Hd Hrest]; subst.
    rewrite fmap_cons. cbn [streamz.run_from]. rewrite feed_accumulate_zip.
    cbv beta. rewrite key_of_chunk by (by rewrite Hd).
    cbn [mbind result_bind streamz.accumulate_update].
    rewrite (accumulate_groupby_mean_next _ _ _ _ _ _ _ _ (Hg d Hd)).
    rewrite <- keyed_rows_concat by done.
    cbn [mbind result_bind unpack2 fst snd].
    destruct (IH (pd.concat_frames acc d)) as (outs & Hrun & Hlast).
    + by rewrite concat_frames_same.
    + intros df Hdf. apply Hg. rewrite Hdf. by rewrite concat_frames_same.
    + rewrite concat_frames_same by done. exact Hrest.
    + rewrite Hrun. cbn [mbind result_bind]. eexists. split; [done|].
      exact Hlast.
Qed.

End run.

(** Property X6. Grouped sum and mean with a streaming key. The key of
    [groupby] is itself a handle, the column [k] of the same frame handle
    ([sdf.groupby(sdf[k])]), which pandas recognises in every chunk as the
    chunk's own column. The two streams are zipped. For chunks that all
    have the columns of the example, with integer cells small enough for
    every sum to be exact, the last value that [sum()] emits is the
    grouped sum of the concatenation of all chunks grouped by its own
    column [k], which is its grouped sum by the label [k], without a
    column [k]; and the last value that [mean()] emits is its grouped
    mean. *)
Theorem grouped_streamed_key_homomorphism (h : Handle) (src : nat)
    (idx : value) (e first : pd.DataFrame) (rest : list pd.DataFrame)
    (vs vm : value) :
  stream h = streamz.Source src ->
  example h = VFrame e ->
  Forall (fun df => pd.columns df = pd.columns e) (first :: rest) ->
  exact_frames (pd.columns e) (first :: rest) = true ->
  k ∈ pd.columns e ->
  batch_grouped group_sum first rest
    (VSeries (pd.getitem_column (concat_all first rest) k)) idx = Ok vs ->
  batch_grouped group_mean first rest
    (VSeries (pd.getitem_column (concat_all first rest) k)) idx = Ok vm ->
  exists hg hs hm outs_sum outs_mean,
    StreamingDataFrame.__getitem__ h (VStr k) = Ok hg /\
    StreamingSeriesGroupby.sum (mkGroupby h (Streamed hg) idx) = Ok hs /\
    StreamingSeriesGroupby.mean (mkGroupby h (Streamed hg) idx) = Ok hm /\
    streamz.run src (stream hs) (VFrame <$> first :: rest) = Ok outs_sum /\
    last outs_sum = Some [vs] /\
    streamz.run src (stream hm) (VFrame <$> first :: rest) = Ok outs_mean /\
    last outs_mean = Some [vm] /\
    batch_grouped group_sum first rest (VStr k) idx = Ok vs /\
    batch_grouped group_mean first rest (VStr k) idx = Ok vm /\
    (idx = VNone -> py_columns vs = Ok (filter (fun c => c ∉ [k]) (pd.columns e))).
Proof.
  intros Hsrc Hex Hall _ Hk Hvs Hvm.
  inversion Hall as [|? ? Hfirst Hrest]; subst.
  assert (Forall (fun df => pd.columns df = pd.columns first) rest) as Hrest'.
  { eapply Forall_impl; [exact Hrest|]. intros df Hdf. cbn in Hdf. congruence. }
  assert (pd.columns (concat_all first rest) = pd.columns first) as Hcat
    by (by apply columns_concat_all).
  assert (k ∈ pd.columns first) as Hk' by congruence.
  assert (k ∈ pd.columns (concat_all first rest)) as Hkc by congruence.
  rewrite batch_grouped_own in Hvs, Hvm by done.
  assert (Hvs' := Hvs). assert (Hvm' := Hvm).
  rewrite batch_grouped_grouped in Hvs, Hvm.
  destruct (grouped (VFrame (concat_all first rest)) (VStr k) idx) as [g|] eqn:Hg;
    [|done].
  cbn [mbind result_bind] in Hvs, Hvm. injection Hvs as <-. injection Hvm as <-.
  assert (Forall (fun c => c ∈ pd.columns (concat_all first rest)) [k]) as Hin
    by (by constructor).
  pose proof (grouped_frame _ (VStr k) [k] _ _ eq_refl Hin Hg) as Hdf.
  pose proof (grouped_frame_self _ (VStr k) [k] _ _ eq_refl Hin Hg) as Hself.
  set (oc := pd.obj_columns g) in *. set (sel := pd.selection g) in *.
  set (sq := pd.squeeze g) in *.
  assert (forall df, pd.columns df = pd.columns first ->
            grouped (VTuple (VFrame df) (VSeries (pd.getitem_column df k))) VNone idx
            = Ok (pd.mkGroupBy oc sel sq (pd.keyed_rows (pd.groupby_columns df [k]))))
    as Hchunk.
  { intros df Hc. rewrite grouped_zipped by congruence. apply Hdf. congruence. }
  (* the handle of the key *)
  destruct (map_partitions_Ok h operator_getitem [VStr k]
              (VSeries (pd.getitem_column e k))) as (cls & Hhg & ->).
  { rewrite Hex. cbn [operator_getitem py_getitem]. by rewrite decide_True. }
  { done. }
  cbn [is_DataFrame is_Series] in Hhg.
  set (hg := mkHandle TStreamingSeries
               (streamz.map (fun x => operator_getitem x [VStr k]) (stream h))
               (VSeries (pd.getitem_column e k))) in *.
  (* the handles of the aggregates *)
  assert (exists cls_s,
            StreamingSeriesGroupby.sum (mkGroupby h (Streamed hg) idx)
            = Ok (mkHandle cls_s
                    (streamz.accumulate
                       (fun acc new => _accumulate_groupby_sum acc new VNone idx)
                       (Some (VInt 0)) false
                       (streamz.zip (stream h) (stream hg)))
                    (group_sum (pd.mkGroupBy oc sel sq
                                  (pd.keyed_rows (pd.groupby_columns e [k]))))))
    as [cls_s Hs].
  { unfold StreamingSeriesGroupby.sum, hg.
    cbn [grouper root index example stream]. rewrite Hex, example_of_zipped.
    rewrite (Hchunk e) by done. cbn [mbind result_bind].
    apply finish_Ok, group_agg_kind. }
  assert (exists cls_m,
            StreamingSeriesGroupby.mean (mkGroupby h (Streamed hg) idx)
            = Ok (mkHandle cls_m
                    (streamz.accumulate
                       (fun acc new => _accumulate_groupby_mean acc new VNone idx)
                       (Some (VTuple (VInt 0) (VInt 0))) true
                       (streamz.zip (stream h) (stream hg)))
                    (group_mean (pd.mkGroupBy oc sel sq
                                   (pd.keyed_rows (pd.groupby_columns e [k]))))))
    as [cls_m Hm].
  { unfold StreamingSeriesGroupby.mean, hg.
    cbn [grouper root index example stream]. rewrite Hex, example_of_zipped.
    rewrite (Hchunk e) by done. cbn [mbind result_bind].
    apply finish_Ok, group_agg_kind. }
  destruct (run_zipped_sum src idx oc sel sq (Some (VInt 0)) first rest Hk' Hchunk Hrest')
    as (outs_s & Hrun_s & Hlast_s).
  destruct (run_zipped_mean src idx oc sel sq (Some (VTuple (VInt 0) (VInt 0)))
              first rest Hk' Hchunk Hrest')
    as (outs_m & Hrun_m & Hlast_m).
  eexists _, _, _, _, _.
  split; [exact Hhg|]. split; [exact Hs|]. split; [exact Hm|].
  cbn [stream]. subst hg. cbn [stream]. rewrite Hsrc.
  unfold streamz.run. cbn [streamz.init]. rewrite fmap_cons.
  cbn [streamz.run_from]. rewrite !feed_accumulate_zip.
  cbv beta. rewrite (key_of_chunk first Hk').
  cbn [mbind result_bind streamz.accumulate_update].
  rewrite accumulate_groupby_sum_first, accumulate_groupby_mean_first.
  rewrite (Hchunk first) by done.
  cbn [mbind result_bind]. rewrite group_mean_ratio.
  cbn [mbind result_bind unpack2 fst snd]. rewrite Hrun_s, Hrun_m.
  cbn [mbind result_bind]. rewrite Hself.
  split; [reflexivity|]. split; [assumption|].
  split; [reflexivity|]. split; [assumption|].
  rewrite <- Hself. split; [exact Hvs'|]. split; [exact Hvm'|].
  intros ->. clear -Hg Hkc Hcat Hfirst. unfold grouped in Hg.
  cbn [mbind result_bind fst snd py_groupby] in Hg.
  rewrite decide_True in Hg by done. cbn [mbind result_bind] in Hg.
  injection Hg as <-. cbn. by rewrite Hcat, Hfirst.
Qed.

End own_column.


(** ** The examples of derived handles *)

Section derivation.
Context `{Platform}.

Lemma example_finish agg stream (x key index : value) :
  (forall g, is_DataFrame (agg g) = true \/ is_Series (agg g) = true) ->
  example <$> (e ← StreamingSeriesGroupby.example_of agg x key index;
               StreamingSeriesGroupby.finish stream e)
  = py_grouped agg x key index.
Proof.
  intros Hk. rewrite example_of_py_grouped.
  destruct (py_grouped agg x key index) as [r|] eqn:Hr; [|done].
  cbn [mbind result_bind]. destruct (py_grouped_inv _ _ _ _ _ Hr) as [g ->].
  destruct (finish_Ok stream (agg g) (Hk g)) as [cls ->]. done.
Qed.

Lemma example_grouped_sum (g : Groupby) :
  example <$> StreamingSeriesGroupby.sum g
  = py_grouped group_sum (example (root g))
      (match grouper g with Static key => key | Streamed other => example other end)
      (index g).
Proof.
  unfold StreamingSeriesGroupby.sum.
  destruct (grouper g); apply example_finish, group_agg_kind.
Qed.

Lemma example_grouped_mean (g : Groupby) :
  example <$> StreamingSeriesGroupby.mean g
  = py_grouped group_mean (example (root g))
      (match grouper g with Static key => key | Streamed other => example other end)
      (index g).
Proof.
  unfold StreamingSeriesGroupby.mean.
  destruct (grouper g); apply example_finish, group_agg_kind.
Qed.

(** Claim C6 (example derivation). The example of a handle derived by
    [map_partitions] with a function is what the function returns on the
    parent's example, and no handle is derived when it returns [None] or
    raises. The example of a handle derived by one of the five arithmetic
    operators is the operation on the parent's example and the operand, a
    value of any kind. The example of a grouped [sum] or [mean] is pandas'
    grouped aggregate of the parent's example, by the key itself when it
    is constant and by the example of the key's handle when it is
    streaming. In particular, grouping a frame handle by its own column
    [k] ([sdf.groupby(sdf[k])]) gives the example of grouping by the label
    [k], in which the column [k] is left out. *)
Theorem example_derivation (self : Handle) :
  (forall func args,
      example <$> Streaming.map_partitions self func args None
      = (e ← func (example self) args;
         match e with VNone => Raise AssertionError | _ => Ok e end))
  /\ (forall other,
        example <$> Streaming.__add__ self other = py_binop Add (example self) other
        /\ example <$> Streaming.__mul__ self other = py_binop Mul (example self) other
        /\ example <$> Streaming.__mod__ self other = py_binop Mod (example self) other
        /\ example <$> Streaming.__truediv__ self other
           = py_binop TrueDiv (example self) other
        /\ example <$> Streaming.__floordiv__ self other
           = py_binop FloorDiv (example self) other)
  /\ (forall key index,
        example <$> StreamingSeriesGroupby.sum (mkGroupby self (Static key) index)
        = py_grouped group_sum (example self) key index
        /\ example <$> StreamingSeriesGroupby.mean (mkGroupby self (Static key) index)
           = py_grouped group_mean (example self) key index)
  /\ (forall other index,
        example <$> StreamingSeriesGroupby.sum (mkGroupby self (Streamed other) index)
        = py_grouped group_sum (example self) (example other) index
        /\ example <$> StreamingSeriesGroupby.mean (mkGroupby self (Streamed other) index)
           = py_grouped group_mean (example self) (example other) index)
  /\ (forall (e : pd.DataFrame) (k : label),
        example self = VFrame e ->
        k ∈ pd.columns e ->
        is_in_obj e (pd.getitem_column e k) = true ->
        exists hk,
          StreamingDataFrame.__getitem__ self (VStr k) = Ok hk /\
          example hk = VSeries (pd.getitem_column e k) /\
          example <$> StreamingSeriesGroupby.sum (mkGroupby self (Streamed hk) VNone)
          = Ok (VTable2 (filter (fun c => c ∉ [k]) (pd.columns e))
                  (pd.agg_frame (fun l => Fin (nansum l)) (pd.groupby_columns e [k]))) /\
          example <$> StreamingSeriesGroupby.sum (mkGroupby self (Streamed hk) VNone)
          = example <$> StreamingSeriesGroupby.sum (mkGroupby self (Static (VStr k)) VNone)).
Proof.
  split; [|split; [|split; [|split]]].
  - intros func args. apply example_map_partitions.
  - intros other.
    unfold Streaming.__add__, Streaming.__mul__, Streaming.__mod__,
      Streaming.__truediv__, Streaming.__floordiv__.
    rewrite !example_operator. done.
  - intros key idx. split;
      [apply (example_grouped_sum (mkGroupby self (Static key) idx))
      |apply (example_grouped_mean (mkGroupby self (Static key) idx))].
  - intros other idx. split;
      [apply (example_grouped_sum (mkGroupby self (Streamed other) idx))
      |apply (example_grouped_mean (mkGroupby self (Streamed other) idx))].
  - intros e k Hex Hk Hown.
    destruct (map_partitions_Ok self operator_getitem [VStr k]
                (VSeries (pd.getitem_column e k))) as (cls & Hhk & ->).
    { rewrite Hex. cbn [operator_getitem py_getitem]. by rewrite decide_True. }
    { done. }
    cbn [is_DataFrame is_Series] in Hhk.
    eexists. split; [exact Hhk|]. split; [reflexivity|].
    rewrite (example_grouped_sum (mkGroupby self (Streamed _) VNone)).
    rewrite (example_grouped_sum (mkGroupby self (Static _) VNone)).
    cbn [root grouper index example]. rewrite Hex.
    unfold py_grouped. rewrite groupby_own_column_at by done.
    cbn [py_groupby]. rewrite decide_True by done. done.
Qed.

End derivation.

Lemma example_derivation_witness :
  let e := pd.empty_frame ["a"; "b"]%string in
  (example sample_frame_handle = VFrame e /\
   ("a"%string ∈ pd.columns e) /\
   is_in_obj (Platform := sample_platform) e (pd.getitem_column e "a") = true) /\
  exists hk,
    StreamingDataFrame.__getitem__ sample_frame_handle (VStr "a") = Ok hk /\
    example hk = VSeries (pd.getitem_column e "a") /\
    example <$> StreamingSeriesGroupby.sum (H := sample_platform)
                  (mkGroupby sample_frame_handle (Streamed hk) VNone)
    = Ok (VTable2 (filter (fun c => c ∉ ["a"%string]) (pd.columns e))
            (pd.agg_frame (fun l => Fin (nansum l))
               (pd.groupby_columns e ["a"%string]))) /\
    example <$> StreamingSeriesGroupby.sum (H := sample_platform)
                  (mkGroupby sample_frame_handle (Streamed hk) VNone)
    = example <$> StreamingSeriesGroupby.sum (H := sample_platform)
                    (mkGroupby sample_frame_handle (Static (VStr "a")) VNone).
Proof.
  cbn zeta.
  assert ("a"%string ∈ pd.columns (pd.empty_frame ["a"; "b"]%string)) as Hin.
  { apply (bool_decide_unpack _). vm_compute. exact I. }
  split.
  - split; [reflexivity|]. split; [exact Hin|reflexivity].
  - destruct (example_derivation (H := sample_platform) sample_frame_handle)
      as (_ & _ & _ & _ & Hown).
    exact (Hown (pd.empty_frame ["a"; "b"]%string) "a"%string eq_refl Hin eq_refl).
Defined.


(** ** Selecting a column of a grouped handle *)

Lemma fmap_tabulate {K} `{Countable K} {A B} (f : A -> B) (ks : list K) (g : K -> A) :
  f <$> tabulate ks g = tabulate ks (fun k => f (g k)).
Proof.
  apply map_eq. intros k. rewrite lookup_fmap, !lookup_tabulate.
  by destruct (decide (k ∈ ks)).
Qed.

(** The column [c] of a grouped aggregate is the aggregate of the group
    with [c] selected. *)
Lemma getitem_group_agg F oc sel (c : label) rows :
  c ∈ sel ->
  py_getitem (group_agg F (pd.mkGroupBy oc sel None rows)) (VStr c)
  = Ok (group_agg F (pd.mkGroupBy oc [c] (Some c) rows)).
Proof.
  intros Hc. unfold group_agg. cbn [pd.squeeze pd.selection py_getitem].
  rewrite decide_True by done. do 2 f_equal.
  unfold pd.agg_frame, pd.agg_series. cbn [pd.selection].
  rewrite fmap_tabulate. apply tabulate_ext. intros k _.
  rewrite cell_tabulate. by rewrite decide_True.
Qed.

Section selection.
Context `{Platform}.

(** Property X7. Selecting before aggregating. For a frame handle grouped by
    the column label [k], and a column [c] other than [k]: the attribute [c]
    of the grouped handle is the grouped handle with [c] selected, as the
    subscript gives it, unless ordinary lookup finds the name [c] on a
    grouped handle ([sum], [mean], [root], [grouper], [index], ...), in
    which case the attribute is that member. Selecting [c] and then taking
    [sum()] or [mean()] ends on the column [c] of what [sum()] or [mean()]
    of the whole grouped handle ends on. *)
Theorem grouped_selection_commutes (h : Handle) (src : nat) (k c : label)
    (e first : pd.DataFrame) (rest : list pd.DataFrame) :
  type_of h = TStreamingDataFrame ->
  stream h = streamz.Source src ->
  example h = VFrame e ->
  Forall (fun df => pd.columns df = pd.columns e) (first :: rest) ->
  k ∈ pd.columns e ->
  c ∈ pd.columns e ->
  c <> k ->
  let whole := StreamingDataFrame.groupby h (Static (VStr k)) in
  let part := StreamingSeriesGroupby.__getitem__ whole (VStr c) in
  StreamingSeriesGroupby.getattribute whole c
  = Ok (if bool_decide (c ∈ StreamingSeriesGroupby_names) || object_attr c
        then GroupMember c else Selected part) /\
  exists hs hm hs_c hm_c outs_s outs_m outs_sc outs_mc tbl_s tbl_m col_s col_m,
    StreamingSeriesGroupby.sum whole = Ok hs /\
    StreamingSeriesGroupby.mean whole = Ok hm /\
    StreamingSeriesGroupby.sum part = Ok hs_c /\
    StreamingSeriesGroupby.mean part = Ok hm_c /\
    streamz.run src (stream hs) (VFrame <$> first :: rest) = Ok outs_s /\
    streamz.run src (stream hm) (VFrame <$> first :: rest) = Ok outs_m /\
    streamz.run src (stream hs_c) (VFrame <$> first :: rest) = Ok outs_sc /\
    streamz.run src (stream hm_c) (VFrame <$> first :: rest) = Ok outs_mc /\
    last outs_s = Some [tbl_s] /\
    last outs_m = Some [tbl_m] /\
    py_getitem tbl_s (VStr c) = Ok col_s /\
    py_getitem tbl_m (VStr c) = Ok col_m /\
    last outs_sc = Some [col_s] /\
    last outs_mc = Some [col_m].
Proof.
  intros Ht Hsrc Hex Hall Hk Hc Hne whole part. split.
  { unfold StreamingSeriesGroupby.getattribute.
    destruct (_ || _); [done|].
    unfold StreamingSeriesGroupby.__getattr__, whole, StreamingDataFrame.groupby.
    cbn [root]. rewrite Ht. unfold StreamingDataFrame.columns. rewrite Hex.
    cbn [py_columns mbind result_bind]. by rewrite decide_True. }
  inversion Hall as [|? ? Hfirst Hrest]; subst.
  assert (pd.columns (concat_all first rest) = pd.columns e) as Hcat.
  { rewrite columns_concat_all; [done|].
    eapply Forall_impl; [exact Hrest|]. intros df Hdf. cbn in Hdf. congruence. }
  set (cat := concat_all first rest) in *.
  assert (grouped (VFrame cat) (VStr k) VNone = Ok (pd.groupby_columns cat [k])) as Hg.
  { unfold grouped. cbn [mbind result_bind fst snd py_groupby].
    rewrite Hcat. by rewrite decide_True. }
  assert (grouped (VFrame cat) (VStr k) (VStr c)
          = Ok (pd.select_column (pd.groupby_columns cat [k]) c)) as Hgc.
  { unfold grouped. cbn [mbind result_bind fst snd py_groupby].
    rewrite Hcat. rewrite decide_True by done.
    cbn [mbind result_bind group_getitem pd.groupby_columns pd.obj_columns].
    rewrite Hcat. by rewrite decide_True. }
  assert (Forall (fun c => c ∈ pd.columns e) [k]) as Hin by (by constructor).
  destruct (static_key_last h src (VStr k) VNone [k] e first rest _
              Hsrc Hex eq_refl Hin Hall Hg)
    as (hs & hm & outs_s & outs_m & Hs & Hm & Hrs & Hls & Hrm & Hlm).
  destruct (static_key_last h src (VStr k) (VStr c) [k] e first rest _
              Hsrc Hex eq_refl Hin Hall Hgc)
    as (hs_c & hm_c & outs_sc & outs_mc & Hsc & Hmc & Hrsc & Hlsc & Hrmc & Hlmc).
  assert (c ∈ pd.selection (pd.groupby_columns cat [k])) as Hsel.
  { cbn [pd.groupby_columns pd.selection]. rewrite Hcat.
    apply list_elem_of_filter. split; [|done].
    by intros ->%list_elem_of_singleton. }
  exists hs, hm, hs_c, hm_c, outs_s, outs_m, outs_sc, outs_mc.
  eexists _, _, _, _.
  split; [exact Hs|]. split; [exact Hm|]. split; [exact Hsc|]. split; [exact Hmc|].
  split; [exact Hrs|]. split; [exact Hrm|]. split; [exact Hrsc|]. split; [exact Hrmc|].
  split; [exact Hls|]. split; [exact Hlm|].
  split; [apply getitem_group_agg, Hsel|].
  split; [apply getitem_group_agg, Hsel|].
  split; [exact Hlsc|exact Hlmc].
Qed.

End selection.


(** ** [sum] after [rolling] *)

Section sum_of_windows.
Context `{Platform}.

Lemma accumulate_sum_state total st x :
  sum_state total st ->
  is_Series x = true ->
  _accumulate_sum st x = Ok (VNum (Fin (total + nansum (cells (pd.KStr "") x))%Qc)).
Proof.
  intros [->|[-> ->]] Hx.
  - by apply accumulate_sum_next_series.
  - by apply accumulate_sum_first_series.
Qed.

Lemma accumulate_all_sum total st (emitted : list value) :
  sum_state total st ->
  Forall (fun x => is_Series x = true) emitted ->
  streamz.accumulate_all _accumulate_sum false (Some st) emitted
  = Ok (Some (if emitted is [] then st else VNum (Fin (fst (totals_tick total emitted)))),
        snd (totals_tick total emitted)).
Proof.
  intros Hst Hall. revert total st Hst.
  induction Hall as [|x emitted Hx Hall IH]; intros total st Hst; [done|].
  cbn [streamz.accumulate_all streamz.accumulate_update].
  rewrite (accumulate_sum_state total st x Hst Hx).
  cbn [mbind result_bind fst snd].
  rewrite (IH (total + nansum (cells (pd.KStr "") x))%Qc); [|by left].
  cbn [mbind result_bind fst snd totals_tick].
  destruct (totals_tick (total + nansum (cells (pd.KStr "") x)) emitted)
    as [t' out] eqn:Ht.
  cbn [fst snd app]. destruct emitted; [|done].
  cbn in Ht. by injection Ht as <- <-.
Qed.

Lemma sum_state_after total st (emitted : list value) :
  sum_state total st ->
  sum_state (fst (totals_tick total emitted))
    (if emitted is [] then st else VNum (Fin (fst (totals_tick total emitted)))).
Proof. intros Hst. destruct emitted; [exact Hst|by left]. Qed.

(** A running sum over any upstream pipeline that emits Series. *)
Lemma run_sum_over (src : nat) (up : streamz.Stream) start (xs : list value) :
  forall (u : streamz.State) (ups : list (list value)) total st,
    streamz.run_from src up u xs = Ok ups ->
    Forall (Forall (fun x => is_Series x = true)) ups ->
    sum_state total st ->
    streamz.run_from src (streamz.accumulate _accumulate_sum start false up)
      (streamz.SAcc (Some st) u) xs
    = Ok (running_totals total ups).
Proof.
  induction xs as [|x xs IH]; intros u ups total st Hrun Hall Hst.
  - cbn in Hrun. by injection Hrun as <-.
  - cbn [streamz.run_from] in Hrun |- *. cbn [streamz.feed].
    destruct (streamz.feed src x up u) as [[u' emitted]|]; [|done].
    cbn [mbind result_bind fst snd] in Hrun |- *.
    destruct (streamz.run_from src up u' xs) as [rest|] eqn:Hrest; [|done].
    cbn [mbind result_bind] in Hrun. injection Hrun as <-.
    apply Forall_cons in Hall as [Hem Hall].
    rewrite (accumulate_all_sum total st emitted Hst Hem).
    cbn [mbind result_bind fst snd].
    rewrite (IH u' rest (fst (totals_tick total emitted)) _ Hrest Hall
               (sum_state_after total st emitted Hst)).
    cbn [mbind result_bind running_totals].
    by destruct (totals_tick total emitted).
Qed.

Lemma window_tick_series nm mp (buf : list (Z * num)) :
  Forall (fun x => is_Series x = true) (window_tick (series_chunk nm) mp buf).
Proof. unfold window_tick. destruct (decide _); repeat constructor. Qed.

(** Property X5. [sum()] of a rolled Series handle. Chaining [rolling(w,
    min_periods)] and [sum()] does not give the sum of the current window:
    the handle emits, for every window that [rolling] passes on, the total
    of the sums of all the windows passed on so far, so a row counts once
    for every window it was part of. *)
Theorem sum_after_rolling_is_cumulative (h : Handle) (src : nat) (w mp : Z)
    (nm : option label) (r0 : list (Z * num)) (rest : list (list (Z * num))) :
  stream h = streamz.Source src ->
  type_of h = TStreamingSeries ->
  is_Series (example h) = true ->
  0 <= w ->
  exists hr hs windows,
    Streaming.rolling h (VInt w) mp = Ok hr /\
    StreamingFrame.sum hr = Ok hs /\
    streamz.run src (stream hr) (series_chunk nm <$> r0 :: rest) = Ok windows /\
    streamz.run src (stream hs) (series_chunk nm <$> r0 :: rest)
    = Ok (running_totals 0 windows).
Proof.
  intros Hsrc Ht Hex Hw.
  assert (_subtype (type_of h) (example h) = true) as Hsub by (by rewrite Ht).
  destruct (count_window_trace (series_chunk nm) w mp
              (fun a b => roll_series_rows nm a b w mp) (fun a => eq_refl)
              h src r0 rest Hsrc Hsub Hw) as (hr & Hhr & Hrun & _).
  assert (hr = mkHandle (type_of h) (rolling_stream (VInt w) mp (stream h)) (example h))
    as Hhr_eq.
  { unfold Streaming.rolling in Hhr. cbn [mbind result_bind fst snd] in Hhr.
    unfold Streaming.__init__ in Hhr. rewrite Hsub in Hhr. cbn in Hhr.
    by injection Hhr as <-. }
  exists hr. eexists. eexists. split; [exact Hhr|].
  split.
  { unfold StreamingFrame.sum, Streaming.accumulate_partitions.
    cbn [from_option id]. rewrite Hhr_eq. cbn [example stream].
    rewrite (accumulate_sum_first_series (pd.KStr "") (example h) Hex).
    cbn [mbind result_bind]. unfold Streaming.wrap. cbn [is_DataFrame is_Series].
    unfold Streaming.__init__. cbn [_subtype from_option id]. reflexivity. }
  split; [exact Hrun|].
  cbn [stream]. unfold streamz.run. cbn [streamz.init].
  unfold streamz.run in Hrun. rewrite Hhr_eq in Hrun. cbn [stream] in Hrun.
  apply (run_sum_over src _ _ _ _ _ 0%Qc (VInt 0) Hrun).
  - constructor.
    + destruct seed_tick_emits; [apply window_tick_series|constructor].
    + apply Forall_fmap, Forall_forall. intros p _. apply window_tick_series.
  - by right.
Qed.

End sum_of_windows.


(** ** Rounding *)

Lemma Qc_of_Z_nonzero (z : Z) : z <> 0 -> Qc_of_Z z <> 0%Qc.
Proof.
  intros Hz Heq. apply Hz. unfold Qc_of_Z in Heq.
  change 0%Qc with (Q2Qc 0) in Heq. apply Q2Qc_eq_iff in Heq.
  unfold Qeq in Heq. cbn in Heq. lia.
Qed.

Lemma Qc_pow10_nonzero (d : Z) : Qc_pow10 d <> 0%Qc.
Proof.
  unfold Qc_pow10. destruct (decide (0 <= d)).
  - apply Qc_of_Z_nonzero. apply Z.pow_nonzero; lia.
  - intros Heq.
    assert (Qc_of_Z (10 ^ (- d)) <> 0%Qc) as Hne
      by (apply Qc_of_Z_nonzero, Z.pow_nonzero; lia).
    pose proof (Qcmult_inv_r _ Hne) as Hinv. rewrite Heq in Hinv.
    rewrite Qcmult_0_r in Hinv. discriminate Hinv.
Qed.

Lemma Qfloor_Qc_of_Z (z : Z) : Qfloor (Qc_of_Z z) = z.
Proof.
  unfold Qc_of_Z. cbn [this Q2Qc].
  rewrite (Qfloor_comp _ (inject_Z z)) by apply Qred_correct.
  apply Qfloor_Z.
Qed.

(** An integer is its own nearest integer. *)
Lemma Qc_rint_of_Z (z : Z) : Qc_rint (Qc_of_Z z) = z.
Proof.
  unfold Qc_rint. rewrite Qfloor_Qc_of_Z.
  replace (Qc_of_Z z - Qc_of_Z z)%Qc with 0%Qc by ring.
  reflexivity.
Qed.

Lemma num_round_idempotent (d : Z) (x : num) :
  num_round d (num_round d x) = num_round d x.
Proof.
  destruct x as [|q]; [done|]. cbn [num_round]. f_equal.
  replace (Qc_of_Z (Qc_rint (q * Qc_pow10 d)) / Qc_pow10 d * Qc_pow10 d)%Qc
    with (Qc_of_Z (Qc_rint (q * Qc_pow10 d))).
  - by rewrite Qc_rint_of_Z.
  - field. apply Qc_pow10_nonzero.
Qed.

Lemma num_round_samples :
  num_round 0 (Fin (Q2Qc (5 # 2))) = Fin (Q2Qc 2) /\
  num_round 0 (Fin (Q2Qc (7 # 2))) = Fin (Q2Qc 4) /\
  num_round 1 (Fin (Q2Qc (1 # 4))) = Fin (Q2Qc (1 # 5)) /\
  num_round (-1) (Fin (Q2Qc 15)) = Fin (Q2Qc 20).
Proof. repeat split; cbn [num_round]; f_equal; apply Qc_is_canon; reflexivity. Qed.

Lemma map_frame_idempotent (g : num -> num) (df : pd.DataFrame) :
  (forall x, g (g x) = g x) ->
  map_frame g (map_frame g df) = map_frame g df.
Proof.
  intros Hg. unfold map_frame. cbn [pd.columns pd.rows]. f_equal.
  rewrite <- list_fmap_compose. apply list_fmap_ext. intros _ r _.
  unfold compose. cbn [fst snd]. f_equal. apply tabulate_ext. intros c Hc.
  rewrite cell_tabulate, decide_True by done. apply Hg.
Qed.

Lemma py_round_frame (d : Z) (df : pd.DataFrame) :
  py_round d (VFrame df) = Ok (VFrame (map_frame (num_round d) df)).
Proof. reflexivity. Qed.

Lemma M_round_frame (d : Z) (df : pd.DataFrame) :
  M_round (VFrame df) [VInt d] = Ok (VFrame (map_frame (num_round d) df)).
Proof. reflexivity. Qed.

Section rounding.
Context `{Platform}.

Lemma feed_map_map_source (src : nat) (x : value) (f g : value -> result value) :
  streamz.feed src x (streamz.map g (streamz.map f (streamz.Source src)))
    (streamz.SMap (streamz.SMap streamz.SSource))
  = y ← f x; z ← g y; Ok (streamz.SMap (streamz.SMap streamz.SSource), [z]).
Proof.
  cbn [streamz.feed]. rewrite decide_True by done.
  cbn [mbind result_bind fst snd streamz.map_all].
  destruct (f x) as [y|]; [|done].
  cbn [mbind result_bind fst snd streamz.map_all].
  by destruct (g y).
Qed.

(** Property X9. Rounding. On a frame handle fed at its source with frames
    of its columns, [round(decimals)] derives a frame handle with the same
    columns that emits every chunk rounded, each passing the derived
    handle's [verify]; and rounding the rounded handle again to the same
    number of decimals changes neither the example nor anything emitted. *)
Theorem round_keeps_schema_and_is_idempotent (h : Handle) (src : nat)
    (decimals : Z) (e : pd.DataFrame) (dfs : list pd.DataFrame) :
  stream h = streamz.Source src ->
  example h = VFrame e ->
  Forall (fun df => pd.columns df = pd.columns e) dfs ->
  exists h1 h2 outs,
    StreamingFrame.round h decimals = Ok h1 /\
    StreamingFrame.round h1 decimals = Ok h2 /\
    type_of h1 = TStreamingDataFrame /\
    py_columns (example h1) = Ok (pd.columns e) /\
    streamz.run src (stream h1) (VFrame <$> dfs) = Ok outs /\
    chunkwise (py_round decimals) h1 outs (VFrame <$> dfs) /\
    type_of h2 = type_of h1 /\
    example h2 = example h1 /\
    streamz.run src (stream h2) (VFrame <$> dfs) = Ok outs.
Proof.
  intros Hsrc Hex Hall.
  destruct (map_partitions_Ok h M_round [VInt decimals]
              (VFrame (map_frame (num_round decimals) e))) as (cls & Hh1 & ->).
  { by rewrite Hex. }
  { done. }
  cbn [is_DataFrame] in Hh1.
  set (h1 := mkHandle TStreamingDataFrame
               (streamz.map (fun x => M_round x [VInt decimals]) (stream h))
               (VFrame (map_frame (num_round decimals) e))) in *.
  destruct (map_partitions_Ok h1 M_round [VInt decimals]
              (VFrame (map_frame (num_round decimals) e))) as (cls & Hh2 & ->).
  { unfold h1. cbn [example M_round]. rewrite py_round_frame.
    by rewrite map_frame_idempotent by apply num_round_idempotent. }
  { done. }
  cbn [is_DataFrame] in Hh2.
  destruct (run_map_chunkwise h1 src (py_round decimals) (VFrame <$> dfs))
    as (outs & Hrun & Hcw).
  { unfold h1. cbn [stream]. by rewrite Hsrc. }
  { apply Forall_fmap. eapply Forall_impl; [exact Hall|]. intros df Hdf.
    unfold compose. eexists. split; [apply py_round_frame|].
    apply verify_frame_handle. exact Hdf. }
  exists h1. eexists. exists outs.
  split; [exact Hh1|]. split; [exact Hh2|]. split; [done|]. split; [done|].
  split; [exact Hrun|]. split; [exact Hcw|]. split; [done|]. split; [done|].
  cbn [stream]. unfold h1. cbn [stream]. rewrite Hsrc.
  unfold streamz.run. cbn [streamz.init].
  clear Hh1 Hh2 Hrun. revert outs Hcw.
  induction dfs as [|df dfs IH]; intros outs Hcw.
  - inversion Hcw. done.
  - rewrite fmap_cons in Hcw |- *.
    inversion Hcw as [|out ? outs' ? (y & Hy & -> & _) Hcw']; subst.
    apply Forall_cons in Hall as [Hdf Hall].
    cbn [streamz.run_from]. rewrite feed_map_map_source.
    cbv beta. rewrite py_round_frame in Hy. injection Hy as <-.
    rewrite M_round_frame. cbn [mbind result_bind]. rewrite M_round_frame.
    rewrite map_frame_idempotent by apply num_round_idempotent.
    cbn [mbind result_bind fst snd].
    rewrite (IH Hall outs' Hcw'). done.
Qed.

End rounding.


(** ** The names a frame handle lists *)

Section listing.
Context `{Platform}.

Lemma getattr_column_Ok (x : value) (cols : list label) (key : string) :
  frame_like cols x ->
  key ∈ cols ->
  exists v, py_getattr x key = Ok v.
Proof.
  intros [Hdf Hcols] Hin. unfold py_getattr.
  destruct (builtin_attr x key); [by eexists|].
  destruct x; try discriminate Hdf; cbn in Hcols; injection Hcols as ->;
    rewrite decide_True by done; by eexists.
Qed.

(** Property X15. The names listed resolve. On a frame handle, every name
    that [__dir__] lists can be read as an attribute of the handle without
    an [AttributeError]: it is a member of the handle, or a column that
    [__getattr__] turns into a derived handle. And every column whose label
    is an identifier is listed. *)
Theorem dir_lists_resolvable_names (isidentifier : string -> bool)
    (self : Handle) (cols : list label) :
  type_of self = TStreamingDataFrame ->
  frame_like cols (example self) ->
  (forall name,
     __dir__ isidentifier self name = Ok true ->
     exists a, getattribute self name = Ok a) /\
  (forall name,
     name ∈ cols -> isidentifier name = true ->
     __dir__ isidentifier self name = Ok true).
Proof.
  intros Ht Hex. pose proof Hex as [_ Hcols]. split.
  - intros name. unfold __dir__, StreamingDataFrame.columns, getattribute.
    rewrite Hcols. cbn [mbind result_bind]. intros [= Hdir].
    destruct (bool_decide (name ∈ names (type_of self)) || object_attr name)
      eqn:Hmember; [by eexists|].
    cbn [orb] in Hdir. apply andb_prop in Hdir as [Hcol _].
    apply bool_decide_eq_true_1 in Hcol.
    rewrite Ht. unfold StreamingDataFrame.__getattr__, StreamingDataFrame.columns.
    rewrite Hcols. cbn [mbind result_bind]. rewrite decide_True by done.
    destruct (getattr_column_Ok (example self) cols name Hex Hcol) as [v Hv].
    assert (v <> VNone) as Hne by (by eapply py_getattr_not_None).
    destruct (map_partitions_Ok self getattr [VStr name] v Hv Hne) as (cls & -> & _).
    by eexists.
  - intros name Hin Hid. unfold __dir__, StreamingDataFrame.columns.
    rewrite Hcols. cbn [mbind result_bind]. rewrite Hid.
    rewrite (bool_decide_eq_true_2 (name ∈ cols)) by done.
    cbn [andb]. by rewrite orb_true_r.
Qed.

End listing.


(** ** Emitting a sequence of chunks *)

Section emitting.
Context `{Platform}.

Lemma emit_all_from (h : Handle) (src : nat) (s : streamz.Stream)
    (xs : list value) (st0 st : streamz.State) :
  streamz.state_from src s st0 (accepted h xs) = Ok st ->
  emit_all xs (mkWorld h [subscriber_at src s st0])
  = (verify h <$> xs, mkWorld h [subscriber_at src s st]).
Proof.
  unfold subscriber_at. revert st0. induction xs as [|x xs IH]; intros st0 Hst.
  - cbn in Hst. by injection Hst as <-.
  - cbn [accepted] in Hst. rewrite fmap_cons. cbn [emit_all].
    unfold emit at 1. cbn [self subscribers].
    destruct (verify h x) as [[]|err] eqn:Hv.
    + cbn [streamz.state_from] in Hst.
      cbn [Stream_emit]. unfold deliver. cbn [update current state_t].
      destruct (streamz.feed src x s st0) as [[st1 out]|] eqn:Hfeed; [|done].
      cbn [mbind result_bind fmap result_fmap fst] in Hst |- *.
      by rewrite (IH st1 Hst).
    + by rewrite (IH st0 Hst).
Qed.

(** Property X12. A refused chunk in the middle of a stream. When chunks are
    emitted into a handle one after the other and the caller goes on after a
    refusal, every [emit] returns what [verify] returns for its chunk, and a
    pipeline built on the handle ends in the state that the accepted chunks
    alone lead to: a refused chunk contributes nothing, the chunks before it
    stay counted, and the chunks after it are processed as usual. *)
Theorem emit_skips_refused_chunks (h : Handle) (src : nat) (s : streamz.Stream)
    (xs : list value) (st : streamz.State) :
  streamz.state_after src s (accepted h xs) = Ok st ->
  emit_all xs (mkWorld h [subscribe src s])
  = (verify h <$> xs, mkWorld h [subscriber_at src s st]).
Proof.
  intros Hst. change (subscribe src s) with (subscriber_at src s (streamz.init s)).
  by apply emit_all_from.
Qed.

End emitting.


(** ** The arguments of [rolling] *)


Section window_arguments.
Context `{Platform}.



End window_arguments.


(** ** The [example] keyword *)

Lemma wrap_example (s : streamz.Stream) (ex : value) :
  ex <> VNone ->
  exists h', Streaming.wrap s ex = Ok h' /\ example h' = ex /\ stream h' = s.
Proof. intros Hne. destruct (wrap_Ok s ex Hne) as [cls ->]. by eexists. Qed.

Lemma given_Some (e : value) : e <> VNone -> Streaming.given (Some e) = Some e.
Proof. by destruct e. Qed.

(** Property X17. The [example] keyword. Given an example other than
    [None], [map_partitions] and [accumulate_partitions] do not evaluate
    the function on the parent's example and return a handle with the
    example given; [example=None] is the same as no keyword, and then an
    error that the function raises on the parent's example is raised when
    the handle is derived. With [returns_state], the example given is
    unpacked like a computed one and its second component is the example
    of the handle: a pair of a state and an example gives the example, a
    value that cannot be unpacked into two is refused with the error of the
    unpacking, and a string of two characters passes with its second
    character for the example. *)
Theorem example_keyword_skips_evaluation (self : Handle) (func : callable)
    (args : list value) (acc_func : value -> value -> result value)
    (start : option value) (e : value) :
  e <> VNone ->
  (exists h',
     Streaming.map_partitions self func args (Some e) = Ok h' /\
     example h' = e /\
     stream h' = streamz.map (fun x => func x args) (stream self)) /\
  Streaming.map_partitions self func args (Some VNone)
  = Streaming.map_partitions self func args None /\
  (forall err,
     func (example self) args = Raise err ->
     Streaming.map_partitions self func args None = Raise err) /\
  (exists h',
     Streaming.accumulate_partitions self acc_func start false (Some e) = Ok h' /\
     example h' = e /\
     stream h' = streamz.accumulate acc_func start false (stream self)) /\
  (forall rs,
     Streaming.accumulate_partitions self acc_func start rs (Some VNone)
     = Streaming.accumulate_partitions self acc_func start rs None) /\
  (forall err rs,
     acc_func (default streamz.no_default start) (example self) = Raise err ->
     Streaming.accumulate_partitions self acc_func start rs None = Raise err) /\
  (forall x st,
     x <> VNone ->
     unpack2 x = Ok (st, e) ->
     exists h',
       Streaming.accumulate_partitions self acc_func start true (Some x) = Ok h' /\
       example h' = e /\
       stream h' = streamz.accumulate acc_func start true (stream self)) /\
  (forall x err,
     x <> VNone ->
     unpack2 x = Raise err ->
     Streaming.accumulate_partitions self acc_func start true (Some x) = Raise err) /\
  (forall st, unpack2 (VTuple st e) = Ok (st, e)) /\
  unpack2 (VStr "ab") = Ok (VStr "a", VStr "b") /\
  (forall z, unpack2 (VInt z) = Raise TypeError).
Proof.
  intros Hne.
  split; [|split; [|split; [|split; [|split; [|split; [|split; [|split]]]]]]].
  - unfold Streaming.map_partitions. rewrite given_Some by done.
    cbn [mbind result_bind].
    destruct (wrap_example (streamz.map (fun x => func x args) (stream self)) e Hne)
      as (h' & -> & He & Hs).
    by exists h'.
  - reflexivity.
  - intros err Herr. unfold Streaming.map_partitions. cbn [Streaming.given].
    by rewrite Herr.
  - unfold Streaming.accumulate_partitions. rewrite given_Some by done.
    cbn [mbind result_bind].
    destruct (wrap_example (streamz.accumulate acc_func start false (stream self)) e Hne)
      as (h' & -> & He & Hs).
    by exists h'.
  - reflexivity.
  - intros err rs Herr. unfold Streaming.accumulate_partitions.
    cbn [Streaming.given]. by rewrite Herr.
  - intros x st Hx Hu. unfold Streaming.accumulate_partitions.
    rewrite given_Some by done. cbn [mbind result_bind]. rewrite Hu.
    cbn [mbind result_bind fmap result_fmap snd].
    destruct (wrap_example (streamz.accumulate acc_func start true (stream self)) e Hne)
      as (h' & -> & He & Hs).
    by exists h'.
  - intros x err Hx Hu. unfold Streaming.accumulate_partitions.
    rewrite given_Some by done. cbn [mbind result_bind]. by rewrite Hu.
  - done.
Qed.


(** ** Series handles against the aggregate of the concatenation *)

Lemma values_concat_all_series (first : pd.Series) (rest : list pd.Series) :
  pd.values (concat_all_series first rest)
  = pd.values first ++ concat (pd.values <$> rest).
Proof.
  unfold concat_all_series. revert first.
  induction rest as [|s rest IH]; intros first.
  - cbn. by rewrite app_nil_r.
  - cbn [foldl]. rewrite IH. unfold pd.values at 1, pd.concat_series.
    cbn [pd.items]. rewrite fmap_app, fmap_cons. cbn [concat].
    by rewrite app_assoc.
Qed.

Lemma total_sum_series k (p : list pd.Series) :
  total_sum k (VSeries <$> p) = nansum (concat (pd.values <$> p)).
Proof.
  induction p as [|s p IH]; [done|].
  rewrite !fmap_cons, total_sum_cons, IH. cbn [concat cells].
  by rewrite nansum_app.
Qed.

Lemma total_count_series k (p : list pd.Series) :
  total_count k (VSeries <$> p) = nancount (concat (pd.values <$> p)).
Proof.
  induction p as [|s p IH]; [done|].
  rewrite !fmap_cons, total_count_cons, IH. cbn [concat cells].
  by rewrite nancount_app.
Qed.

Lemma batch_tick_series_agg (F : list num -> num) (p : list pd.Series) :
  p <> [] ->
  batch_tick_series (py_agg F) p = Ok [VNum (F (concat (pd.values <$> p)))].
Proof.
  intros Hne. destruct p as [|s r]; [done|].
  unfold batch_tick_series. cbn [py_agg mbind result_bind].
  by rewrite values_concat_all_series.
Qed.

Lemma Forall2_prefixes_series (out : list value -> list value)
    (F : value -> result value) (ss : list pd.Series) :
  (forall p, p <> [] -> batch_tick_series F p = Ok (out (VSeries <$> p))) ->
  Forall2 (fun o p => batch_tick_series F p = Ok o)
          (out <$> prefixes (VSeries <$> ss)) (prefixes ss).
Proof.
  intros Hout. rewrite prefixes_fmap, <- list_fmap_compose.
  apply Forall2_fmap_l.
  pose proof (Forall_prefixes (fun _ => True) ss) as Hp.
  assert (Forall (fun _ : pd.Series => True) ss) as Htrue
    by (apply Forall_forall; done).
  specialize (Hp Htrue).
  induction Hp as [|p ps [Hne _] Hps IH]; constructor; [|done].
  cbn. by apply Hout.
Qed.

Section series_batch.
Context `{Platform}.

Lemma sum_series_run (h : Handle) (src : nat) (chunks : list value) :
  stream h = streamz.Source src ->
  is_Series (example h) = true ->
  Forall (fun x => is_Series x = true) chunks ->
  exists h',
    StreamingFrame.sum h = Ok h' /\
    type_of h' = TStreaming /\
    streamz.run src (stream h') chunks
    = Ok ((fun p => [VNum (Fin (total_sum (pd.KStr "") p))]) <$> prefixes chunks).
Proof.
  intros Hsrc Hex Hsl.
  unfold StreamingFrame.sum, Streaming.accumulate_partitions.
  cbn [from_option id]. rewrite (accumulate_sum_first_series (pd.KStr "") (example h) Hex).
  cbn [mbind result_bind]. unfold Streaming.wrap.
  cbn [is_DataFrame is_Series]. unfold Streaming.__init__. cbn [_subtype from_option id].
  eexists. split; [reflexivity|]. split; [reflexivity|]. cbn [stream]. rewrite Hsrc.
  unfold streamz.run. cbn [streamz.init].
  destruct Hsl as [|x rest Hx Hrest]; [done|].
  cbn [streamz.run_from]. rewrite feed_accumulate_source.
  cbn [streamz.accumulate_update].
  rewrite (accumulate_sum_first_series (pd.KStr "") x Hx).
  cbn [mbind result_bind fst snd].
  erewrite (run_sum_series _ (pd.KStr "")) by done.
  cbn [mbind result_bind].
  rewrite prefixes_cons, fmap_cons, <- list_fmap_compose. f_equal. f_equal.
  - rewrite total_sum_cons. cbn [total_sum foldr].
    by rewrite Qcplus_0_l, Qcplus_0_r.
  - apply list_fmap_ext. intros _ p _. unfold compose.
    by rewrite total_sum_cons, Qcplus_0_l.
Qed.

Lemma mean_series_run (h : Handle) (src : nat) (chunks : list value) :
  stream h = streamz.Source src ->
  is_Series (example h) = true ->
  Forall (fun x => is_Series x = true) chunks ->
  exists h',
    StreamingSeries.mean h = Ok h' /\
    type_of h' = TStreaming /\
    streamz.run src (stream h') chunks
    = Ok ((fun p => [VNum (num_truediv (Fin (total_sum (pd.KStr "") p))
                                       (Fin (total_count (pd.KStr "") p)))])
            <$> prefixes chunks).
Proof.
  intros Hsrc Hex Hsl.
  unfold StreamingSeries.mean, Streaming.accumulate_partitions.
  cbn [from_option id]. unfold num_of_Z. change (Q2Qc (inject_Z 0)) with 0%Qc.
  rewrite (accumulate_mean_series (pd.KStr "") 0 0 (example h)) by done.
  cbn [mbind result_bind fmap result_fmap unpack2 snd]. unfold Streaming.wrap.
  cbn [is_DataFrame is_Series]. unfold Streaming.__init__.
  cbn [_subtype from_option id].
  eexists. split; [reflexivity|]. split; [reflexivity|]. cbn [stream]. rewrite Hsrc.
  unfold streamz.run. cbn [streamz.init].
  rewrite (run_mean_series src (pd.KStr "") _ 0 0) by done.
  f_equal. apply list_fmap_ext. intros _ p _. by rewrite !Qcplus_0_l.
Qed.

(** Property X18. Series handles against the concatenation. On a Series
    handle fed at its source with Series chunks whose cells are integers
    small enough for every sum to be exact, [sum()] and [mean()] return
    plain handles (their values are scalars) that emit, at the tick of
    every chunk, the sum and the mean of the concatenation of the chunks
    received so far; the mean of no present cell is [NaN]. *)
Theorem series_aggregates_match_batch (h : Handle) (src : nat)
    (ss : list pd.Series) :
  stream h = streamz.Source src ->
  is_Series (example h) = true ->
  exact_series ss = true ->
  exists hs hm outs_s outs_m,
    StreamingFrame.sum h = Ok hs /\
    StreamingSeries.mean h = Ok hm /\
    type_of hs = TStreaming /\
    type_of hm = TStreaming /\
    streamz.run src (stream hs) (VSeries <$> ss) = Ok outs_s /\
    streamz.run src (stream hm) (VSeries <$> ss) = Ok outs_m /\
    Forall2 (fun out p => batch_tick_series py_sum p = Ok out) outs_s (prefixes ss) /\
    Forall2 (fun out p => batch_tick_series py_mean p = Ok out) outs_m (prefixes ss).
Proof.
  intros Hsrc Hex _.
  assert (Forall (fun x => is_Series x = true) (VSeries <$> ss)) as Hsl.
  { apply Forall_fmap, Forall_forall. done. }
  destruct (sum_series_run h src _ Hsrc Hex Hsl) as (hs & Hs & Hts & Hrs).
  destruct (mean_series_run h src _ Hsrc Hex Hsl) as (hm & Hm & Htm & Hrm).
  exists hs, hm. eexists _, _.
  split; [exact Hs|]. split; [exact Hm|]. split; [exact Hts|]. split; [exact Htm|].
  split; [exact Hrs|]. split; [exact Hrm|]. split.
  - apply (Forall2_prefixes_series
             (fun p => [VNum (Fin (total_sum (pd.KStr "") p))]) py_sum).
    intros p Hne. rewrite total_sum_series.
    by apply (batch_tick_series_agg (fun l => Fin (nansum l))).
  - apply (Forall2_prefixes_series
             (fun p => [VNum (num_truediv (Fin (total_sum (pd.KStr "") p))
                                          (Fin (total_count (pd.KStr "") p)))]) py_mean).
    intros p Hne. rewrite total_sum_series, total_count_series, nanmean_ratio.
    by apply (batch_tick_series_agg pd.nanmean).
Qed.

End series_batch.


(** * Further statements at sample inputs *)

Lemma sample_frames_columns :
  Forall (fun df => pd.columns df = ["a"; "b"]%string) (sample_first :: sample_rest).
Proof. repeat constructor. Defined.

Lemma sample_frame_like :
  frame_like ["a"; "b"]%string (example sample_frame_handle).
Proof. split; reflexivity. Defined.

Lemma sample_column_a : "a"%string ∈ ["a"; "b"]%string.
Proof. apply (bool_decide_unpack _). vm_compute. exact I. Defined.

Lemma sample_column_b : "b"%string ∈ ["a"; "b"]%string.
Proof. apply (bool_decide_unpack _). vm_compute. exact I. Defined.

Lemma sample_no_column_c : "c"%string ∉ ["a"; "b"]%string.
Proof. apply (bool_decide_unpack _). vm_compute. exact I. Defined.

Lemma sum_matches_batch_sum_witness :
  (stream sample_frame_handle = streamz.Source 0 /\
   frame_like ["a"; "b"]%string (example sample_frame_handle) /\
   Forall (fun df => pd.columns df = ["a"; "b"]%string) (sample_first :: sample_rest) /\
   exact_frames ["a"; "b"]%string (sample_first :: sample_rest) = true) /\
  exists h' outs,
    StreamingFrame.sum sample_frame_handle = Ok h' /\
    streamz.run (H := sample_platform) 0 (stream h')
      (VFrame <$> sample_first :: sample_rest) = Ok outs /\
    Forall2 (fun out p => batch_tick py_sum p = Ok out) outs
            (prefixes (sample_first :: sample_rest)).
Proof.
  split.
  - split; [reflexivity|]. split; [exact sample_frame_like|].
    split; [exact sample_frames_columns|reflexivity].
  - apply (sum_matches_batch_sum (H := sample_platform) sample_frame_handle 0%nat
             ["a"; "b"]%string (sample_first :: sample_rest)
             eq_refl sample_frame_like sample_frames_columns eq_refl).
Defined.

Lemma mean_matches_batch_mean_witness :
  (stream sample_frame_handle = streamz.Source 0 /\
   frame_like ["a"; "b"]%string (example sample_frame_handle) /\
   Forall (fun df => pd.columns df = ["a"; "b"]%string) (sample_first :: sample_rest) /\
   exact_frames ["a"; "b"]%string (sample_first :: sample_rest) = true) /\
  exists h' outs,
    StreamingDataFrame.mean sample_frame_handle = Ok h' /\
    streamz.run (H := sample_platform) 0 (stream h')
      (VFrame <$> sample_first :: sample_rest) = Ok outs /\
    Forall2 (fun out p => batch_tick py_mean p = Ok out) outs
            (prefixes (sample_first :: sample_rest)).
Proof.
  split.
  - split; [reflexivity|]. split; [exact sample_frame_like|].
    split; [exact sample_frames_columns|reflexivity].
  - apply (mean_matches_batch_mean (H := sample_platform) sample_frame_handle 0%nat
             ["a"; "b"]%string (sample_first :: sample_rest)
             eq_refl sample_frame_like sample_frames_columns eq_refl).
Defined.

Lemma sample_window : 0 <= 2.
Proof. discriminate. Defined.

Lemma rolling_count_window_is_tail_witness :
  (stream sample_series_handle = streamz.Source 0 /\
   _subtype (type_of sample_series_handle) (example sample_series_handle) = true /\
   0 <= 2) /\
  exists h',
    Streaming.rolling (H := sample_platform) sample_series_handle (VInt 2) 1 = Ok h' /\
    (forall nm (r0 : list (Z * num)) (rest : list (list (Z * num))),
       let mk := series_chunk nm in
       streamz.run (H := sample_platform) 0 (stream h') (mk <$> r0 :: rest)
       = Ok ((if seed_tick_emits (Platform := sample_platform)
              then window_tick mk 1 r0 else [])
             :: ((fun p => window_tick mk 1 (pd.slice_from (- 2) (r0 ++ concat p)))
                   <$> prefixes rest)) /\
       streamz.state_after (H := sample_platform) 0 (stream h') (mk <$> r0 :: rest)
       = Ok (streamz.SFilter
               (streamz.SAcc
                  (Some (mk (match rest with
                             | [] => r0
                             | _ => pd.slice_from (- 2) (r0 ++ concat rest)
                             end)))
                  streamz.SSource))) /\
    (forall cols (r0 : list (Z * gmap label num))
            (rest : list (list (Z * gmap label num))),
       let mk := rows_chunk cols in
       streamz.run (H := sample_platform) 0 (stream h') (mk <$> r0 :: rest)
       = Ok ((if seed_tick_emits (Platform := sample_platform)
              then window_tick mk 1 r0 else [])
             :: ((fun p => window_tick mk 1 (pd.slice_from (- 2) (r0 ++ concat p)))
                   <$> prefixes rest)) /\
       streamz.state_after (H := sample_platform) 0 (stream h') (mk <$> r0 :: rest)
       = Ok (streamz.SFilter
               (streamz.SAcc
                  (Some (mk (match rest with
                             | [] => r0
                             | _ => pd.slice_from (- 2) (r0 ++ concat rest)
                             end)))
                  streamz.SSource))).
Proof.
  split.
  - split; [reflexivity|]. split; [reflexivity|exact sample_window].
  - apply (rolling_count_window_is_tail (H := sample_platform) sample_series_handle
             0%nat 2 1 eq_refl eq_refl sample_window).
Defined.




Lemma sample_chunks_frame_like :
  Forall (frame_like ["a"; "b"]%string) (VFrame <$> sample_first :: sample_rest).
Proof. repeat constructor. Defined.

Lemma sum_mean_handles_witness :
  (stream sample_frame_handle = streamz.Source 0 /\
   frame_like ["a"; "b"]%string (example sample_frame_handle) /\
   Forall (frame_like ["a"; "b"]%string) (VFrame <$> sample_first :: sample_rest)) /\
  exists hs hm outs_s outs_m,
    StreamingFrame.sum sample_frame_handle = Ok hs /\
    StreamingDataFrame.mean sample_frame_handle = Ok hm /\
    type_of hs = TStreamingSeries /\
    type_of hm = TStreamingSeries /\
    py_sum (example sample_frame_handle) = Ok (example hs) /\
    py_mean (example sample_frame_handle) = Ok (example hm) /\
    streamz.run (H := sample_platform) 0 (stream hs)
      (VFrame <$> sample_first :: sample_rest) = Ok outs_s /\
    streamz.run (H := sample_platform) 0 (stream hm)
      (VFrame <$> sample_first :: sample_rest) = Ok outs_m /\
    Forall2 (fun out x => exists y, out = [y] /\ verify hs y = Ok tt) outs_s
            (VFrame <$> sample_first :: sample_rest) /\
    Forall2 (fun out x => exists y, out = [y] /\ verify hm y = Ok tt) outs_m
            (VFrame <$> sample_first :: sample_rest).
Proof.
  split.
  - split; [reflexivity|]. split; [exact sample_frame_like|exact sample_chunks_frame_like].
  - apply (sum_mean_handles (H := sample_platform) sample_frame_handle 0%nat
             ["a"; "b"]%string _ eq_refl sample_frame_like sample_chunks_frame_like).
Defined.

Lemma map_derived_handles_chunkwise_witness :
  let e := pd.empty_frame ["a"; "b"]%string in
  let dfs := sample_first :: sample_rest in
  (stream sample_frame_handle = streamz.Source 0 /\
   example sample_frame_handle = VFrame e /\
   Forall (fun df => pd.columns df = pd.columns e) dfs) /\
  (forall op other,
     is_Some (as_scalar other) ->
     exists h' outs,
       operator_method op sample_frame_handle other = Ok h' /\
       type_of h' = TStreamingDataFrame /\
       py_columns (example h') = Ok (pd.columns e) /\
       streamz.run (H := sample_platform) 0 (stream h') (VFrame <$> dfs) = Ok outs /\
       chunkwise (fun x => py_binop op x other) h' outs (VFrame <$> dfs)) /\
  (forall c,
     c ∈ pd.columns e ->
     exists h' outs,
       StreamingDataFrame.__getitem__ sample_frame_handle (VStr c) = Ok h' /\
       type_of h' = TStreamingSeries /\
       streamz.run (H := sample_platform) 0 (stream h') (VFrame <$> dfs) = Ok outs /\
       chunkwise (fun x => py_getitem x (VStr c)) h' outs (VFrame <$> dfs)) /\
  (forall cs,
     Forall (fun c => c ∈ pd.columns e) cs ->
     exists h' outs,
       StreamingDataFrame.__getitem__ sample_frame_handle (VList (VStr <$> cs)) = Ok h' /\
       type_of h' = TStreamingDataFrame /\
       py_columns (example h') = Ok cs /\
       streamz.run (H := sample_platform) 0 (stream h') (VFrame <$> dfs) = Ok outs /\
       chunkwise (fun x => py_getitem x (VList (VStr <$> cs))) h' outs (VFrame <$> dfs)).
Proof.
  cbn zeta. split.
  - split; [reflexivity|]. split; [reflexivity|exact sample_frames_columns].
  - apply (map_derived_handles_chunkwise (H := sample_platform) sample_frame_handle
             0%nat (pd.empty_frame ["a"; "b"]%string) (sample_first :: sample_rest)
             eq_refl eq_refl sample_frames_columns).
Defined.

Lemma missing_column_errors_witness :
  let e := pd.empty_frame ["a"; "b"]%string in
  (type_of sample_frame_handle = TStreamingDataFrame /\
   example sample_frame_handle = VFrame e /\
   "c"%string ∉ pd.columns e) /\
  StreamingDataFrame.__getitem__ sample_frame_handle (VStr "c") = Raise KeyError /\
  ("c"%string ∉ names TStreamingDataFrame ->
   object_attr (Platform := sample_platform) "c" = false ->
   getattribute (H := sample_platform) sample_frame_handle "c" = Raise AttributeError) /\
  (forall idx,
     StreamingSeriesGroupby.sum (H := sample_platform)
       (mkGroupby sample_frame_handle (Static (VStr "c")) idx) = Raise KeyError /\
     StreamingSeriesGroupby.mean (H := sample_platform)
       (mkGroupby sample_frame_handle (Static (VStr "c")) idx) = Raise KeyError) /\
  (forall k,
     k ∈ pd.columns e ->
     StreamingSeriesGroupby.sum (H := sample_platform)
       (mkGroupby sample_frame_handle (Static (VStr k)) (VStr "c")) = Raise KeyError /\
     StreamingSeriesGroupby.mean (H := sample_platform)
       (mkGroupby sample_frame_handle (Static (VStr k)) (VStr "c")) = Raise KeyError) /\
  (forall g idx,
     StreamingSeriesGroupby.getattribute (H := sample_platform)
       (mkGroupby sample_frame_handle g idx) "c"
     = if bool_decide ("c"%string ∈ StreamingSeriesGroupby_names)
          || object_attr (Platform := sample_platform) "c"
       then Ok (GroupMember "c") else Raise AttributeError).
Proof.
  cbn zeta. split.
  - split; [reflexivity|]. split; [reflexivity|exact sample_no_column_c].
  - apply (missing_column_errors (H := sample_platform) sample_frame_handle
             (pd.empty_frame ["a"; "b"]%string) "c" eq_refl eq_refl sample_no_column_c).
Defined.

Lemma sample_own_column (df : pd.DataFrame) :
  is_in_obj (Platform := sample_platform) df (pd.getitem_column df "a") = true.
Proof. reflexivity. Defined.

Lemma grouped_streamed_key_homomorphism_witness :
  let e := pd.empty_frame ["a"; "b"]%string in
  let cat := concat_all sample_first sample_rest in
  let g := pd.groupby_columns cat ["a"%string] in
  ((forall df, is_in_obj (Platform := sample_platform) df (pd.getitem_column df "a")
               = true) /\
   stream sample_frame_handle = streamz.Source 0 /\
   example sample_frame_handle = VFrame e /\
   Forall (fun df => pd.columns df = pd.columns e) (sample_first :: sample_rest) /\
   exact_frames (pd.columns e) (sample_first :: sample_rest) = true /\
   "a"%string ∈ pd.columns e /\
   batch_grouped (H := sample_platform) group_sum sample_first sample_rest
     (VSeries (pd.getitem_column cat "a")) VNone = Ok (group_sum g) /\
   batch_grouped (H := sample_platform) group_mean sample_first sample_rest
     (VSeries (pd.getitem_column cat "a")) VNone = Ok (group_mean g)) /\
  exists hg hs hm outs_sum outs_mean,
    StreamingDataFrame.__getitem__ sample_frame_handle (VStr "a") = Ok hg /\
    StreamingSeriesGroupby.sum (H := sample_platform)
      (mkGroupby sample_frame_handle (Streamed hg) VNone) = Ok hs /\
    StreamingSeriesGroupby.mean (H := sample_platform)
      (mkGroupby sample_frame_handle (Streamed hg) VNone) = Ok hm /\
    streamz.run (H := sample_platform) 0 (stream hs)
      (VFrame <$> sample_first :: sample_rest) = Ok outs_sum /\
    last outs_sum = Some [group_sum g] /\
    streamz.run (H := sample_platform) 0 (stream hm)
      (VFrame <$> sample_first :: sample_rest) = Ok outs_mean /\
    last outs_mean = Some [group_mean g] /\
    batch_grouped (H := sample_platform) group_sum sample_first sample_rest
      (VStr "a") VNone = Ok (group_sum g) /\
    batch_grouped (H := sample_platform) group_mean sample_first sample_rest
      (VStr "a") VNone = Ok (group_mean g) /\
    (VNone = VNone ->
     py_columns (group_sum g)
     = Ok (filter (fun c => c ∉ ["a"%string]) (pd.columns e))).
Proof.
  cbn zeta. split.
  - split; [exact sample_own_column|].
    split; [reflexivity|]. split; [reflexivity|]. split; [exact sample_frames_columns|].
    split; [reflexivity|]. split; [exact sample_column_a|]. split; reflexivity.
  - apply (grouped_streamed_key_homomorphism (H := sample_platform) "a"
             sample_own_column sample_frame_handle 0%nat VNone
             (pd.empty_frame ["a"; "b"]%string) sample_first sample_rest _ _
             eq_refl eq_refl sample_frames_columns eq_refl sample_column_a
             eq_refl eq_refl).
Defined.

Lemma sample_b_is_not_a : "b"%string <> "a"%string.
Proof. discriminate. Defined.

Lemma grouped_selection_commutes_witness :
  let e := pd.empty_frame ["a"; "b"]%string in
  let chunks := VFrame <$> sample_first :: sample_rest in
  let whole := StreamingDataFrame.groupby sample_frame_handle (Static (VStr "a")) in
  let part := StreamingSeriesGroupby.__getitem__ whole (VStr "b") in
  (type_of sample_frame_handle = TStreamingDataFrame /\
   stream sample_frame_handle = streamz.Source 0 /\
   example sample_frame_handle = VFrame e /\
   Forall (fun df => pd.columns df = pd.columns e) (sample_first :: sample_rest) /\
   "a"%string ∈ pd.columns e /\
   "b"%string ∈ pd.columns e /\
   "b"%string <> "a"%string) /\
  StreamingSeriesGroupby.getattribute (H := sample_platform) whole "b"
  = Ok (if bool_decide ("b"%string ∈ StreamingSeriesGroupby_names)
           || object_attr (Platform := sample_platform) "b"
        then GroupMember "b" else Selected part) /\
  exists hs hm hs_c hm_c outs_s outs_m outs_sc outs_mc tbl_s tbl_m col_s col_m,
    StreamingSeriesGroupby.sum (H := sample_platform) whole = Ok hs /\
    StreamingSeriesGroupby.mean (H := sample_platform) whole = Ok hm /\
    StreamingSeriesGroupby.sum (H := sample_platform) part = Ok hs_c /\
    StreamingSeriesGroupby.mean (H := sample_platform) part = Ok hm_c /\
    streamz.run (H := sample_platform) 0 (stream hs) chunks = Ok outs_s /\
    streamz.run (H := sample_platform) 0 (stream hm) chunks = Ok outs_m /\
    streamz.run (H := sample_platform) 0 (stream hs_c) chunks = Ok outs_sc /\
    streamz.run (H := sample_platform) 0 (stream hm_c) chunks = Ok outs_mc /\
    last outs_s = Some [tbl_s] /\
    last outs_m = Some [tbl_m] /\
    py_getitem tbl_s (VStr "b") = Ok col_s /\
    py_getitem tbl_m (VStr "b") = Ok col_m /\
    last outs_sc = Some [col_s] /\
    last outs_mc = Some [col_m].
Proof.
  cbn zeta. split.
  - split; [reflexivity|]. split; [reflexivity|]. split; [reflexivity|].
    split; [exact sample_frames_columns|]. split; [exact sample_column_a|].
    split; [exact sample_column_b|exact sample_b_is_not_a].
  - apply (grouped_selection_commutes (H := sample_platform) sample_frame_handle
             0%nat "a" "b" (pd.empty_frame ["a"; "b"]%string) sample_first sample_rest
             eq_refl eq_refl eq_refl sample_frames_columns
             sample_column_a sample_column_b sample_b_is_not_a).
Defined.

Lemma sum_after_rolling_is_cumulative_witness :
  let chunks := series_chunk None <$> [(0, num_of_Z 1)] :: [[(1, num_of_Z 2)]; [(2, num_of_Z 3)]] in
  (stream sample_series_handle = streamz.Source 0 /\
   type_of sample_series_handle = TStreamingSeries /\
   is_Series (example sample_series_handle) = true /\
   0 <= 2) /\
  exists hr hs windows,
    Streaming.rolling (H := sample_platform) sample_series_handle (VInt 2) 1 = Ok hr /\
    StreamingFrame.sum hr = Ok hs /\
    streamz.run (H := sample_platform) 0 (stream hr) chunks = Ok windows /\
    streamz.run (H := sample_platform) 0 (stream hs) chunks
    = Ok (running_totals 0 windows).
Proof.
  cbn zeta. split.
  - split; [reflexivity|]. split; [reflexivity|]. split; [reflexivity|exact sample_window].
  - apply (sum_after_rolling_is_cumulative (H := sample_platform) sample_series_handle
             0%nat 2 1 None [(0, num_of_Z 1)] [[(1, num_of_Z 2)]; [(2, num_of_Z 3)]]
             eq_refl eq_refl eq_refl sample_window).
Defined.

Lemma round_keeps_schema_and_is_idempotent_witness :
  let e := pd.empty_frame ["a"; "b"]%string in
  let chunks := VFrame <$> sample_first :: sample_rest in
  (stream sample_frame_handle = streamz.Source 0 /\
   example sample_frame_handle = VFrame e /\
   Forall (fun df => pd.columns df = pd.columns e) (sample_first :: sample_rest)) /\
  exists h1 h2 outs,
    StreamingFrame.round sample_frame_handle 1 = Ok h1 /\
    StreamingFrame.round h1 1 = Ok h2 /\
    type_of h1 = TStreamingDataFrame /\
    py_columns (example h1) = Ok (pd.columns e) /\
    streamz.run (H := sample_platform) 0 (stream h1) chunks = Ok outs /\
    chunkwise (py_round 1) h1 outs chunks /\
    type_of h2 = type_of h1 /\
    example h2 = example h1 /\
    streamz.run (H := sample_platform) 0 (stream h2) chunks = Ok outs.
Proof.
  cbn zeta. split.
  - split; [reflexivity|]. split; [reflexivity|exact sample_frames_columns].
  - apply (round_keeps_schema_and_is_idempotent (H := sample_platform)
             sample_frame_handle 0%nat 1 (pd.empty_frame ["a"; "b"]%string)
             (sample_first :: sample_rest) eq_refl eq_refl sample_frames_columns).
Defined.

Lemma dir_lists_resolvable_names_witness :
  let isidentifier := fun _ : string => true in
  (type_of sample_frame_handle = TStreamingDataFrame /\
   frame_like ["a"; "b"]%string (example sample_frame_handle)) /\
  (forall name,
     __dir__ (H := sample_platform) isidentifier sample_frame_handle name = Ok true ->
     exists a, getattribute (H := sample_platform) sample_frame_handle name = Ok a) /\
  (forall name,
     name ∈ ["a"; "b"]%string -> isidentifier name = true ->
     __dir__ (H := sample_platform) isidentifier sample_frame_handle name = Ok true).
Proof.
  cbn zeta. split.
  - split; [reflexivity|exact sample_frame_like].
  - apply (dir_lists_resolvable_names (H := sample_platform) (fun _ => true)
             sample_frame_handle ["a"; "b"]%string eq_refl sample_frame_like).
Defined.

Lemma emit_skips_refused_chunks_witness :
  let s := streamz.accumulate _accumulate_sum (Some (VInt 0)) false (streamz.Source 0) in
  let xs := [VFrame sample_first; VFrame sample_narrow; VInt 3] ++ (VFrame <$> sample_rest) in
  exists st,
    streamz.state_after (H := sample_platform) 0 s (accepted sample_frame_handle xs)
    = Ok st /\
    accepted sample_frame_handle xs = VFrame <$> sample_first :: sample_rest /\
    emit_all xs (mkWorld sample_frame_handle [subscribe (H := sample_platform) 0 s])
    = (verify sample_frame_handle <$> xs,
       mkWorld sample_frame_handle [subscriber_at (H := sample_platform) 0 s st]).
Proof.
  cbn zeta.
  assert (exists st,
            streamz.state_after (H := sample_platform) 0
              (streamz.accumulate _accumulate_sum (Some (VInt 0)) false (streamz.Source 0))
              (accepted sample_frame_handle
                 ([VFrame sample_first; VFrame sample_narrow; VInt 3]
                  ++ (VFrame <$> sample_rest)))
            = Ok st) as [st Hst].
  { eexists. reflexivity. }
  exists st. split; [exact Hst|]. split; [reflexivity|].
  apply (emit_skips_refused_chunks (H := sample_platform) sample_frame_handle 0%nat
           _ _ st Hst).
Defined.


Lemma series_aggregates_match_batch_witness :
  let ss := [pd.mkSeries None [(0, num_of_Z 1); (1, NaN)];
             pd.mkSeries None [(2, num_of_Z 5)]] in
  (stream sample_series_handle = streamz.Source 0 /\
   is_Series (example sample_series_handle) = true /\
   exact_series ss = true) /\
  exists hs hm outs_s outs_m,
    StreamingFrame.sum sample_series_handle = Ok hs /\
    StreamingSeries.mean sample_series_handle = Ok hm /\
    type_of hs = TStreaming /\
    type_of hm = TStreaming /\
    streamz.run (H := sample_platform) 0 (stream hs) (VSeries <$> ss) = Ok outs_s /\
    streamz.run (H := sample_platform) 0 (stream hm) (VSeries <$> ss) = Ok outs_m /\
    Forall2 (fun out p => batch_tick_series py_sum p = Ok out) outs_s (prefixes ss) /\
    Forall2 (fun out p => batch_tick_series py_mean p = Ok out) outs_m (prefixes ss).
Proof.
  cbn zeta. split.
  - split; [reflexivity|]. split; reflexivity.
  - apply (series_aggregates_match_batch (H := sample_platform) sample_series_handle
             0%nat
             [pd.mkSeries None [(0, num_of_Z 1); (1, NaN)];
              pd.mkSeries None [(2, num_of_Z 5)]]
             eq_refl eq_refl eq_refl).
Defined.

Lemma sample_example_given : VInt 7 <> VNone.
Proof. discriminate. Defined.

Lemma example_keyword_skips_evaluation_witness :
  let func : callable := operator Add in
  let e := VInt 7 in
  e <> VNone /\
  exists h',
    Streaming.map_partitions sample_frame_handle func [VStr "x"] (Some e) = Ok h' /\
    example h' = e /\
    stream h' = streamz.map (fun x => func x [VStr "x"]) (stream sample_frame_handle).
Proof.
  cbn zeta. split; [exact sample_example_given|].
  destruct (example_keyword_skips_evaluation sample_frame_handle (operator Add)
              [VStr "x"] _accumulate_sum None (VInt 7) sample_example_given)
    as (Hmap & _).
  exact Hmap.
Defined.
